(** * ADNSU IT support bot: message router, ticket wizard and ticket lifecycle

    A shallow embedding of the core of [src/bot.js] (class [ADNSUITBot]):
    [handleMessage], [handleCommands], the ticket wizard
    ([startNewTicket], [continueTicket], [handleStep1] .. [handleStep4],
    [completeTicket], [handleTicketError]) and the ticket lifecycle commands
    ([markSolved], [handleLongTerm], [handleUnsolved], [handleAssign],
    [handleNoAssign]).

    Conventions of the embedding.
    - Every handler is a function from the bot's state to the new state and
      the list of effects it emitted, in order (replies, messages to the
      group, log lines). A handler that can throw returns an [option]:
      [None] is the exception, raised before the handler has done anything.
    - The handlers take a message as a whole. The listener of the client
      does not wait for a handler before it starts the next one: what holds
      along [receive] holds for the messages handled one after the other,
      and [assignTask] follows [handleAssign] statement by statement, for
      the runs in which two handlers overlap.
    - A JavaScript string is a Rocq [string] that holds its UTF-8 encoding.
      [trim], the class [\s] and [.length] go by the characters and the
      UTF-16 code units of the text; [toUpperCase] and the tests that ignore
      case are written out for the letters of ASCII, where the code uses
      them to decide.
    - The wrapper [withPerformanceMonitoring] only measures time, logs it and
      rethrows; it is left out, and so are the timing statistics.
    - Sending, logging and appending to a file are modelled as effects
      that succeed. *)

From Stdlib Require Import ZArith String Ascii List Bool Lia DecimalString.
From stdpp Require Import base option gmap strings list fin_maps.

Local Open Scope string_scope.
Local Open Scope Z_scope.
Local Open Scope list_scope.

(** ** JavaScript strings *)

Module Js.

(** A text is kept as its UTF-8 encoding, a [string] of bytes; [len] below
    counts its UTF-16 code units, as [.length] does. A text with a lone
    surrogate has no such encoding and is outside the model. *)

(** The white space of [trim], of [\s] and of [parseInt]: U+0009 to U+000D,
    U+0020, U+00A0, U+1680, U+2000 to U+200A, U+2028, U+2029, U+202F,
    U+205F, U+3000 and U+FEFF, by the values of the one, two or three bytes
    of the encoding. *)
Definition white1 (x : nat) : bool := (Nat.leb 9 x && Nat.leb x 13) || Nat.eqb x 32.

Definition white2 (x y : nat) : bool := Nat.eqb x 194 && Nat.eqb y 160.

Definition white3 (x y z : nat) : bool :=
  (Nat.eqb x 225 && Nat.eqb y 154 && Nat.eqb z 128)
  || (Nat.eqb x 226 && Nat.eqb y 128
      && ((Nat.leb 128 z && Nat.leb z 138) || Nat.eqb z 168 || Nat.eqb z 169 || Nat.eqb z 175))
  || (Nat.eqb x 226 && Nat.eqb y 129 && Nat.eqb z 159)
  || (Nat.eqb x 227 && Nat.eqb y 128 && Nat.eqb z 128)
  || (Nat.eqb x 239 && Nat.eqb y 187 && Nat.eqb z 191).

(** The number of bytes of the white-space character that [s] begins with;
    0 when it begins with none. *)
Definition whiteWidth (s : string) : nat :=
  match s with
  | String a r =>
      if white1 (nat_of_ascii a) then 1%nat
      else match r with
           | String b r' =>
               if white2 (nat_of_ascii a) (nat_of_ascii b) then 2%nat
               else match r' with
                    | String c _ =>
                        if white3 (nat_of_ascii a) (nat_of_ascii b) (nat_of_ascii c)
                        then 3%nat else 0%nat
                    | EmptyString => 0%nat
                    end
           | EmptyString => 0%nat
           end
  | EmptyString => 0%nat
  end.

(** [w] is one white-space character. *)
Definition isWhite (w : string) : bool :=
  match whiteWidth w with
  | O => false
  | S k => Nat.eqb (S k) (String.length w)
  end.

Definition isDigit (c : ascii) : bool :=
  let n := nat_of_ascii c in Nat.leb 48 n && Nat.leb n 57.

Definition digitVal (c : ascii) : Z := Z.of_nat (nat_of_ascii c) - 48.

(** The first [n] bytes of a text, and the text without them. *)
Fixpoint drop (n : nat) (s : string) : string :=
  match n, s with
  | O, _ => s
  | S n', String _ s' => drop n' s'
  | S _, EmptyString => EmptyString
  end.

Fixpoint take (n : nat) (s : string) : string :=
  match n, s with
  | S n', String c s' => String c (take n' s')
  | _, _ => EmptyString
  end.

(** [s.trimStart()]: the white space at the start goes, character by
    character; [skip] counts the bytes of the character being dropped that
    are still to come. *)
Fixpoint dropWhite (skip : nat) (s : string) : string :=
  match s with
  | EmptyString => EmptyString
  | String _ r =>
      match skip with
      | S k => dropWhite k r
      | O => match whiteWidth s with
             | S k => dropWhite k r
             | O => s
             end
      end
  end.

Definition trimStart (s : string) : string := dropWhite 0 s.

(** [s.trimEnd()], from the last byte backwards: a byte that makes up one
    white-space character with what is left of the text after it goes, and
    what is left with it. *)
Fixpoint trimEnd (s : string) : string :=
  match s with
  | EmptyString => EmptyString
  | String c s' => let t := trimEnd s' in
                   if isWhite (String c t) then EmptyString else String c t
  end.

(** [s.trim()] *)
Definition trim (s : string) : string := trimEnd (trimStart s).

(** Every character of [s] is white space or one byte with [ok]: no
    character is outside the class [[...\s]] of a regular expression whose
    other members are the ASCII characters with [ok]. *)
Fixpoint onlyChars (ok : ascii -> bool) (skip : nat) (s : string) : bool :=
  match s with
  | EmptyString => true
  | String a r =>
      match skip with
      | S k => onlyChars ok k r
      | O => match whiteWidth s with
             | S k => onlyChars ok k r
             | O => ok a && onlyChars ok 0 r
             end
      end
  end.

Definition upperChar (c : ascii) : ascii :=
  let n := nat_of_ascii c in
  if Nat.leb 97 n && Nat.leb n 122 then ascii_of_nat (n - 32) else c.

Definition lowerChar (c : ascii) : ascii :=
  let n := nat_of_ascii c in
  if Nat.leb 65 n && Nat.leb n 90 then ascii_of_nat (n + 32) else c.

Fixpoint mapChars (f : ascii -> ascii) (s : string) : string :=
  match s with
  | EmptyString => EmptyString
  | String c s' => String (f c) (mapChars f s')
  end.

(** [s.toUpperCase()], on the letters of ASCII; the bytes of the other
    characters stay. [handleStep2], the one place that calls it, refuses a
    room with a letter outside ASCII in either reading: no such letter has an
    upper-case form made of A to E; only the text of the refusal can
    differ. *)
Definition toUpperCase : string -> string := mapChars upperChar.

(** The lower-case form of the letters of ASCII, for the test [/^salam$/i],
    which takes no character outside ASCII for one of ASCII. *)
Definition toLowerCase : string -> string := mapChars lowerChar.

(** The UTF-16 code units that a byte of the encoding stands for: one for a
    byte that starts a character of one, two or three bytes, two for a byte
    that starts a character of four bytes (a surrogate pair), none for a
    continuation byte. *)
Definition units (c : ascii) : Z :=
  let n := nat_of_ascii c in
  if Nat.ltb n 128 then 1 else if Nat.ltb n 192 then 0 else if Nat.ltb n 240 then 1 else 2.

(** [s.length] *)
Fixpoint len (s : string) : Z :=
  match s with
  | EmptyString => 0
  | String c s' => units c + len s'
  end.

(** [s.substring(n)] and [s.substring(a, b)] for [0 <= a <= b], counted in
    code units: the bytes of a character stay together. A cut inside a
    surrogate pair leaves no text, and is outside the model. *)
Fixpoint dropUnits (n : Z) (s : string) : string :=
  match s with
  | EmptyString => EmptyString
  | String c s' => if units c >? n then s else dropUnits (n - units c) s'
  end.

Fixpoint takeUnits (n : Z) (s : string) : string :=
  match s with
  | EmptyString => EmptyString
  | String c s' => if units c >? n then EmptyString else String c (takeUnits (n - units c) s')
  end.

Definition substring (a b : Z) (s : string) : string := takeUnits (b - a) (dropUnits a s).

(** [s.startsWith(p)] *)
Fixpoint startsWith (p s : string) : bool :=
  match p, s with
  | EmptyString, _ => true
  | String a p', String b s' => if Ascii.eqb a b then startsWith p' s' else false
  | String _ _, EmptyString => false
  end.

(** [s.includes(p)] *)
Fixpoint includes (p s : string) : bool :=
  startsWith p s ||
  match s with
  | EmptyString => false
  | String _ s' => includes p s'
  end.

(** [s.endsWith(p)] *)
Fixpoint endsWith (p s : string) : bool :=
  String.eqb p s ||
  match s with
  | EmptyString => false
  | String _ s' => endsWith p s'
  end.

(** [s.replace(p, r)] with a string pattern: the first occurrence only. *)
Fixpoint replaceFirst (p r s : string) : string :=
  if startsWith p s then r +:+ drop (String.length p) s
  else match s with
       | EmptyString => EmptyString
       | String c s' => String c (replaceFirst p r s')
       end.

(** [s.split(sep)] for a one-character separator. *)
Fixpoint split (sep : ascii) (s : string) : list string :=
  match s with
  | EmptyString => [EmptyString]
  | String c s' =>
      if Ascii.eqb c sep then EmptyString :: split sep s'
      else match split sep s' with
           | w :: ws => String c w :: ws
           | [] => [String c EmptyString]
           end
  end.

(** The longest prefix of characters satisfying [p], and what follows. *)
Fixpoint takeWhile (p : ascii -> bool) (s : string) : string :=
  match s with
  | String c s' => if p c then String c (takeWhile p s') else EmptyString
  | EmptyString => EmptyString
  end.

Fixpoint dropWhile (p : ascii -> bool) (s : string) : string :=
  match s with
  | String c s' => if p c then dropWhile p s' else s
  | EmptyString => EmptyString
  end.

Fixpoint existsChar (p : ascii -> bool) (s : string) : bool :=
  match s with
  | String c s' => p c || existsChar p s'
  | EmptyString => false
  end.

(** [parseInt(ds, 10)] on a run of decimal digits. *)
Definition parseDec (ds : string) : Z :=
  (fix go (acc : Z) (s : string) : Z :=
     match s with
     | EmptyString => acc
     | String c s' => go (10 * acc + digitVal c) s'
     end) 0 ds.

(** [s.match(/\d+/g)]: the maximal digit runs of [s], left to right.
    [cur] is the run being read. *)
Fixpoint digitRunsFrom (cur : string) (s : string) : list string :=
  match s with
  | EmptyString => match cur with EmptyString => [] | _ => [cur] end
  | String c s' =>
      if isDigit c then digitRunsFrom (cur +:+ String c EmptyString) s'
      else match cur with
           | EmptyString => digitRunsFrom EmptyString s'
           | _ => cur :: digitRunsFrom EmptyString s'
           end
  end.

Definition digitRuns (s : string) : list string := digitRunsFrom EmptyString s.

(** Value of a hexadecimal digit, if it is one. *)
Definition hexVal (c : ascii) : option Z :=
  let n := nat_of_ascii c in
  if isDigit c then Some (digitVal c)
  else if Nat.leb 97 n && Nat.leb n 102 then Some (Z.of_nat n - 87)
  else if Nat.leb 65 n && Nat.leb n 70 then Some (Z.of_nat n - 55)
  else None.

Definition radixVal (radix : Z) (c : ascii) : option Z :=
  if Z.eqb radix 16 then hexVal c
  else if isDigit c then Some (digitVal c) else None.

Fixpoint parseRadix (radix : Z) (acc : option Z) (s : string) : option Z :=
  match s with
  | EmptyString => acc
  | String c s' =>
      match radixVal radix c with
      | Some d => parseRadix radix (Some (radix * default 0 acc + d)) s'
      | None => acc
      end
  end.

(** [parseInt(s)] without a radix: leading white space, a sign, an optional
    [0x] prefix, then the longest run of digits; [None] is [NaN]. *)
Definition parseInt (s : string) : option Z :=
  let s1 := trimStart s in
  let '(neg, s2) :=
    match s1 with
    | String "-" r => (true, r)
    | String "+" r => (false, r)
    | _ => (false, s1)
    end in
  let '(radix, s3) :=
    match s2 with
    | String "0" (String "x" r) => (16, r)
    | String "0" (String "X" r) => (16, r)
    | _ => (10, s2)
    end in
  match parseRadix radix None s3 with
  | Some v => Some (if neg then - v else v)
  | None => None
  end.

(** Template rendering of an integer, [`${n}`]. *)
Definition showZ (n : Z) : string := NilZero.string_of_int (Z.to_int n).

(** [x || d] on a string that may be missing: the empty string is falsy. *)
Definition orElse (o : option string) (d : string) : string :=
  match o with
  | Some s => if String.eqb s "" then d else s
  | None => d
  end.

(** Truthiness of a value that is a string or [null]. *)
Definition truthy (o : option string) : bool :=
  match o with
  | Some s => negb (String.eqb s "")
  | None => false
  end.

End Js.


(** A line feed, for the texts the bot sends. *)
Definition nl : string := String (ascii_of_nat 10) EmptyString.

(** ** Messages and effects *)

(** What [message.downloadMedia()] yields. *)
Inductive Download :=
| DownloadError                      (* the promise rejects *)
| NoMediaData                        (* no media, or media without data *)
| MediaData (sizeInBytes : Z).       (* length of the decoded buffer *)

(** An inbound message of the channel. [body] is [None] when the message
    carries no string body; [notifyName] is [message._data.notifyName]. *)
Record Message := {
  from : string;
  fromMe : bool;
  body : option string;
  hasMedia : bool;
  downloadMedia : Download;
  notifyName : option string
}.

Inductive Effect :=
| Reply (text : string)                 (* message.reply(text) *)
| SendMessage (chatId text : string)    (* client.sendMessage(chatId, text) *)
| AppendFile (file line : string)       (* fs.appendFileSync(file, line) *)
| Log (level text : string)             (* logger.<level>(text, ...) *)
| Console (line : string).              (* console.log(line) *)

(** An effect that reaches nobody: it only records. *)
Definition isRecord (e : Effect) : bool :=
  match e with
  | AppendFile _ _ | Log _ _ | Console _ => true
  | Reply _ | SendMessage _ _ => false
  end.

(** ** The ticket store *)

Module Db.

Inductive Status := open | long_term | solved.

Definition Status_eqb (a b : Status) : bool :=
  match a, b with
  | open, open | long_term, long_term | solved, solved => true
  | _, _ => false
  end.

Definition showStatus (s : Status) : string :=
  match s with open => "open" | long_term => "long_term" | solved => "solved" end.

(** A row of the table [tickets], with the columns the bot writes. *)
Record Ticket := {
  id : Z;
  user_id : string;
  username : string;
  phone : string;
  corpus : option string;
  room : option string;
  problem_type : option string;
  status : Status;
  created_at : string;
  solved_at : option string;
  assigned_admin : option string;
  assigned_admin_name : option string;
  solution : option string;
  solved_by_phone : option string
}.

(** Modelled from the spec: the persistent store ([database.js] is not among
    the sources). It exposes queries and updates, assigns ticket ids that
    increase and are never reused, and a query or update may fail as a
    whole ([online] is false then, and every call rejects). *)
Record Store := {
  tickets : list Ticket;
  nextId : Z;
  admin_profiles : gmap string string;
  online : bool
}.

Definition with_tickets (f : list Ticket -> list Ticket) (s : Store) : Store :=
  {| tickets := f (tickets s); nextId := nextId s;
     admin_profiles := admin_profiles s; online := online s |}.

Definition hasId (i : Z) (t : Ticket) : bool := Z.eqb (id t) i.

(** [SELECT * FROM tickets WHERE id = ?]; a parameter that is no number
    ([NaN], a text that is no integer) selects nothing. *)
Definition ticketById (s : Store) (i : option Z) : option Ticket :=
  match i with
  | Some i => List.find (hasId i) (tickets s)
  | None => None
  end.

(** [assigned_admin = ? AND status NOT IN ('solved', 'long_term')];
    a NULL parameter is equal to nothing. *)
Definition isActiveOf (admin : option string) (t : Ticket) : bool :=
  match admin, assigned_admin t with
  | Some a, Some b => String.eqb a b && Status_eqb (status t) open
  | _, _ => false
  end.

(** [SELECT id FROM tickets WHERE assigned_admin = ? AND status NOT IN (..)],
    first row. *)
Definition activeTicketOf (s : Store) (admin : option string) : option Ticket :=
  List.find (isActiveOf admin) (tickets s).

(** [UPDATE tickets SET ... WHERE id = ?] *)
Definition updateTicket (i : option Z) (f : Ticket -> Ticket) (s : Store) : Store :=
  match i with
  | Some i => with_tickets (List.map (fun t => if hasId i t then f t else t)) s
  | None => s
  end.

(** [SELECT name FROM admin_profiles WHERE phone = ?] *)
Definition profileName (s : Store) (phone : option string) : option string :=
  match phone with
  | Some p => admin_profiles s !! p
  | None => None
  end.

(** [INSERT INTO tickets (user_id, username, phone, corpus, room,
    problem_type, status, created_at) VALUES (...)]: the other columns are
    NULL, the id is the store's next one. *)
Definition insertTicket (uid uname ph : string) (c r p : option string)
    (st : Status) (created : string) (s : Store) : Z * Store :=
  let t := {| id := nextId s; user_id := uid; username := uname; phone := ph;
              corpus := c; room := r; problem_type := p; status := st;
              created_at := created; solved_at := None; assigned_admin := None;
              assigned_admin_name := None; solution := None;
              solved_by_phone := None |} in
  (nextId s,
   {| tickets := tickets s ++ [t]; nextId := nextId s + 1;
      admin_profiles := admin_profiles s; online := online s |}).

End Db.

(** ** The bot's state *)

(** [userStates] entry: the wizard of one sender. *)
Record UserState := {
  step : Z;
  username : string;
  userPhone : string;
  startTime : Z;
  attempts : Z;
  corpus : option string;
  room : option string;
  problemType : option string
}.

(** [adminLoginState] entry: the string ["ask_username"], or the object
    [{ step: "ask_password", username }]. *)
Inductive LoginState :=
| ask_username
| ask_password (username : string).

(** [messageSpam] entry. *)
Record SpamEntry := { count : Z; lastReset : Z; warned : bool }.

(** What [rateLimiter.canCreateTicket] returns. *)
Record LimitCheck := {
  allowed : bool;
  period : string;
  remainingTime : Z;
  currentCount : Z;
  maxLimit : Z
}.

(** The fields of the bot that the core reads and writes. [bannedUsers] and
    [admins] are the two persistent lists kept by the data manager; [rl] is
    the rate limiter's state; [traineeGroupId] and [adminCredentials] are the
    configuration entries of these names. *)
Record Bot (RL : Type) := {
  userStates : gmap string UserState;
  adminLoginState : gmap string LoginState;
  adminSessions : gset string;
  failedLoginAttempts : gmap (option string) Z;
  messageSpam : gmap string SpamEntry;
  bannedUsers : gset string;
  admins : gset string;
  db : Db.Store;
  rateLimiter : RL;
  traineeGroupId : option string;
  adminCredentials : string * string
}.

Arguments userStates {RL} _.
Arguments adminLoginState {RL} _.
Arguments adminSessions {RL} _.
Arguments failedLoginAttempts {RL} _.
Arguments messageSpam {RL} _.
Arguments bannedUsers {RL} _.
Arguments admins {RL} _.
Arguments db {RL} _.
Arguments rateLimiter {RL} _.
Arguments traineeGroupId {RL} _.
Arguments adminCredentials {RL} _.

Section Setters.
Context {RL : Type}.
Implicit Type st : Bot RL.

Definition set_userStates (f : gmap string UserState -> gmap string UserState) st : Bot RL :=
  {| userStates := f (userStates st); adminLoginState := adminLoginState st;
     adminSessions := adminSessions st; failedLoginAttempts := failedLoginAttempts st;
     messageSpam := messageSpam st; bannedUsers := bannedUsers st; admins := admins st;
     db := db st; rateLimiter := rateLimiter st; traineeGroupId := traineeGroupId st;
     adminCredentials := adminCredentials st |}.

Definition set_adminLoginState (f : gmap string LoginState -> gmap string LoginState) st : Bot RL :=
  {| userStates := userStates st; adminLoginState := f (adminLoginState st);
     adminSessions := adminSessions st; failedLoginAttempts := failedLoginAttempts st;
     messageSpam := messageSpam st; bannedUsers := bannedUsers st; admins := admins st;
     db := db st; rateLimiter := rateLimiter st; traineeGroupId := traineeGroupId st;
     adminCredentials := adminCredentials st |}.

Definition set_adminSessions (f : gset string -> gset string) st : Bot RL :=
  {| userStates := userStates st; adminLoginState := adminLoginState st;
     adminSessions := f (adminSessions st); failedLoginAttempts := failedLoginAttempts st;
     messageSpam := messageSpam st; bannedUsers := bannedUsers st; admins := admins st;
     db := db st; rateLimiter := rateLimiter st; traineeGroupId := traineeGroupId st;
     adminCredentials := adminCredentials st |}.

Definition set_failedLoginAttempts
    (f : gmap (option string) Z -> gmap (option string) Z) st : Bot RL :=
  {| userStates := userStates st; adminLoginState := adminLoginState st;
     adminSessions := adminSessions st; failedLoginAttempts := f (failedLoginAttempts st);
     messageSpam := messageSpam st; bannedUsers := bannedUsers st; admins := admins st;
     db := db st; rateLimiter := rateLimiter st; traineeGroupId := traineeGroupId st;
     adminCredentials := adminCredentials st |}.

Definition set_messageSpam (f : gmap string SpamEntry -> gmap string SpamEntry) st : Bot RL :=
  {| userStates := userStates st; adminLoginState := adminLoginState st;
     adminSessions := adminSessions st; failedLoginAttempts := failedLoginAttempts st;
     messageSpam := f (messageSpam st); bannedUsers := bannedUsers st; admins := admins st;
     db := db st; rateLimiter := rateLimiter st; traineeGroupId := traineeGroupId st;
     adminCredentials := adminCredentials st |}.

Definition set_bannedUsers (f : gset string -> gset string) st : Bot RL :=
  {| userStates := userStates st; adminLoginState := adminLoginState st;
     adminSessions := adminSessions st; failedLoginAttempts := failedLoginAttempts st;
     messageSpam := messageSpam st; bannedUsers := f (bannedUsers st); admins := admins st;
     db := db st; rateLimiter := rateLimiter st; traineeGroupId := traineeGroupId st;
     adminCredentials := adminCredentials st |}.

Definition set_admins (f : gset string -> gset string) st : Bot RL :=
  {| userStates := userStates st; adminLoginState := adminLoginState st;
     adminSessions := adminSessions st; failedLoginAttempts := failedLoginAttempts st;
     messageSpam := messageSpam st; bannedUsers := bannedUsers st; admins := f (admins st);
     db := db st; rateLimiter := rateLimiter st; traineeGroupId := traineeGroupId st;
     adminCredentials := adminCredentials st |}.

Definition set_db (f : Db.Store -> Db.Store) st : Bot RL :=
  {| userStates := userStates st; adminLoginState := adminLoginState st;
     adminSessions := adminSessions st; failedLoginAttempts := failedLoginAttempts st;
     messageSpam := messageSpam st; bannedUsers := bannedUsers st; admins := admins st;
     db := f (db st); rateLimiter := rateLimiter st; traineeGroupId := traineeGroupId st;
     adminCredentials := adminCredentials st |}.

Definition set_rateLimiter (f : RL -> RL) st : Bot RL :=
  {| userStates := userStates st; adminLoginState := adminLoginState st;
     adminSessions := adminSessions st; failedLoginAttempts := failedLoginAttempts st;
     messageSpam := messageSpam st; bannedUsers := bannedUsers st; admins := admins st;
     db := db st; rateLimiter := f (rateLimiter st); traineeGroupId := traineeGroupId st;
     adminCredentials := adminCredentials st |}.

(** Modelled from the spec: the Ban Registry of the data manager
    ([utils/DataManager.js] is not among the sources), a set of canonical
    identities with [isBanned] and an idempotent [banUser]. The failure
    value of the normalizer is no identity: it is never in the set. *)
Definition isBanned st (identity : option string) : bool :=
  match identity with
  | Some i => bool_decide (i ∈ bannedUsers st)
  | None => false
  end.

Definition banUser (identity : option string) st : Bot RL :=
  match identity with
  | Some i => set_bannedUsers (fun b => {[ i ]} ∪ b) st
  | None => st
  end.

(** Modelled from the spec: the persistent admin allow-list of the data
    manager, a set of addresses with [isAdmin] and [addAdmin]. *)
Definition isAdmin st (a : option string) : bool :=
  match a with
  | Some i => bool_decide (i ∈ admins st)
  | None => false
  end.

Definition addAdmin (a : string) st : Bot RL := set_admins (fun s => {[ a ]} ∪ s) st.

End Setters.

(** ** Collaborators *)

(** The handlers of [handleCommands] that lie outside the core. *)
Inductive Handler :=
| handleLongPhoto | handleAnnounce | handlePerformance | handleLogStats
| handleGroupId | showHelp | listTickets | listLongTerm | showStats
| showTodayStats | handlePing | handleFind | handleSLA | handleSearch
| handleAdminPerformance | handleIdShow | handleRateLimitStats | handleRate
| handleBackup | handleLanguage | handleExport | handleLogExport
| handleDatabaseExport | handleBan | handleUnban | handleListBan
| handleAdminAdd | handleAdminList | handleAdminRemove | handleRegister.

(** What the core takes from the rest of the program and from its
    libraries. The core is verified for every choice of these.
    - [normalize], [extractSenderId]: [utils/PhoneNormalizer.js];
      [normalize] yields [None] for its failure value.
    - [canCreateTicket], [recordTicketCreation], [formatRemainingTime]:
      [utils/RateLimiter.js], over its own state [RL].
    - [formatTime fmt now]: [getBakuTime().format(fmt)] at the instant [now];
      [momentDiff a b]: [moment(b).diff(moment(a))] in milliseconds.
    - [sqlIdOfText]: the integer that SQLite compares with the column [id]
      when the parameter is a text.
    - [external]: the handlers outside the core. *)
Record Env := {
  RL : Type;
  normalize : string -> option string;
  extractSenderId : Message -> bool -> string;
  canCreateTicket : Z -> string -> RL -> LimitCheck * RL;
  recordTicketCreation : Z -> string -> RL -> RL;
  formatRemainingTime : Z -> string;
  formatTime : string -> Z -> string;
  momentDiff : string -> string -> Z;
  sqlIdOfText : string -> option Z;
  external : Handler -> Message -> Bot RL -> Bot RL * list Effect
}.

(** ** The core *)

Section Core.

Variable E : Env.

Abbreviation State := (Bot (RL E)).
Abbreviation Result := (State * list Effect)%type.

Implicit Type st : State.
Implicit Type message : Message.

Definition problemTypesExtended : list (string * string) :=
  [ ("1", "💻 Kompüter işləmir");
    ("2", "🖥️ Monitor yanmır");
    ("3", "🧾 Printer işləmir");
    ("4", "📡 İnternet problemi");
    ("5", "💡 Projectorun lampası yanıb");
    ("6", "Kompyuter və ya Sistem bloku yoxdur");
    ("7", "⌨️ Klaviatura/Siçan işləmir");
    ("8", "🔒 Proqram işləmir");
    ("9", "📶 Wi-Fi problemi");
    ("10", "💾 Format lazımdı");
    ("11", "⚡ Enerji problemi");
    ("12", "🌐 Veb səhifə açılmır");
    ("13", "🔊 Səs sistemi işləmir");
    ("14", "Projektor yoxdu");
    ("15", "⚙️ Digər");
    ("16", "✍️ Özüm yazacağam") ].

(** The entry of an own key of the catalog. *)
Fixpoint ownKey (key : string) (l : list (string * string)) : option string :=
  match l with
  | [] => None
  | (k, v) :: l' => if String.eqb k key then Some v else ownKey key l'
  end.

(** The names that a plain object inherits from [Object.prototype]. *)
Definition inheritedKeys : list string :=
  [ "constructor"; "__defineGetter__"; "__defineSetter__"; "hasOwnProperty";
    "__lookupGetter__"; "__lookupSetter__"; "isPrototypeOf"; "propertyIsEnumerable";
    "toString"; "valueOf"; "__proto__"; "toLocaleString" ].

(** The value of an inherited name is a function, and for [__proto__] an
    object: it is truthy and no string. It is kept here as the text that a
    template gives for it, and the store is taken to keep this text. *)
Definition inheritedText (key : string) : string :=
  if String.eqb key "__proto__" then "[object Object]"
  else "function " +:+ (if String.eqb key "constructor" then "Object" else key)
       +:+ "() { [native code] }".

(** [this.problemTypesExtended[key]]: the catalog is a plain object, so a
    key that is not its own is looked up in [Object.prototype]. *)
Definition lookupKey (key : string) (l : list (string * string)) : option string :=
  match ownKey key l with
  | Some v => Some v
  | None => if existsb (String.eqb key) inheritedKeys then Some (inheritedText key) else None
  end.

(** [`${x}`] for a value that may be [null]. *)
Definition showOpt (o : option string) : string :=
  match o with Some s => s | None => "null" end.

Definition isGroupChat message : bool := Js.endsWith "@g.us" (from message).

(** [normalizePhone] *)
Definition normalizePhone (input : string) : option string := normalize E input.

Definition formatPhoneNumber (phone : option string) : string :=
  if negb (Js.truthy phone) then "Nömrə yoxdur"
  else
    let cleanPhone := Js.replaceFirst "+" "" (Js.replaceFirst "@c.us" "" (default "" phone)) in
    let international := "+" +:+ cleanPhone in
    if Js.startsWith "994" cleanPhone then
      let number := Js.dropUnits 3 cleanPhone in
      if Js.len number =? 9 then
        "+994 " +:+ Js.substring 0 2 number +:+ " " +:+ Js.substring 2 5 number +:+ "-"
        +:+ Js.substring 5 7 number +:+ "-" +:+ Js.dropUnits 7 number
      else international
    else international.

(** [getBakuTime().format(fmt)] *)
Definition bakuTime (fmt : string) (now : Z) : string := formatTime E fmt now.

Definition calculateSolveDuration (createdAt solvedAt : string) : string :=
  let ms := momentDiff E createdAt solvedAt in
  let hours := ms / 3600000 in
  let minutes := Z.rem (Z.quot (Z.quot ms 1000) 60) 60 in
  if hours >? 0 then Js.showZ hours +:+ " saat " +:+ Js.showZ minutes +:+ " dəqiqə"
  else Js.showZ minutes +:+ " dəqiqə".

(** [sendQuickReply]: a reply whose failure is caught and logged. *)
Definition sendQuickReply (text : string) : list Effect := [Reply text].

(** *** The ticket wizard *)

Definition getWelcomeMessage : string :=
  "🎓 ADNSU IT Dəstək sisteminə xoş gəlmisiniz!" +:+ nl +:+ nl +:+
  "Korpus nömrəsini daxil edin (1 və ya 2)(ticket prosesini dayandırmaq üçün */stop* yazın):".

Definition limitMessage (c : LimitCheck) : string :=
  let errorMessage :=
    if String.eqb (period c) "minute" then
      "❌ Dəqiqədə 1-dən çox ticket yarada bilməzsiniz. Zəhmət olmasa "
      +:+ formatRemainingTime E (remainingTime c) +:+ " gözləyin."
    else if String.eqb (period c) "hour" then
      "❌ Saatda 5-dən çox ticket yarada bilməzsiniz. Zəhmət olmasa "
      +:+ formatRemainingTime E (remainingTime c) +:+ " gözləyin."
    else if String.eqb (period c) "day" then
      "❌ Gündə 20-dən çox ticket yarada bilməzsiniz. Sabah yenidən cəhd edin."
    else "" in
  if currentCount c >=? maxLimit c - 1 then
    errorMessage +:+ nl +:+ nl +:+ "⚠️ Diqqət: " +:+ Js.showZ (currentCount c) +:+ "/"
    +:+ Js.showZ (maxLimit c) +:+ " limitə yaxınlaşmısınız!"
  else errorMessage.

Definition startNewTicket (now : Z) message st : Result :=
  let userPhone := from message in
  let normalizedPhone := normalizePhone userPhone in
  if isBanned st normalizedPhone then
    (st, [Log "security" "🚫 Banlı istifadəçi ticket yaratma cəhdi (normallaşdırılmış)"])
  else
    let '(limitCheck, limiter) := canCreateTicket E now userPhone (rateLimiter st) in
    let st := set_rateLimiter (fun _ => limiter) st in
    if negb (allowed limitCheck) then
      (st, sendQuickReply (limitMessage limitCheck))
    else
      let userName := Js.orElse (notifyName message) "İstifadəçi" in
      let userState :=
        {| step := 1; username := userName; userPhone := userPhone; startTime := now;
           attempts := 0; corpus := None; room := None; problemType := None |} in
      (set_userStates (fun m => <[userPhone := userState]> m) st,
       [Log "ticket" "🚀 Yeni ticket başladı:"] ++ sendQuickReply getWelcomeMessage).

(** The assignments of the steps to the wizard's state object. *)
Definition set_step (n : Z) (u : UserState) : UserState :=
  {| step := n; username := username u; userPhone := userPhone u; startTime := startTime u;
     attempts := attempts u; corpus := corpus u; room := room u; problemType := problemType u |}.

Definition set_attempts (n : Z) (u : UserState) : UserState :=
  {| step := step u; username := username u; userPhone := userPhone u; startTime := startTime u;
     attempts := n; corpus := corpus u; room := room u; problemType := problemType u |}.

Definition set_corpus (c : string) (u : UserState) : UserState :=
  {| step := step u; username := username u; userPhone := userPhone u; startTime := startTime u;
     attempts := attempts u; corpus := Some c; room := room u; problemType := problemType u |}.

Definition set_room (r : string) (u : UserState) : UserState :=
  {| step := step u; username := username u; userPhone := userPhone u; startTime := startTime u;
     attempts := attempts u; corpus := corpus u; room := Some r; problemType := problemType u |}.

Definition set_problemType (p : string) (u : UserState) : UserState :=
  {| step := step u; username := username u; userPhone := userPhone u; startTime := startTime u;
     attempts := attempts u; corpus := corpus u; room := room u; problemType := Some p |}.

Definition showProblemTypes : list Effect :=
  sendQuickReply
    ("🔧 Problem növünü seçin (1-16):" +:+ nl +:+ nl +:+
     fold_right (fun kv acc => fst kv +:+ ". " +:+ snd kv +:+ nl +:+ acc) "" problemTypesExtended
     +:+ nl +:+ "📝 Seçiminizi rəqəmlə daxil edin:").

(** The steps work on the state object that [continueTicket] read from
    [userStates] under [key]; an assignment to a field of the object changes
    the entry of the map. [store key u] is the map after such assignments,
    [u] being the object with its new fields. *)
Definition store (key : string) (u : UserState) st : State :=
  set_userStates (fun m => <[key := u]> m) st.

(** The steps return [None] when they throw: reading [message.body.trim()]
    of a message without a string body is a [TypeError], raised before the
    step has changed or sent anything. *)

Definition handleStep1 (key : string) message (u : UserState) st : option Result :=
  match body message with
  | Some b =>
      if String.eqb b "1" || String.eqb b "2" then
        Some (store key (set_step 2 (set_corpus b u)) st,
              sendQuickReply "🏢 Otaq nömrəsini daxil edin:")
      else Some (st, sendQuickReply "❌ Yalnız 1 və ya 2 daxil edin:")
  | None => Some (st, sendQuickReply "❌ Yalnız 1 və ya 2 daxil edin:")
  end.

(** [/[^A-E0-9\s]/.test(s)] *)
Definition hasForbiddenChar (s : string) : bool :=
  negb (Js.onlyChars
          (fun c => let n := nat_of_ascii c in
                    (Nat.leb 65 n && Nat.leb n 69) || Js.isDigit c) 0 s).

(** The loop over [numbersInRest]: some run is below 1 or above 13. *)
Definition hasBadCabinet (s : string) : bool :=
  existsb (fun numStr => let num := Js.parseDec numStr in (num <? 1) || (num >? 13))
          (Js.digitRuns s).

Definition handleStep2 (key : string) message (u : UserState) st : option Result :=
  match body message with
  | None => None
  | Some b =>
      let roomNumber := Js.toUpperCase (Js.trim b) in
      if Js.len roomNumber >? 10 then
        Some (st, sendQuickReply "❌ Otaq nömrəsi maksimum 10 simvol ola bilər.")
      else
        let digits := Js.takeWhile Js.isDigit roomNumber in
        if String.eqb digits "" then
          Some (st, sendQuickReply "❌ Otaq nömrəsi rəqəmlə başlamalıdır.")
        else
          let mainNumber := Js.parseDec digits in
          (* [roomNumber.substring(digits.length)]: a digit is one byte *)
          let restOfString := Js.trim (Js.drop (String.length digits) roomNumber) in
          let rangeError :=
            if bool_decide (corpus u = Some "1") then
              if (mainNumber <? 101) || (mainNumber >? 543) then
                Some "❌ 1-ci korpus üçün otaq nömrəsi 101 ilə 543 arasında olmalıdır."
              else None
            else if bool_decide (corpus u = Some "2") then
              if (mainNumber <? 1101) || (mainNumber >? 1644) then
                Some "❌ 2-ci korpus üçün otaq nömrəsi 1101 ilə 1644 arasında olmalıdır."
              else None
            else None in
          match rangeError with
          | Some text => Some (st, sendQuickReply text)
          | None =>
              if hasForbiddenChar restOfString then
                Some (st, sendQuickReply
                  "❌ Otaq nömrəsində əsas nömrədən sonra yalnız A-E hərfləri, 1-13 arası rəqəmlər və ya boşluq ola bilər.")
              else if hasBadCabinet restOfString then
                Some (st, sendQuickReply
                  "❌ Otaq nömrəsindəki əlavə kabinet nömrəsi 1 ilə 13 arasında olmalıdır.")
              else
                Some (store key (set_step 3 (set_room roomNumber u)) st, showProblemTypes)
          end
  end.

Definition sendToGroup (now : Z) (ticketId : Z) (u : UserState) st : list Effect :=
  match traineeGroupId st with
  | Some groupId =>
      if String.eqb groupId "" then
        [Log "warn" "❌ Qrup ID təyin olunmayıb - ticket qrupa göndərilmədi"]
      else
        [SendMessage groupId
           ("🎫 YENİ TICKET #" +:+ Js.showZ ticketId +:+ nl +:+ nl +:+
            "👤 " +:+ username u +:+ nl +:+
            "🏢 K" +:+ showOpt (corpus u) +:+ "-" +:+ showOpt (room u) +:+ nl +:+
            "🔧 " +:+ showOpt (problemType u) +:+ nl +:+ nl +:+
            "⏰ " +:+ bakuTime "DD.MM.YYYY HH:mm:ss" now +:+ nl +:+ nl +:+
            "✅ /solved " +:+ Js.showZ ticketId +:+ " <həll üsulu>" +:+ nl +:+
            "⏳ /long " +:+ Js.showZ ticketId +:+ nl +:+
            "📸 /longphoto " +:+ Js.showZ ticketId);
         Log "ticket" "✅ Ticket qrupa göndərildi:"]
  | None => [Log "warn" "❌ Qrup ID təyin olunmayıb - ticket qrupa göndərilmədi"]
  end.

Definition completeTicket (now : Z) message (u : UserState) st : Result :=
  if negb (Db.online (db st)) then
    (set_userStates (fun m => delete (userPhone u) m) st,
     Log "error" "❌ Ticket yaratma xətası:"
       :: sendQuickReply "❌ Ticket yaradılarkən xəta baş verdi. Zəhmət olmasa yenidən cəhd edin.")
  else
    let createdAt := bakuTime "YYYY-MM-DD HH:mm:ss" now in
    let '(ticketId, tickets) :=
      Db.insertTicket (userPhone u) (username u) (formatPhoneNumber (Some (userPhone u)))
        (corpus u) (room u) (problemType u) Db.open createdAt (db st) in
    let st := set_db (fun _ => tickets) st in
    let line :=
      "[" +:+ createdAt +:+ "] 🎫 Yeni Ticket #" +:+ Js.showZ ticketId +:+ " — " +:+
      formatPhoneNumber (Some (userPhone u)) +:+ " (" +:+ username u +:+ ") K" +:+
      showOpt (corpus u) +:+ "-" +:+ showOpt (room u) +:+ " — " +:+ showOpt (problemType u) in
    let st := set_rateLimiter (recordTicketCreation E now (userPhone u)) st in
    let successMessage :=
      "✅ Problem qeydə alındı! ID: #" +:+ Js.showZ ticketId +:+ nl +:+ nl +:+
      "⏰ Açılma vaxtı: " +:+ bakuTime "DD.MM.YYYY HH:mm:ss" now +:+ nl +:+ nl +:+
      "Yeni problem üçün Salam yazın" in
    (set_userStates (fun m => delete (userPhone u) m) st,
     [Log "ticket" "🎫 Ticket yaradıldı:"; Console line]
     ++ sendQuickReply successMessage ++ sendToGroup now ticketId u st).

Definition handleStep3 (now : Z) (key : string) message (u : UserState) st : option Result :=
  match body message with
  | None => None
  | Some b =>
      let choice := Js.trim b in
      if String.eqb choice "16" then
        Some (store key (set_step 4 u) st,
              sendQuickReply "✍️ Problemi özünüz yazın (maksimum 100 simvol):")
      else
        match lookupKey choice problemTypesExtended with
        | None => Some (st, sendQuickReply "❌ Yanlış seçim! 1-16 arası rəqəm daxil edin:")
        | Some label =>
            let u := set_problemType label u in
            Some (completeTicket now message u (store key u st))
        end
  end.

Definition handleStep4 (now : Z) (key : string) message (u : UserState) st : option Result :=
  match body message with
  | None => None
  | Some b =>
      let customProblem := Js.trim b in
      if Js.len customProblem >? 100 then
        Some (st, sendQuickReply
          "❌ Problem təsviri maksimum 100 simvol olmalıdır! Yenidən daxil edin:")
      else if Js.len customProblem =? 0 then
        Some (st, sendQuickReply "❌ Problem təsviri boş ola bilməz! Yenidən daxil edin:")
      else
        let u := set_problemType customProblem u in
        Some (completeTicket now message u (store key u st))
  end.

Definition handleTicketError message (userPhone : string) st : Result :=
  match userStates st !! userPhone with
  | Some userState =>
      if attempts userState >=? 3 then
        (set_userStates (fun m => delete userPhone m) st,
         Log "error" "❌ Ticket xətası:"
           :: sendQuickReply "❌ Çox sayda səhv cəhd. Proses dayandırıldı. Yenidən başlamaq üçün /start yazın.")
      else
        (st, Log "error" "❌ Ticket xətası:"
               :: sendQuickReply "❌ Xəta baş verdi. Zəhmət olmasa yenidən cəhd edin.")
  | None => (st, [Log "error" "❌ Ticket xətası:"])
  end.

(** The [switch] of [continueTicket] on the step of the state object. *)
Definition switchStep (now : Z) (userPhone : string) message (userState : UserState) st
  : option Result :=
  if step userState =? 1 then handleStep1 userPhone message userState st
  else if step userState =? 2 then handleStep2 userPhone message userState st
  else if step userState =? 3 then handleStep3 now userPhone message userState st
  else if step userState =? 4 then handleStep4 now userPhone message userState st
  else Some (st, []).

Definition continueTicket (now : Z) message st : Result :=
  let userPhone := from message in
  match userStates st !! userPhone with
  | None => (st, [])
  | Some userState =>
      let userState := set_attempts (attempts userState + 1) userState in
      let st := store userPhone userState st in
      match switchStep now userPhone message userState st with
      | Some r => r
      | None =>
          let '(st, effects) := handleTicketError message userPhone st in
          (st, Log "error" "❌ Ticket xətası:" :: effects)
      end
  end.

Definition handleStop message st : Result :=
  let userPhone := from message in
  match userStates st !! userPhone with
  | Some _ =>
      (set_userStates (fun m => delete userPhone m) st,
       sendQuickReply "🛑 Ticket prosesi dayandırıldı. Yenidən başlamaq üçün /start yazın."
       ++ [Log "ticket" "🛑 Ticket prosesi dayandırıldı:"])
  | None => (st, sendQuickReply "ℹ️ Hal-hazırda aktiv ticket prosesiniz yoxdur.")
  end.

(** *** The ticket lifecycle

    The commands read [message.body.split(' ')] first: on a message without
    a string body that is a [TypeError], before anything else ([None]). *)

(** [parts.slice(2).join(' ')] *)
Definition joinFrom2 (parts : list string) : string :=
  match List.skipn 2 parts with
  | [] => ""
  | w :: ws => fold_left (fun acc x => acc +:+ " " +:+ x) ws w
  end.

Definition markSolved (now : Z) message (adminName : string) st : option Result :=
  match body message with
  | None => None
  | Some b =>
    let parts := Js.split " " b in
    if Z.of_nat (length parts) <? 3 then
      Some (st, sendQuickReply "❌ İstifadə: /solved <ticket_id> <həll üsulu>")
    else
      let ticketId := Js.parseInt (nth 1 parts "") in
      let solution := joinFrom2 parts in
      if negb (Db.online (db st)) then
        Some (st, Log "error" "❌ Solved xətası:"
                    :: sendQuickReply "❌ Ticket yenilənərkən xəta baş verdi!")
      else
        match Db.ticketById (db st) ticketId with
        | None => Some (st, sendQuickReply "❌ Ticket tapılmadı!")
        | Some ticket =>
            if Db.Status_eqb (Db.status ticket) Db.solved then
              Some (st, sendQuickReply "❌ Bu ticket artıq həll edilib!")
            else
              let solvedAt := bakuTime "YYYY-MM-DD HH:mm:ss" now in
              let solveDuration := calculateSolveDuration (Db.created_at ticket) solvedAt in
              let adminPhone := normalizePhone (from message) in
              let actualAdminName := default adminName (Db.profileName (db st) adminPhone) in
              let st' :=
                set_db (Db.updateTicket ticketId (fun t =>
                  {| Db.id := Db.id t; Db.user_id := Db.user_id t;
                     Db.username := Db.username t; Db.phone := Db.phone t;
                     Db.corpus := Db.corpus t; Db.room := Db.room t;
                     Db.problem_type := Db.problem_type t;
                     Db.status := Db.solved;
                     Db.created_at := Db.created_at t;
                     Db.solved_at := Some solvedAt;
                     Db.assigned_admin := adminPhone;
                     Db.assigned_admin_name := Some actualAdminName;
                     Db.solution := Some solution;
                     Db.solved_by_phone := adminPhone |})) st in
              let response :=
                "✅ TICKET HƏLL EDİLDİ #" +:+ Js.showZ (default 0 ticketId) +:+ nl +:+ nl +:+
                "👤 " +:+ Db.username ticket +:+ nl +:+
                "🏢 K" +:+ showOpt (Db.corpus ticket) +:+ "-" +:+ showOpt (Db.room ticket) +:+ nl +:+
                "🔧 " +:+ showOpt (Db.problem_type ticket) +:+ nl +:+
                "🛠️ Həll: " +:+ solution +:+ nl +:+
                "👨‍🔧 Təcrübəçi: " +:+ actualAdminName +:+ nl +:+
                "⏱️ Həll müddəti: " +:+ solveDuration +:+ nl +:+
                "🕐 " +:+ solvedAt in
              Some (st', sendQuickReply response ++ [Log "ticket" "✅ Ticket həll edildi:"])
        end
  end.

Definition handleLongTerm (now : Z) message (adminName : string) st : option Result :=
  match body message with
  | None => None
  | Some b =>
    let parts := Js.split " " b in
    if Z.of_nat (length parts) <? 2 then
      Some (st, sendQuickReply "❌ İstifadə: /long <ticket_id>")
    else
      let ticketId := Js.parseInt (nth 1 parts "") in
      if negb (Db.online (db st)) then
        Some (st, Log "error" "❌ Long term xətası:"
                    :: sendQuickReply "❌ Ticket yenilənərkən xəta baş verdi!")
      else
        match Db.ticketById (db st) ticketId with
        | None => Some (st, sendQuickReply "❌ Ticket tapılmadı!")
        | Some ticket =>
            if negb (Db.Status_eqb (Db.status ticket) Db.open) then
              Some (st, sendQuickReply
                ("❌ Bu ticket artıq " +:+ Db.showStatus (Db.status ticket) +:+ " statusundadır!"))
            else
              let adminPhone := normalizePhone (from message) in
              let actualAdminName := default adminName (Db.profileName (db st) adminPhone) in
              let longTermAt := bakuTime "YYYY-MM-DD HH:mm:ss" now in
              let st' :=
                set_db (Db.updateTicket ticketId (fun t =>
                  {| Db.id := Db.id t; Db.user_id := Db.user_id t;
                     Db.username := Db.username t; Db.phone := Db.phone t;
                     Db.corpus := Db.corpus t; Db.room := Db.room t;
                     Db.problem_type := Db.problem_type t;
                     Db.status := Db.long_term;
                     Db.created_at := Db.created_at t;
                     Db.solved_at := Some longTermAt;
                     Db.assigned_admin := adminPhone;
                     Db.assigned_admin_name := Some actualAdminName;
                     Db.solution := Db.solution t;
                     Db.solved_by_phone := Db.solved_by_phone t |})) st in
              let idText := Js.showZ (default 0 ticketId) in
              let response :=
                "⏳ TICKET UZUNMÜDDƏTLİ #" +:+ idText +:+ nl +:+ nl +:+
                "👤 " +:+ Db.username ticket +:+ nl +:+
                "🏢 K" +:+ showOpt (Db.corpus ticket) +:+ "-" +:+ showOpt (Db.room ticket) +:+ nl +:+
                "🔧 " +:+ showOpt (Db.problem_type ticket) +:+ nl +:+
                "👨‍🔧 Admin: " +:+ actualAdminName +:+ nl +:+
                "🕐 " +:+ longTermAt +:+ nl +:+ nl +:+
                "✅ /solved " +:+ idText +:+ " <həll üsulu>" +:+ nl +:+
                "📸 /longphoto " +:+ idText in
              Some (st', sendQuickReply response
                         ++ [Log "ticket" "✅ Ticket uzunmüddətli edildi:"])
        end
  end.

(** The row after [SET status = 'open', solved_at = NULL,
    assigned_admin = NULL, solution = NULL]. *)
Definition reopened (t : Db.Ticket) : Db.Ticket :=
  {| Db.id := Db.id t; Db.user_id := Db.user_id t;
     Db.username := Db.username t; Db.phone := Db.phone t;
     Db.corpus := Db.corpus t; Db.room := Db.room t;
     Db.problem_type := Db.problem_type t;
     Db.status := Db.open;
     Db.created_at := Db.created_at t;
     Db.solved_at := None;
     Db.assigned_admin := None;
     Db.assigned_admin_name := Db.assigned_admin_name t;
     Db.solution := None;
     Db.solved_by_phone := Db.solved_by_phone t |}.

Definition handleUnsolved message st : option Result :=
  match body message with
  | None => None
  | Some b =>
    let parts := Js.split " " b in
    if Z.of_nat (length parts) <? 2 then
      Some (st, sendQuickReply "❌ İstifadə: /unsolved <ticket_id>")
    else
      let ticketId := Js.parseInt (nth 1 parts "") in
      if negb (Db.online (db st)) then
        Some (st, Log "error" "❌ Unsolved xətası:"
                    :: sendQuickReply "❌ Ticket yenidən açılarkən xəta baş verdi.")
      else
        match Db.ticketById (db st) ticketId with
        | None => Some (st, sendQuickReply "❌ Ticket tapılmadı!")
        | Some ticket =>
            if negb (Db.Status_eqb (Db.status ticket) Db.solved) then
              Some (st, sendQuickReply "ℹ️ Bu ticket solved deyil.")
            else
              Some (set_db (Db.updateTicket ticketId reopened) st,
                    sendQuickReply
                      ("♻️ Ticket #" +:+ Js.showZ (default 0 ticketId) +:+ " yenidən açıldı."))
        end
  end.

(** [adminProfile ? adminProfile.name : (message._data.notifyName || adminPhone)] *)
Definition adminDisplayName message (adminPhone : option string) st : option string :=
  match Db.profileName (db st) adminPhone with
  | Some name => Some name
  | None => if Js.truthy (notifyName message) then notifyName message else adminPhone
  end.

Definition assignTo (adminPhone adminName : option string) (t : Db.Ticket) : Db.Ticket :=
  {| Db.id := Db.id t; Db.user_id := Db.user_id t;
     Db.username := Db.username t; Db.phone := Db.phone t;
     Db.corpus := Db.corpus t; Db.room := Db.room t;
     Db.problem_type := Db.problem_type t;
     Db.status := Db.status t;
     Db.created_at := Db.created_at t;
     Db.solved_at := Db.solved_at t;
     Db.assigned_admin := adminPhone;
     Db.assigned_admin_name := adminName;
     Db.solution := Db.solution t;
     Db.solved_by_phone := Db.solved_by_phone t |}.

(** The text [handleAssign] sends when the admin is busy with ticket [i]. *)
Definition busyMessage (i : Z) : string :=
  "❌ Siz artıq Ticket #" +:+ Js.showZ i +:+
  " ilə məşğulsunuz. Yeni ticket götürmək üçün əvvəlcə onu həll etməli (/solved) və ya imtina etməlisiniz (/noassign).".

Definition handleAssign message st : option Result :=
  if isGroupChat message then Some (st, [])
  else
  match body message with
  | None => None
  | Some b =>
    let parts := Js.split " " b in
    if Z.of_nat (length parts) <? 2 then
      Some (st, sendQuickReply "❌ İstifadə: /assign <ticket_id>")
    else
      let ticketId := nth 1 parts "" in
      let adminPhone := normalizePhone (from message) in
      if negb (Db.online (db st)) then
        Some (st, Log "error" "❌ Assign error:"
                    :: sendQuickReply "❌ Assign zamanı xəta baş verdi.")
      else
        let adminName := adminDisplayName message adminPhone st in
        match Db.activeTicketOf (db st) adminPhone with
        | Some activeTicket => Some (st, sendQuickReply (busyMessage (Db.id activeTicket)))
        | None =>
            match Db.ticketById (db st) (sqlIdOfText E ticketId) with
            | None => Some (st, sendQuickReply ("❌ Ticket #" +:+ ticketId +:+ " tapılmadı."))
            | Some ticket =>
                if Db.Status_eqb (Db.status ticket) Db.solved then
                  Some (st, sendQuickReply ("❌ Ticket #" +:+ ticketId +:+ " artıq həll olunub."))
                else if Db.Status_eqb (Db.status ticket) Db.long_term then
                  Some (st, sendQuickReply
                    ("❌ Ticket #" +:+ ticketId +:+ " uzunmüddətli ticketdir. Assign olunmur."))
                else if Js.truthy (Db.assigned_admin ticket) then
                  if bool_decide (Db.assigned_admin ticket = adminPhone) then
                    Some (st, sendQuickReply "ℹ️ Bu ticket artıq sizdədir.")
                  else
                    let assignedName :=
                      default (showOpt (Db.assigned_admin ticket))
                              (Db.profileName (db st) (Db.assigned_admin ticket)) in
                    Some (st, sendQuickReply
                      ("❌ Bu ticket ilə artıq " +:+ assignedName +:+ " məşğul olur."))
                else
                  let st' :=
                    set_db (Db.updateTicket (sqlIdOfText E ticketId)
                              (assignTo adminPhone adminName)) st in
                  let notify :=
                    match traineeGroupId st with
                    | Some groupId =>
                        if String.eqb groupId "" then []
                        else [SendMessage groupId
                                ("👷 Ticket #" +:+ ticketId +:+ " ilə " +:+ showOpt adminName
                                 +:+ " məşğul olur.")]
                    | None => []
                    end in
                  Some (st',
                        sendQuickReply
                          ("✅ Ticket #" +:+ ticketId +:+ " artıq sizin səlahiyyətinizdədir!")
                        ++ notify ++ [Log "info" "👤 Ticket assigned"])
            end
        end
  end.

Definition handleNoAssign message st : option Result :=
  if isGroupChat message then Some (st, [])
  else
  match body message with
  | None => None
  | Some b =>
    let parts := Js.split " " b in
    if Z.of_nat (length parts) <? 2 then
      Some (st, sendQuickReply "❌ İstifadə: /noassign <ticket_id>")
    else
      let ticketId := nth 1 parts "" in
      let adminPhone := normalizePhone (from message) in
      if negb (Db.online (db st)) then
        Some (st, Log "error" "❌ NoAssign error:"
                    :: sendQuickReply "❌ NoAssign zamanı xəta baş verdi.")
      else
        let adminName := adminDisplayName message adminPhone st in
        match Db.ticketById (db st) (sqlIdOfText E ticketId) with
        | None => Some (st, sendQuickReply ("❌ Ticket #" +:+ ticketId +:+ " tapılmadı."))
        | Some ticket =>
            if negb (bool_decide (Db.assigned_admin ticket = adminPhone)) then
              Some (st, sendQuickReply "❌ Bu ticket sizə aid deyil.")
            else if Db.Status_eqb (Db.status ticket) Db.solved then
              Some (st, sendQuickReply
                "ℹ️ Ticket artıq həll olunub, noassign etməyə ehtiyac yoxdur.")
            else
              let st' :=
                set_db (Db.updateTicket (sqlIdOfText E ticketId) (assignTo None None)) st in
              let notify :=
                match traineeGroupId st with
                | Some groupId =>
                    if String.eqb groupId "" then []
                    else [SendMessage groupId
                            ("🔄 Ticket #" +:+ ticketId +:+
                             " ilə hal-hazırda heçkim məşqul olmur.(" +:+ showOpt adminName
                             +:+ " imtina etdi).")]
                | None => []
                end in
              Some (st',
                    sendQuickReply ("✅ Ticket #" +:+ ticketId +:+ " artıq sizdə deyil.")
                    ++ notify ++ [Log "info" "👤 Ticket unassigned"])
        end
  end.

(** *** Command dispatch *)

(** The prefixes that a group may not use: [messageBody === cmd ||
    messageBody.startsWith(cmd + ' ')] for one of them. *)
Definition adminCommandsInGroup : list string :=
  ["/ban"; "/unban"; "/listban"; "/admin"; "/export"; "/logexport";
   "/databaseexport"; "/login"; "/logout"].

Definition blockedInGroup (messageBody : string) : bool :=
  existsb (fun cmd => String.eqb messageBody cmd || Js.startsWith (cmd +:+ " ") messageBody)
          adminCommandsInGroup.

(** The commands that need an admin session or a standing admin. *)
Definition needsAdmin (messageBody : string) : bool :=
  Js.startsWith "/ban" messageBody || Js.startsWith "/unban" messageBody
  || String.eqb messageBody "/listban" || Js.startsWith "/admin" messageBody
  || String.eqb messageBody "/export" || String.eqb messageBody "/logexport"
  || String.eqb messageBody "/databaseexport".

(** [handleCommands] yields [None] when a handler throws, and otherwise
    whether a command matched, the state and the effects. *)
Definition handleCommands (now : Z) message (messageBody : string) (isGroup : bool) st
  : option (bool * Result) :=
  let entry := Log "command" ("🔧 Komanda işlənir: " +:+ messageBody) in
  let done (r : Result) : option (bool * Result) := Some (true, (fst r, entry :: snd r)) in
  let call (o : option Result) : option (bool * Result) :=
    match o with Some r => done r | None => None end in
  let other (h : Handler) := done (external E h message st) in
  let exactly (c : string) := String.eqb messageBody c in
  let starts (c : string) := Js.startsWith c messageBody in
  let senderName := Js.orElse (notifyName message) "İstifadəçi" in
  if isGroup && blockedInGroup messageBody then done (st, [])
  else if negb isGroup && exactly "/login" then
    done (set_adminLoginState (fun m => <[from message := ask_username]> m) st,
          [Reply "👤 İstifadəçi adını daxil edin:"])
  else if negb isGroup && exactly "/logout" then
    done (set_adminSessions (fun s => s ∖ {[ from message ]}) st,
          [Reply "↩️ Admin sessiyası sonlandırıldı."])
  else if needsAdmin messageBody
          && negb (bool_decide (from message ∈ adminSessions st))
          && negb (isAdmin st (normalizePhone (from message))) then
    done (st, [Reply ("❌ Bu komanda üçün admin girişi tələb olunur." +:+ nl +:+ "➡️ /login")])
  else if isGroup && starts "/longphoto" then other handleLongPhoto
  else if isGroup && starts "/announce" then other handleAnnounce
  else if isGroup && exactly "/performance" then other handlePerformance
  else if isGroup && exactly "/logstats" then other handleLogStats
  else if isGroup && exactly "/groupid" then other handleGroupId
  else if isGroup && exactly "/help" then other showHelp
  else if isGroup && starts "/solved" then call (markSolved now message senderName st)
  else if isGroup && starts "/long" && negb (Js.includes "list" messageBody) then
    call (handleLongTerm now message senderName st)
  else if isGroup && exactly "/list" then other listTickets
  else if isGroup && exactly "/long list" then other listLongTerm
  else if isGroup && exactly "/stats" then other showStats
  else if isGroup && exactly "/today" then other showTodayStats
  else if isGroup && exactly "/ping" then other handlePing
  else if isGroup && starts "/find" then other handleFind
  else if isGroup && exactly "/sla" then other handleSLA
  else if isGroup && starts "/search" then other handleSearch
  else if isGroup && exactly "/adminperformance" then other handleAdminPerformance
  else if negb isGroup && exactly "/start" then done (startNewTicket now message st)
  else if negb isGroup && exactly "/stop" then done (handleStop message st)
  else if negb isGroup && exactly "/id show" then other handleIdShow
  else if exactly "/mylimits" then other handleRateLimitStats
  else if starts "/rate" then other handleRate
  else if negb isGroup && exactly "/backup" then
    if isAdmin st (normalizePhone (from message))
       || bool_decide (from message ∈ adminSessions st)
    then other handleBackup
    else done (st, [Reply "❌ Bu komanda üçün admin girişi tələb olunur.\n➡️ /login"])
  else if exactly "/lang" || starts "/lang " then other handleLanguage
  else if isGroup && starts "/unsolved" then call (handleUnsolved message st)
  else if negb isGroup && exactly "/export" then other handleExport
  else if negb isGroup && exactly "/logexport" then other handleLogExport
  else if negb isGroup && exactly "/databaseexport" then other handleDatabaseExport
  else if starts "/ban" then other handleBan
  else if starts "/unban" then other handleUnban
  else if exactly "/listban" then other handleListBan
  else if starts "/admin add" then other handleAdminAdd
  else if exactly "/admin list" then other handleAdminList
  else if starts "/admin remove" then other handleAdminRemove
  else if starts "/register" then other handleRegister
  else if starts "/assign" then call (handleAssign message st)
  else if starts "/noassign" then call (handleNoAssign message st)
  else if exactly "/stats" then other showStats
  else if exactly "/today" then other showTodayStats
  else if starts "/find" then other handleFind
  else Some (false, (st, [entry])).

(** *** The router *)

(** How a block of [handleMessage] ends: it returned, it fell through to
    the code after it, or it threw before doing anything. *)
Inductive Flow :=
| Returned (r : Result)
| Next
| Threw.

(** The global ban check's record of a banned sender's message. *)
Definition bannedAudit (now : Z) message (isGroup : bool) (normalizedSender : option string)
  : list Effect :=
  let senderName := Js.orElse (notifyName message) "Naməlum" in
  let text := default "" (body message) in
  let timestamp := bakuTime "YYYY-MM-DD HH:mm:ss" now in
  [ AppendFile "logs/banned_messages.log"
      ("[" +:+ timestamp +:+ "] 🚫 BANNED USER: " +:+ formatPhoneNumber normalizedSender
       +:+ " (" +:+ senderName +:+ ") " +:+ (if isGroup then "[GROUP]" else "[PRIVATE]")
       +:+ ": " +:+ text +:+ nl);
    Log "security" "🚫 Banlı istifadəçidən mesaj";
    Console ("[" +:+ timestamp +:+ "] 🚫 BANNED: " +:+ formatPhoneNumber normalizedSender
             +:+ " (" +:+ senderName +:+ "): " +:+ text) ].

(** The record of every message of a sender that is not banned. *)
Definition messageAudit (now : Z) message (isGroup : bool) : list Effect :=
  let senderName := Js.orElse (notifyName message) "Naməlum" in
  let text := default "" (body message) in
  let timestamp := bakuTime "YYYY-MM-DD HH:mm:ss" now in
  [ Log "security" "📩 Yeni mesaj alındı";
    Console ("[" +:+ timestamp +:+ "] 📩 " +:+ formatPhoneNumber (Some (from message))
             +:+ " (" +:+ senderName +:+ ") " +:+ (if isGroup then "[GROUP]" else "[PRIVATE]")
             +:+ ": " +:+ text) ].

(** The spam counter of private chats: more than 10 messages within 60
    seconds ban the sender. The flag tells that [handleMessage] returns. *)
Definition autoBan (now : Z) message st : State * list Effect * bool :=
  let senderId := hd "" (Js.split "@" (from message)) in
  let entry :=
    match messageSpam st !! senderId with
    | None => {| count := 1; lastReset := now; warned := false |}
    | Some e =>
        if now - lastReset e >? 60 * 1000
        then {| count := 1; lastReset := now; warned := false |}
        else {| count := count e + 1; lastReset := lastReset e; warned := warned e |}
    end in
  let st := set_messageSpam (fun m => <[senderId := entry]> m) st in
  if count entry >? 10 then
    let normalizedForSpamBan := normalizePhone senderId in
    if negb (isBanned st normalizedForSpamBan) then
      let st := banUser normalizedForSpamBan st in
      let senderName := Js.orElse (notifyName message) "Naməlum" in
      let logs :=
        [ Console ("🚫 AUTO-BAN: " +:+ formatPhoneNumber normalizedForSpamBan +:+ " ("
                   +:+ senderName +:+ ") — 1 dəqiqədə çox mesaj göndərdi!");
          Log "security" "🚫 SPAM AUTO-BAN (normallaşdırılmış)" ] in
      if negb (warned entry) then
        (set_messageSpam
           (fun m => <[senderId := {| count := count entry; lastReset := lastReset entry;
                                      warned := true |}]> m) st,
         logs ++ [Reply ("🚫 *Spam limitini keçdiniz!*" +:+ nl +:+
                         "Bot bunu **kiber hücum** kimi aşkarladı və sizi sistemdən *banladı*.")],
         true)
      else (st, logs, true)
    else (st, [], true)
  else (st, [], false).

(** [sizeInMB.toFixed(2)] for [sizeInMB = sizeInBytes / (1024 * 1024)]. *)
Definition toFixed2MB (sizeInBytes : Z) : string :=
  let n := (200 * sizeInBytes + 1048576) / 2097152 in
  let cents := n mod 100 in
  Js.showZ (n / 100) +:+ "." +:+ (if cents <? 10 then "0" else "") +:+ Js.showZ cents.

(** The media size limit. The flag tells that [handleMessage] returns. *)
Definition mediaCheck message : list Effect * bool :=
  if hasMedia message then
    match downloadMedia message with
    | MediaData sizeInBytes =>
        if sizeInBytes >? 5 * 1024 * 1024 then
          ([ Log "warn" "⚠️ Media too large";
             Reply ("❌ Fayl çox böyükdür (" +:+ toFixed2MB sizeInBytes +:+ "MB)" +:+ nl +:+ nl +:+
                    "Maksimum fayl ölçüsü: 5MB" +:+ nl +:+
                    "Zəhmət olmasa daha kiçik fayl göndərin.") ], true)
        else ([], false)
    | NoMediaData => ([], false)
    | DownloadError => ([Log "error" "❌ Media download error:"], false)
    end
  else ([], false).

(** [/^salam$/i.test(messageBody)] *)
Definition isGreeting (messageBody : string) : bool :=
  String.eqb (Js.toLowerCase messageBody) "salam".

(** The admin login check of private chats: a login in progress takes the
    message as the username or as the password. *)
Definition adminLoginCheck message st : Flow :=
  match adminLoginState st !! from message with
  | None => Next
  | Some ask_username =>
      match body message with
      | None => Threw
      | Some b =>
          Returned
            (set_adminLoginState (fun m => <[from message := ask_password (Js.trim b)]> m) st,
             [Reply "🔑 Şifrəni daxil edin:"])
      end
  | Some (ask_password username) =>
      match body message with
      | None => Threw
      | Some b =>
          let password := Js.trim b in
          let normalizedPhone := normalizePhone (from message) in
          if String.eqb username (fst (adminCredentials st))
             && String.eqb password (snd (adminCredentials st)) then
            let st := set_adminSessions (fun s => {[ from message ]} ∪ s) st in
            let st := set_adminLoginState (fun m => delete (from message) m) st in
            let st := set_failedLoginAttempts (fun m => delete normalizedPhone m) st in
            let userIdWithSuffix := from message in
            let '(st, enrolled) :=
              if negb (isAdmin st (Some userIdWithSuffix)) then
                (addAdmin userIdWithSuffix st,
                 [Log "security" "✅ Login edən istifadəçi admin kimi əlavə edildi"])
              else (st, []) in
            Returned
              (st, enrolled ++
                   [ Log "security" "✅ Admin giriş uğurludur";
                     Reply "✅ Admin giriş uğurludur! Artıq admin əmrlərindən istifadə edə bilərsiniz." ])
          else
            let currentAttempts := default 0 (failedLoginAttempts st !! normalizedPhone) in
            let newAttempts := currentAttempts + 1 in
            let st := set_failedLoginAttempts (fun m => <[normalizedPhone := newAttempts]> m) st in
            let warning := Log "warn" "🔒 Yanlış admin giriş cəhdi" in
            if newAttempts >=? 3 then
              let st := if negb (isBanned st normalizedPhone)
                        then banUser normalizedPhone st else st in
              let st := set_failedLoginAttempts (fun m => delete normalizedPhone m) st in
              Returned
                (st,
                 [ warning;
                   Log "security" "🚫 İstifadəçi 3 səhv giriş cəhdi ilə banlandı (normallaşdırılmış)";
                   Reply ("🚫 *XƏBƏRDARLIQ: SİZİ SİSTEMDƏN BANLADIQ!*" +:+ nl +:+ nl +:+
                          "Admin girişində 3 dəfə yanlış parol daxil etdiniz." +:+ nl +:+
                          "Sizə nömrə: " +:+ formatPhoneNumber normalizedPhone +:+ nl +:+ nl +:+
                          "Eğer bu səhvdirsə, admin ilə əlaqə saxlayın.") ])
            else
              let attemptsLeft := 3 - newAttempts in
              Returned
                (set_adminLoginState (fun m => delete (from message) m) st,
                 [ warning;
                   Reply ("❌ Yanlış istifadəçi adı və ya şifrə!" +:+ nl +:+ nl +:+
                          "⚠️ Qalan cəhdlər: " +:+ Js.showZ attemptsLeft +:+ " ("
                          +:+ (if attemptsLeft =? 1 then "Son cəhd!" else "") +:+ ")") ])
      end
  end.

(** The part of [handleMessage] after the spam counter: the body of its
    [try] block, whose [catch] logs what was thrown. *)
Definition processMessage (now : Z) message (isGroup : bool) (senderIdRaw : string) st
  : Result :=
  if String.eqb (from message) "" then
    (st, [Log "warn" "⚠️ Invalid message object received"])
  else
    let noBody := negb (Js.truthy (body message)) in
    let bodyLog := if noBody then [Log "debug" "ℹ️ Message without body (media only or empty)"]
                   else [] in
    if noBody && negb (hasMedia message) then (st, bodyLog)
    else
      let '(mediaLog, tooLarge) := mediaCheck message in
      if tooLarge then (st, bodyLog ++ mediaLog)
      else
        let userPhone := senderIdRaw in
        let normalizedUserPhone := normalizePhone userPhone in
        let messageBody := Js.trim (default "" (body message)) in
        let seen := bodyLog ++ mediaLog ++ [Log "debug" "📩 Yeni mesaj"] in
        if isBanned st normalizedUserPhone then
          (st, seen ++ [Log "security"
                          "🚫 Banlı istifadəçi cəhdi (normallaşdırılmış) - gözardı edildi"])
        else if negb isGroup && negb (Js.startsWith "/" messageBody) && isGreeting messageBody then
          let '(st, effects) := startNewTicket now message st in (st, seen ++ effects)
        else
          match (if negb isGroup then adminLoginCheck message st else Next) with
          | Returned (st, effects) => (st, seen ++ effects)
          | Threw => (st, seen ++ [Log "error" "❌ Mesaj emal xətası:"])
          | Next =>
              match handleCommands now message messageBody isGroup st with
              | None => (st, seen ++ [Log "error" "❌ Mesaj emal xətası:"])
              | Some (true, (st, effects)) => (st, seen ++ effects)
              | Some (false, (st, effects)) =>
                  if negb isGroup && bool_decide (is_Some (userStates st !! userPhone)) then
                    let '(st, more) := continueTicket now message st in
                    (st, seen ++ effects ++ more)
                  else (st, seen ++ effects)
              end
          end.

Definition handleMessage (now : Z) message st : Result :=
  if fromMe message then (st, [])
  else
    let isGroup := isGroupChat message in
    let senderIdRaw := extractSenderId E message isGroup in
    let normalizedSender := normalize E senderIdRaw in
    if Js.truthy normalizedSender && isBanned st normalizedSender then
      (st, bannedAudit now message isGroup normalizedSender)
    else
      let audit := messageAudit now message isGroup in
      let '(st, spamEffects, stop) :=
        if negb isGroup then autoBan now message st else (st, [], false) in
      if stop then (st, audit ++ spamEffects)
      else
        let '(st, effects) := processMessage now message isGroup senderIdRaw st in
        (st, audit ++ spamEffects ++ effects).

(** The runs in which the messages are handled one after the other: each
    message that arrives is handed to [handleMessage] at the instant it
    arrives, and is handled to its end before the next one arrives. The
    listener does not enforce this; [assignTask] below follows a handler
    through its [await]s, where the handlers of two messages overlap. *)
Fixpoint receive (events : list (Z * Message)) st : Result :=
  match events with
  | [] => (st, [])
  | (now, message) :: rest =>
      let '(st, effects) := handleMessage now message st in
      let '(st, more) := receive rest st in
      (st, effects ++ more)
  end.

End Core.

Arguments Returned {E} r.
Arguments Next {E}.
Arguments Threw {E}.

(** ** Reference collaborators

    One concrete choice of the collaborators, to run the core on inputs. *)

Module Ref.

(** Modelled from the spec: the Identity Normalizer
    ([utils/PhoneNormalizer.js] is not among the sources). The channel
    suffix and a leading [+] are dropped; what remains is the identity when
    it is a non-empty run of digits, and the input cannot be parsed
    otherwise. *)
Definition normalize (input : string) : option string :=
  let address := hd "" (Js.split "@" input) in
  let digits := match address with String "+" r => r | _ => address end in
  if String.eqb digits "" || Js.existsChar (fun c => negb (Js.isDigit c)) digits
  then None else Some digits.

(** Modelled from the spec: the sender of a message is its [from] address. *)
Definition extractSenderId (message : Message) (isGroup : bool) : string := from message.

(** Modelled from the spec: the Rate Limiter ([utils/RateLimiter.js] is not
    among the sources). Per identity and period it keeps a count and the
    start of the window; the maxima are 1 a minute, 5 an hour, 20 a day; a
    window has elapsed when [now - windowStart > periodLengthMs]. *)
Definition Limiter := gmap (string * string) (Z * Z).

Definition periods : list (string * (Z * Z)) :=
  [("minute", (60000, 1)); ("hour", (3600000, 5)); ("day", (86400000, 20))].

Definition violated (now : Z) (identity : string) (l : Limiter)
    (p : string * (Z * Z)) : option LimitCheck :=
  let '(name, (periodLengthMs, maxCount)) := p in
  match l !! (identity, name) with
  | Some (n, windowStart) =>
      if (now - windowStart >? periodLengthMs) || (n <? maxCount) then None
      else Some {| allowed := false; period := name;
                   remainingTime := windowStart + periodLengthMs - now;
                   currentCount := n; maxLimit := maxCount |}
  | None => None
  end.

Definition canCreateTicket (now : Z) (identity : string) (l : Limiter) : LimitCheck * Limiter :=
  let verdict :=
    fold_right (fun p acc => match violated now identity l p with
                             | Some v => Some v
                             | None => acc
                             end) None periods in
  (default {| allowed := true; period := ""; remainingTime := 0;
              currentCount := 0; maxLimit := 0 |} verdict, l).

Definition recordTicketCreation (now : Z) (identity : string) (l : Limiter) : Limiter :=
  fold_right
    (fun p acc =>
       let '(name, (periodLengthMs, _)) := p in
       match l !! (identity, name) with
       | Some (n, windowStart) =>
           if now - windowStart >? periodLengthMs
           then <[(identity, name) := (1, now)]> acc
           else <[(identity, name) := (n + 1, windowStart)]> acc
       | None => <[(identity, name) := (1, now)]> acc
       end) l periods.

(** A text is an id when it is a run of decimal digits. *)
Definition sqlIdOfText (text : string) : option Z :=
  if String.eqb text "" || Js.existsChar (fun c => negb (Js.isDigit c)) text
  then None else Some (Js.parseDec text).

(** Instants are rendered as their number of milliseconds; the handlers
    outside the core do nothing. *)
Definition env : Env :=
  Build_Env Limiter normalize extractSenderId canCreateTicket recordTicketCreation
    (fun ms => Js.showZ (ms / 1000) +:+ " saniyə")
    (fun fmt now => Js.showZ now)
    (fun a b => Js.parseDec b - Js.parseDec a)
    sqlIdOfText
    (fun _ _ st => (st, [])).

(** The bot after its constructor, with a configuration. *)
Definition initial (group : option string) (credentials : string * string) : Bot Limiter :=
  {| userStates := ∅; adminLoginState := ∅; adminSessions := ∅;
     failedLoginAttempts := ∅; messageSpam := ∅; bannedUsers := ∅; admins := ∅;
     db := {| Db.tickets := []; Db.nextId := 1; Db.admin_profiles := ∅; Db.online := true |};
     rateLimiter := ∅; traineeGroupId := group; adminCredentials := credentials |}.

(** A private text message. *)
Definition text (sender content : string) : Message :=
  {| from := sender; fromMe := false; body := Some content; hasMedia := false;
     downloadMedia := NoMediaData; notifyName := Some "Aysel" |}.

(** A media message without a string body. *)
Definition media (sender : string) : Message :=
  {| from := sender; fromMe := false; body := None; hasMedia := true;
     downloadMedia := MediaData 1000; notifyName := Some "Aysel" |}.

(** The messages of a list, one second apart from the instant [now] on. *)
Fixpoint timed (now : Z) (messages : list Message) : list (Z * Message) :=
  match messages with
  | [] => []
  | m :: rest => (now, m) :: timed (now + 1000) rest
  end.

Definition run (now : Z) (messages : list Message) (st : Bot Limiter)
  : Bot Limiter * list Effect :=
  receive env (timed now messages) st.

End Ref.

(** ** Sample data *)

Module Sample.

Definition alice : string := "994501234567@c.us".
Definition aliceId : string := "994501234567".
Definition group : string := "120363041234567890@g.us".

(** A fresh bot with the group configured and the credentials set. *)
Definition fresh : Bot Ref.Limiter := Ref.initial (Some group) ("admin", "secret").

(** The same bot with alice in the Ban Registry. *)
Definition aliceBanned : Bot Ref.Limiter := banUser (Some aliceId) fresh.

Definition bob : string := "994551112233@c.us".
Definition bobId : string := "994551112233".

(** Alice has opened the wizard and given corpus 1 and room 205. *)
Definition atProblemChoice : Bot Ref.Limiter :=
  fst (Ref.run 0 [Ref.text alice "salam"; Ref.text alice "1"; Ref.text alice "205"] fresh).

(** Alice has opened the wizard and given corpus 1. *)
Definition atRoom : Bot Ref.Limiter :=
  fst (Ref.run 0 [Ref.text alice "salam"; Ref.text alice "1"] fresh).

(** Alice has sent [/login]; and then a username. *)
Definition atUsername : Bot Ref.Limiter :=
  fst (Ref.run 0 [Ref.text alice "/login"] fresh).

Definition atPassword (now : Z) (before : Bot Ref.Limiter) : Bot Ref.Limiter :=
  fst (Ref.run now [Ref.text alice "/login"; Ref.text alice "admin"] before).

(** Alice gives a wrong password, starts the login again, and so on. *)
Definition wrong : Message := Ref.text alice "wrong".
Definition firstTry : Bot Ref.Limiter := atPassword 0 fresh.
Definition secondTry : Bot Ref.Limiter :=
  atPassword 100000 (fst (handleMessage Ref.env 2000 wrong firstTry)).
Definition thirdTry : Bot Ref.Limiter :=
  atPassword 200000 (fst (handleMessage Ref.env 102000 wrong secondTry)).

(** Alice has opened the wizard, given corpus 1 and then a room that is no
    room: two replies, none of which failed in processing. *)
Definition afterStart : Bot Ref.Limiter := fst (Ref.run 0 [Ref.text alice "salam"] fresh).
Definition afterCorpus : Bot Ref.Limiter :=
  fst (handleMessage Ref.env 1000 (Ref.text alice "1") afterStart).
Definition afterBadRoom : Bot Ref.Limiter :=
  fst (handleMessage Ref.env 2000 (Ref.text alice "abc") afterCorpus).

(** Alice files two tickets; bob takes the first one in between. *)
Definition twoTickets : list (Z * Message) :=
  [ (0, Ref.text alice "salam"); (1000, Ref.text alice "1"); (2000, Ref.text alice "205");
    (3000, Ref.text alice "3"); (4000, Ref.text bob "/assign 1");
    (100000, Ref.text alice "salam"); (101000, Ref.text alice "2");
    (102000, Ref.text alice "1105 A"); (103000, Ref.text alice "16");
    (104000, Ref.text alice " mouse broken ") ].

Definition bobBusy : Bot Ref.Limiter := fst (receive Ref.env twoTickets fresh).

(** The first ticket, as bob holds it. *)
Definition firstTicket : Db.Ticket :=
  {| Db.id := 1; Db.user_id := alice; Db.username := "Aysel";
     Db.phone := "+994 50 123-45-67"; Db.corpus := Some "1"; Db.room := Some "205";
     Db.problem_type := Some "🧾 Printer işləmir"; Db.status := Db.open;
     Db.created_at := "3000"; Db.solved_at := None;
     Db.assigned_admin := Some bobId; Db.assigned_admin_name := Some "Aysel";
     Db.solution := None; Db.solved_by_phone := None |}.

(** The first ticket has been solved from the group. *)
Definition firstSolved : Bot Ref.Limiter :=
  fst (handleMessage Ref.env 106000 (Ref.text group "/solved 1 rebooted") bobBusy).

Definition firstTicketSolved : Db.Ticket :=
  {| Db.id := 1; Db.user_id := alice; Db.username := "Aysel";
     Db.phone := "+994 50 123-45-67"; Db.corpus := Some "1"; Db.room := Some "205";
     Db.problem_type := Some "🧾 Printer işləmir"; Db.status := Db.solved;
     Db.created_at := "3000"; Db.solved_at := Some "106000";
     Db.assigned_admin := Some "120363041234567890";
     Db.assigned_admin_name := Some "Aysel";
     Db.solution := Some "rebooted"; Db.solved_by_phone := Some "120363041234567890" |}.

End Sample.

(** ** More of the bot

    The helpers and the commands around the router, the wizard and the
    lifecycle: [splitMessage], [validateCommandArgs], [handleRegister],
    [handleBan], [handleUnban], [handleGroupId] and [handleRate]. *)

(** The loop of [splitMessage] over the lines, with the messages pushed so
    far and the message being filled. *)
Fixpoint splitLines (maxLength : Z) (lines : list string) (messages : list string)
    (currentMessage : string) : list string :=
  match lines with
  | [] => if String.eqb currentMessage "" then messages else messages ++ [currentMessage]
  | line :: rest =>
      if Js.len currentMessage + Js.len line + 1 >? maxLength
      then splitLines maxLength rest (messages ++ [currentMessage]) (line +:+ nl)
      else splitLines maxLength rest messages (currentMessage +:+ line +:+ nl)
  end.

Definition splitMessage (text : string) (maxLength : Z) : list string :=
  splitLines maxLength (Js.split (ascii_of_nat 10) text) [] "".

(** [s.split(/\s+/)]: the parts of [s] between its runs of white space;
    [inGap] tells that the character before was white space, [skip] counts
    the bytes of a white-space character that are still to come. *)
Fixpoint splitWs (skip : nat) (inGap : bool) (s : string) : list string :=
  match s with
  | EmptyString => [EmptyString]
  | String c s' =>
      match skip with
      | S k => splitWs k inGap s'
      | O =>
          match Js.whiteWidth s with
          | S k => if inGap then splitWs k true s' else EmptyString :: splitWs k true s'
          | O => match splitWs 0 false s' with
                 | w :: ws => String c w :: ws
                 | [] => [String c EmptyString]
                 end
          end
      end
  end.

(** What [validateCommandArgs] returns: [{ valid: false, error }] or
    [{ valid: true, parts }]. *)
Inductive Validation :=
| Invalid (error : string)
| Valid (parts : list string).

Definition validateCommandArgs (message : Message) (commandName : string) (minArgs : Z)
    (usage : string) : Validation :=
  if negb (Js.truthy (body message)) then Invalid "❌ Invalid message"
  else
    let parts := splitWs 0 false (Js.trim (default "" (body message))) in
    if Z.of_nat (length parts) <? minArgs + 1 then
      Invalid ("❌ Yanlış istifadə!" +:+ nl +:+ nl +:+ "📝 Düzgün format:" +:+ nl +:+ usage)
    else Valid parts.

(** [parts.slice(1).join(' ')] *)
Definition joinFrom1 (parts : list string) : string :=
  match List.skipn 1 parts with
  | [] => ""
  | w :: ws => fold_left (fun acc x => acc +:+ " " +:+ x) ws w
  end.

(** A double quote, for the texts that carry one. *)
Definition quote : string := String (ascii_of_nat 34) EmptyString.

(** [INSERT OR REPLACE INTO admin_profiles (phone, name) VALUES (?, ?)]; a
    row with a NULL phone is found by no query, and is not kept here. *)
Definition upsertProfile (phone : option string) (name : string) (s : Db.Store) : Db.Store :=
  match phone with
  | Some p =>
      {| Db.tickets := Db.tickets s; Db.nextId := Db.nextId s;
         Db.admin_profiles := <[p := name]> (Db.admin_profiles s);
         Db.online := Db.online s |}
  | None => s
  end.

(** A row of the table [feedback], with the columns the bot writes. *)
Record Feedback := { ticket_id : Z; user_phone : option string; rating : Z }.

(** [s.repeat(n)] *)
Fixpoint repeatText (n : nat) (s : string) : string :=
  match n with
  | O => ""
  | S n' => s +:+ repeatText n' s
  end.

(** The commands, under their names in the source of the bot. *)
Module Cmd.

Section MoreCore.

Variable E : Env.

Implicit Type st : Bot (RL E).
Implicit Type message : Message.

Definition handleRegister message st : option (Bot (RL E) * list Effect) :=
  if isGroupChat message then
    Some (st, sendQuickReply "❌ Bu komanda yalnız şəxsi söhbətdə işləyir.")
  else
    match body message with
    | None => None
    | Some b =>
        let parts := splitWs 0 false (Js.trim b) in
        if Z.of_nat (length parts) <? 2 then
          Some (st, sendQuickReply "❌ İstifadə: /register <Adınız>")
        else
          let name := joinFrom1 parts in
          let phone := normalizePhone E (from message) in
          if negb (Db.online (db st)) then
            Some (st, Log "error" "❌ Register error:"
                        :: sendQuickReply "❌ Qeydiyyat zamanı xəta baş verdi.")
          else
            Some (set_db (upsertProfile phone name) st,
                  sendQuickReply ("✅ Adınız " +:+ quote +:+ name +:+ quote
                                  +:+ " olaraq qeyd edildi.")
                  ++ [Log "info" ("👤 Admin registered: " +:+ showOpt phone +:+ " -> " +:+ name)])
    end.

(** Modelled from the spec: [unban] of the Ban Registry
    ([utils/DataManager.js] is not among the sources); it removes the
    identity and tells whether it was there. *)
Definition unbanUser (identity : option string) st : bool * Bot (RL E) :=
  match identity with
  | Some i => (bool_decide (i ∈ bannedUsers st), set_bannedUsers (fun b => b ∖ {[ i ]}) st)
  | None => (false, st)
  end.

Definition handleBan message st : option (Bot (RL E) * list Effect) :=
  match body message with
  | None => None
  | Some b =>
      let parts := Js.split " " b in
      if Z.of_nat (length parts) <? 2 then
        Some (st, sendQuickReply "❌ İstifadə: /ban <nömrə>")
      else
        let rawInput := nth 1 parts "" in
        let normalized := normalizePhone E rawInput in
        if negb (Js.truthy normalized) then
          Some (st, sendQuickReply "❌ Nömrə düzgün formatda deyil!")
        else if isBanned st normalized then
          Some (st, sendQuickReply
                  ("ℹ️ " +:+ formatPhoneNumber normalized +:+ " artıq banlanmışdı."))
        else
          Some (banUser normalized st,
                sendQuickReply ("✅ " +:+ formatPhoneNumber normalized +:+ " banlandı!")
                ++ [Log "security" "🔨 İstifadəçi banlandı (normallaşdırılmış):"])
  end.

Definition handleUnban message st : option (Bot (RL E) * list Effect) :=
  match body message with
  | None => None
  | Some b =>
      let parts := Js.split " " b in
      if Z.of_nat (length parts) <? 2 then
        Some (st, sendQuickReply "❌ İstifadə: /unban <nömrə>")
      else
        let rawInput := nth 1 parts "" in
        let normalized := normalizePhone E rawInput in
        if negb (Js.truthy normalized) then
          Some (st, sendQuickReply "❌ Nömrə düzgün formatda deyil!")
        else
          let '(result, st') := unbanUser normalized st in
          if result then
            Some (st',
                  sendQuickReply ("🔓 " +:+ formatPhoneNumber normalized +:+ " unban edildi!")
                  ++ [Log "security" "🔓 İstifadəçi unban edildi (normallaşdırılmış):"])
          else
            Some (st', sendQuickReply
                    ("❌ " +:+ formatPhoneNumber normalized +:+ " ban siyahısında tapılmadı."))
  end.

(** [configManager.set('traineeGroupId', groupId)] *)
Definition set_traineeGroupId (groupId : option string) st : Bot (RL E) :=
  {| userStates := userStates st; adminLoginState := adminLoginState st;
     adminSessions := adminSessions st; failedLoginAttempts := failedLoginAttempts st;
     messageSpam := messageSpam st; bannedUsers := bannedUsers st; admins := admins st;
     db := db st; rateLimiter := rateLimiter st; traineeGroupId := groupId;
     adminCredentials := adminCredentials st |}.

Definition handleGroupId message st : Bot (RL E) * list Effect :=
  let groupId := from message in
  (set_traineeGroupId (Some groupId) st,
   sendQuickReply ("📋 QRUP MƏLUMATI:" +:+ nl +:+ nl +:+
                   "🔢 ID: " +:+ groupId +:+ nl +:+ nl +:+
                   "✅ Qrup ID saxlandı! İndi ticketlar bu qrupa göndəriləcək.")
   ++ [Log "info" "📋 Qrup ID saxlandı:"]).

(** [handleRate] reads the tickets and writes the table [feedback], which
    is passed along with the state. *)
Definition handleRate message st (feedback : list Feedback)
  : option (list Feedback * list Effect) :=
  match body message with
  | None => None
  | Some b =>
      let parts := Js.split " " b in
      if Z.of_nat (length parts) <? 3 then
        Some (feedback, sendQuickReply "❌ İstifadə: /rate <ticket_id> <1-5>")
      else
        let ticketId := Js.parseInt (nth 1 parts "") in
        match Js.parseInt (nth 2 parts "") with
        | None => Some (feedback, sendQuickReply "❌ Qiymət 1-5 aralığında olmalıdır!")
        | Some rating =>
            if (rating <? 1) || (rating >? 5) then
              Some (feedback, sendQuickReply "❌ Qiymət 1-5 aralığında olmalıdır!")
            else if negb (Db.online (db st)) then
              Some (feedback, Log "error" "❌ Rate xətası:"
                                :: sendQuickReply "❌ Qiymətləndirmə zamanı xəta baş verdi!")
            else
              match Db.ticketById (db st) ticketId with
              | None => Some (feedback, sendQuickReply "❌ Ticket tapılmadı!")
              | Some ticket =>
                  if negb (Db.Status_eqb (Db.status ticket) Db.solved) then
                    Some (feedback, sendQuickReply
                            "❌ Yalnız həll olunmuş ticketları qiymətləndirmək olar!")
                  else
                    let userPhone := normalizePhone E (from message) in
                    let i := default 0 ticketId in
                    match List.find (fun f => ticket_id f =? i) feedback with
                    | Some _ =>
                        Some (feedback, sendQuickReply "ℹ️ Bu ticket artıq qiymətləndirilib.")
                    | None =>
                        let stars := repeatText (Z.to_nat rating) "⭐" in
                        Some (feedback ++ [{| ticket_id := i; user_phone := userPhone;
                                              rating := rating |}],
                              sendQuickReply ("✅ Ticket #" +:+ Js.showZ i +:+ " üçün qiymət: "
                                              +:+ stars +:+ nl +:+ "Təşəkkür edirik!")
                              ++ [Log "info" "⭐ Feedback alındı"])
                    end
              end
        end
  end.

End MoreCore.

End Cmd.

(** ** Commands that overlap

    The listener of the [message] event hands a message to [handleMessage]
    and does not wait for it: a handler runs up to its next [await], and the
    handlers of other messages run in between. A handler is written here as
    a task: at each of its statements on the store it is resumed on the
    store as it is then. What it sends in between does not touch the store;
    it is gathered at the end. *)

Inductive Task :=
| Finish (effects : list Effect)
| Await (write : Db.Store -> Db.Store) (next : Db.Store -> Task).

(** A task run to its end with no other task in between. *)
Fixpoint runAlone (t : Task) (s : Db.Store) : Db.Store * list Effect :=
  match t with
  | Finish effects => (s, effects)
  | Await write next => runAlone (next s) (write s)
  end.

(** The task at place [i] runs up to its next [await]. *)
Definition stepTask (i : nat) (tasks : list Task) (s : Db.Store) : list Task * Db.Store :=
  match tasks !! i with
  | Some (Await write next) => (<[i := next s]> tasks, write s)
  | _ => (tasks, s)
  end.

(** The tasks run as the schedule tells, one step after the other. *)
Fixpoint runSchedule (schedule : list nat) (tasks : list Task) (s : Db.Store)
  : list Task * Db.Store :=
  match schedule with
  | [] => (tasks, s)
  | i :: rest => let '(tasks', s') := stepTask i tasks s in runSchedule rest tasks' s'
  end.

Section Overlapping.

Variable E : Env.

Implicit Type st : Bot (RL E).
Implicit Type message : Message.

(** [handleAssign], statement by statement: the name of the admin, the
    query for the admin's active ticket, the query for the ticket, and the
    update (or the name of the admin who has the ticket), each on the store
    as it is when the statement runs. The group to notify is the one the
    bot has when the handler starts. *)
Definition assignTask message st : option Task :=
  if isGroupChat message then Some (Finish [])
  else
  match body message with
  | None => None
  | Some b =>
    let parts := Js.split " " b in
    if Z.of_nat (length parts) <? 2 then
      Some (Finish (sendQuickReply "❌ İstifadə: /assign <ticket_id>"))
    else
      let ticketId := nth 1 parts "" in
      let adminPhone := normalizePhone E (from message) in
      let failed :=
        Finish (Log "error" "❌ Assign error:"
                  :: sendQuickReply "❌ Assign zamanı xəta baş verdi.") in
      Some
        (Await id (fun s =>
           if negb (Db.online s) then failed
           else
             let adminName :=
               match Db.profileName s adminPhone with
               | Some name => Some name
               | None => if Js.truthy (notifyName message) then notifyName message
                         else adminPhone
               end in
             Await id (fun s =>
               if negb (Db.online s) then failed
               else
                 match Db.activeTicketOf s adminPhone with
                 | Some activeTicket =>
                     Finish (sendQuickReply (busyMessage (Db.id activeTicket)))
                 | None =>
                     Await id (fun s =>
                       if negb (Db.online s) then failed
                       else
                         match Db.ticketById s (sqlIdOfText E ticketId) with
                         | None =>
                             Finish (sendQuickReply ("❌ Ticket #" +:+ ticketId +:+ " tapılmadı."))
                         | Some ticket =>
                             if Db.Status_eqb (Db.status ticket) Db.solved then
                               Finish (sendQuickReply
                                         ("❌ Ticket #" +:+ ticketId +:+ " artıq həll olunub."))
                             else if Db.Status_eqb (Db.status ticket) Db.long_term then
                               Finish (sendQuickReply
                                         ("❌ Ticket #" +:+ ticketId
                                          +:+ " uzunmüddətli ticketdir. Assign olunmur."))
                             else if Js.truthy (Db.assigned_admin ticket) then
                               if bool_decide (Db.assigned_admin ticket = adminPhone) then
                                 Finish (sendQuickReply "ℹ️ Bu ticket artıq sizdədir.")
                               else
                                 Await id (fun s =>
                                   if negb (Db.online s) then failed
                                   else
                                     let assignedName :=
                                       default (showOpt (Db.assigned_admin ticket))
                                               (Db.profileName s (Db.assigned_admin ticket)) in
                                     Finish (sendQuickReply
                                               ("❌ Bu ticket ilə artıq " +:+ assignedName
                                                +:+ " məşğul olur.")))
                             else
                               Await (fun s =>
                                        if negb (Db.online s) then s
                                        else Db.updateTicket (sqlIdOfText E ticketId)
                                               (assignTo adminPhone adminName) s)
                                     (fun s =>
                                        if negb (Db.online s) then failed
                                        else
                                          let notify :=
                                            match traineeGroupId st with
                                            | Some groupId =>
                                                if String.eqb groupId "" then []
                                                else [SendMessage groupId
                                                        ("👷 Ticket #" +:+ ticketId +:+ " ilə "
                                                         +:+ showOpt adminName +:+ " məşğul olur.")]
                                            | None => []
                                            end in
                                          Finish
                                            (sendQuickReply
                                               ("✅ Ticket #" +:+ ticketId
                                                +:+ " artıq sizin səlahiyyətinizdədir!")
                                             ++ notify ++ [Log "info" "👤 Ticket assigned"]))
                         end)
                 end)))
  end.

End Overlapping.

(** ** Notions of the statements *)

Section Notions.

Variable E : Env.
Implicit Type st : Bot (RL E).
Implicit Type m : Message.

(** The state a start request creates. *)
Definition freshState (now : Z) m : UserState :=
  {| step := 1; username := Js.orElse (notifyName m) "İstifadəçi"; userPhone := from m;
     startTime := now; attempts := 0; corpus := None; room := None; problemType := None |}.

(** The wizard's entry after [continueTicket] has counted the reply. *)
Definition counted (u : UserState) : UserState := set_attempts (attempts u + 1) u.

(** The range of main room numbers of a corpus. *)
Definition inCorpusRange (c : string) (n : Z) : Prop :=
  (c = "1" /\ 101 <= n <= 543) \/ (c = "2" /\ 1101 <= n <= 1644).

(** The text that ends a wizard after too many attempts. *)
Definition apology : string :=
  "❌ Çox sayda səhv cəhd. Proses dayandırıldı. Yenidən başlamaq üçün /start yazın.".

(** A reply is a processing failure when its step throws. *)
Definition stepFails (now : Z) m st : bool :=
  match userStates st !! from m with
  | Some u =>
      match switchStep E now (from m) m (counted u) (store E (from m) (counted u) st) with
      | None => true
      | Some _ => false
      end
  | None => false
  end.

(** The greeting shortcut of private chats takes the message. *)
Definition greetingShortcut (messageBody : string) : bool :=
  negb (Js.startsWith "/" messageBody) && isGreeting messageBody.

(** A private message gets as far as the greeting shortcut and the admin
    login check: it is not the bot's own, its sender is not banned, the
    spam counter does not stop it, it has a sender and a body or media, and
    its media is not too large. *)
Definition reachesLoginCheck (now : Z) m st : bool :=
  negb (fromMe m) && negb (isGroupChat m)
  && negb (isBanned st (normalize E (extractSenderId E m false)))
  && negb (snd (autoBan E now m st))
  && negb (String.eqb (from m) "")
  && negb (negb (Js.truthy (body m)) && negb (hasMedia m))
  && negb (snd (mediaCheck m)).

(** What [handleMessage] records before it looks at the text. *)
Definition preamble (now : Z) m : list Effect :=
  messageAudit E now m (isGroupChat m)
  ++ (if negb (Js.truthy (body m))
      then [Log "debug" "ℹ️ Message without body (media only or empty)"] else [])
  ++ fst (mediaCheck m) ++ [Log "debug" "📩 Yeni mesaj"].

(** The credentials that the login is compared with. *)
Definition credentialsMatch st (username password : string) : bool :=
  String.eqb username (fst (adminCredentials st))
  && String.eqb password (snd (adminCredentials st)).

(** What a login in progress does with a message that has a text: it
    returns, it leaves the wizards, the store and the rate limiter alone,
    and it takes the text as the username or as the password. *)
Definition loginTook (ls : LoginState) (text : string) m st (s : Bot (RL E)) : Prop :=
  userStates s = userStates st /\ db s = db st /\ rateLimiter s = rateLimiter st
  /\ match ls with
     | ask_username =>
         adminLoginState s !! from m = Some (ask_password (Js.trim text))
     | ask_password username =>
         if credentialsMatch st username (Js.trim text)
         then from m ∈ adminSessions s /\ adminLoginState s !! from m = None
         else adminSessions s = adminSessions st
              /\ adminLoginState s !! from m <> Some ask_username
     end.

(** The message is a reply to the password prompt, it reaches the login
    check, and its text is the wrong password (or the right one). *)
Definition passwordReply (right : bool) (now : Z) m st : bool :=
  reachesLoginCheck now m st
  && match body m, adminLoginState st !! from m with
     | Some text, Some (ask_password username) =>
         negb (greetingShortcut (Js.trim text))
         && Bool.eqb (credentialsMatch st username (Js.trim text)) right
     | _, _ => false
     end.

(** The rows that an admin holds and that are neither solved nor long-term. *)
Definition activeRows (a : string) (l : list Db.Ticket) : nat :=
  length (List.filter (Db.isActiveOf (Some a)) l).

Definition oneActivePerAdmin s : Prop :=
  forall a : string, (activeRows a (Db.tickets s) <= 1)%nat.

(** The ids of the rows are distinct and below the next id of the store. *)
Definition idsDistinct s : Prop :=
  NoDup (List.map Db.id (Db.tickets s))
  /\ Forall (fun r => Db.id r < Db.nextId s) (Db.tickets s).

Definition storeInv s : Prop := idsDistinct s /\ oneActivePerAdmin s.

(** The handlers outside the core do not write the table of tickets. *)
Definition externalsKeepTickets : Prop :=
  forall (h : Handler) m st,
    Db.tickets (db (fst (external E h m st))) = Db.tickets (db st)
    /\ Db.nextId (db (fst (external E h m st))) = Db.nextId (db st).

Definition rewriteRow (i : Z) (g : Db.Ticket -> Db.Ticket) (r : Db.Ticket) : Db.Ticket :=
  if Db.hasId i r then g r else r.

End Notions.

(** ** Notions of the further statements *)

(** The parts of a list, one after the other. *)
Definition glue (parts : list string) : string := fold_right String.append "" parts.

(** The digits of a text, and whether it has nothing else. *)
Fixpoint keepDigits (s : string) : string :=
  match s with
  | EmptyString => EmptyString
  | String c s' => if Js.isDigit c then String c (keepDigits s') else keepDigits s'
  end.

Fixpoint allDigits (s : string) : bool :=
  match s with
  | EmptyString => true
  | String c s' => Js.isDigit c && allDigits s'
  end.

(** The columns of a row that the requester's wizard fills in. *)
Definition requesterPart (t : Db.Ticket)
  : Z * string * string * string * option string * option string * option string * string :=
  (Db.id t, Db.user_id t, Db.username t, Db.phone t, Db.corpus t, Db.room t,
   Db.problem_type t, Db.created_at t).

(** The changes of status that the commands make: open to solved or to
    long-term, long-term to solved, and solved to open again. *)
Definition legalMove (a b : Db.Status) : bool :=
  match a, b with
  | Db.open, Db.solved | Db.open, Db.long_term
  | Db.long_term, Db.solved | Db.solved, Db.open => true
  | _, _ => Db.Status_eqb a b
  end.

(** The columns of a row that tell how the ticket ended. *)
Definition outcomePart (t : Db.Ticket)
  : Db.Status * option string * option string * option string :=
  (Db.status t, Db.solved_at t, Db.solution t, Db.solved_by_phone t).

(** A row and what has become of it: the requester's columns are kept;
    with [strict], the status has made at most one legal move; and outside
    a group, the outcome is kept. *)
Definition rowStep (strict group : bool) (r r' : Db.Ticket) : Prop :=
  requesterPart r' = requesterPart r
  /\ (strict = true -> legalMove (Db.status r) (Db.status r') = true)
  /\ (group = false -> outcomePart r' = outcomePart r).

(** Every row of [s] is still at its place in [s']. *)
Definition evolves (strict group : bool) (s s' : Db.Store) : Prop :=
  forall (n : nat) (r : Db.Ticket),
    Db.tickets s !! n = Some r ->
    exists r', Db.tickets s' !! n = Some r' /\ rowStep strict group r r'.

(** The ids of the rows are distinct, where the strict reading needs it. *)
Definition distinctIfStrict (strict : bool) (s : Db.Store) : Prop :=
  strict = true -> NoDup (List.map Db.id (Db.tickets s)).

(** A text made of characters with [P], one after the other. *)
Inductive madeOf (P : string -> Prop) : string -> Prop :=
| madeOf_nil : madeOf P ""
| madeOf_cons (ch s : string) : P ch -> madeOf P s -> madeOf P (ch +:+ s).

(** The characters of a room number: a digit, a letter A to E, or a
    character of white space. *)
Definition roomChar (ch : string) : Prop :=
  Js.isWhite ch = true
  \/ exists c : ascii,
       ch = String c ""
       /\ (Js.isDigit c = true \/ (65 <= nat_of_ascii c /\ nat_of_ascii c <= 69)%nat).

(** The main number of a room, and the numbers after it. *)
Definition mainNumber (r : string) : Z := Js.parseDec (Js.takeWhile Js.isDigit r).

Definition cabinets (r : string) : list Z :=
  List.map Js.parseDec (Js.digitRuns (Js.dropWhile Js.isDigit r)).

(** A room number as the wizard takes it for a corpus. *)
Definition wellFormedRoom (c : option string) (r : string) : Prop :=
  Js.len r <= 10
  /\ (exists d rest, r = String d rest /\ Js.isDigit d = true)
  /\ madeOf roomChar r
  /\ (c = Some "1" -> 101 <= mainNumber r <= 543)
  /\ (c = Some "2" -> 1101 <= mainNumber r <= 1644)
  /\ Forall (fun n => 1 <= n <= 13) (cabinets r).

(** A wizard holds what its steps have checked: from the second step on a
    corpus 1 or 2, and at the third and fourth a room well formed for it. *)
Definition wizardOk (u : UserState) : Prop :=
  (step u = 2 \/ step u = 3 \/ step u = 4 -> corpus u = Some "1" \/ corpus u = Some "2")
  /\ (step u = 3 \/ step u = 4 -> exists r, room u = Some r /\ wellFormedRoom (corpus u) r).

(** A ticket as the wizard files it: with a corpus 1 or 2 and a room well
    formed for it. *)
Definition ticketOk (t : Db.Ticket) : Prop :=
  (Db.corpus t = Some "1" \/ Db.corpus t = Some "2")
  /\ (exists r, Db.room t = Some r /\ wellFormedRoom (Db.corpus t) r).

Definition botOk {RL : Type} (st : Bot RL) : Prop :=
  (forall key u, userStates st !! key = Some u -> wizardOk u)
  /\ Forall ticketOk (Db.tickets (db st)).

(** The handlers outside the core do not write the wizards. *)
Definition externalsKeepWizards (E : Env) : Prop :=
  forall (h : Handler) (m : Message) (st : Bot (RL E)),
    userStates (fst (external E h m st)) = userStates st.

(** The maps of the chats: the wizards, the logins in progress, the admin
    sessions, the failed logins and the spam counters. *)
Definition sameChats {RL : Type} (st st' : Bot RL) : Prop :=
  userStates st' = userStates st
  /\ adminLoginState st' = adminLoginState st
  /\ adminSessions st' = adminSessions st
  /\ failedLoginAttempts st' = failedLoginAttempts st
  /\ messageSpam st' = messageSpam st.

(** The handlers outside the core do not write the maps of the chats. *)
Definition externalsKeepChats (E : Env) : Prop :=
  forall (h : Handler) (m : Message) (st : Bot (RL E)), sameChats st (fst (external E h m st)).

(** The text that refuses an admin command. *)
Definition loginRequired : string :=
  "❌ Bu komanda üçün admin girişi tələb olunur." +:+ nl +:+ "➡️ /login".

(** A character of white space begins somewhere in the text. *)
Fixpoint hasWhite (s : string) : bool :=
  match s with
  | EmptyString => false
  | String _ r => negb (Nat.eqb (Js.whiteWidth s) 0) || hasWhite r
  end.

(** A word: a text that is not empty and has no white space. *)
Definition isWord (w : string) : Prop := w <> "" /\ hasWhite w = false.

(** [words.join(' ')] *)
Definition joinWords (words : list string) : string :=
  match words with
  | [] => ""
  | w :: ws => fold_left (fun acc x => acc +:+ " " +:+ x) ws w
  end.

(** No end of the text is a character of white space. *)
Definition noWhiteEnd (s : string) : Prop :=
  forall t w : string, s = t +:+ w -> w <> "" -> Js.isWhite w = false.

(** The address of a chat without its suffix, as the spam counter keys it. *)
Definition spamKey (m : Message) : string := hd "" (Js.split "@" (from m)).

(** The spam counter over the messages of one sender that arrive at the
    instants [times]: the state afterwards, and which of them it stopped. *)
Fixpoint burst (E : Env) (times : list Z) (m : Message) (st : Bot (RL E))
  : Bot (RL E) * list bool :=
  match times with
  | [] => (st, [])
  | now :: rest =>
      let '(st1, _, stop) := autoBan E now m st in
      let '(st2, stops) := burst E rest m st1 in
      (st2, stop :: stops)
  end.

(** Every wizard is kept under the address of its requester. *)
Definition keyed {RL : Type} (st : Bot RL) : Prop :=
  forall (k : string) (u : UserState), userStates st !! k = Some u -> userPhone u = k.

(** From [st] to [st'], only the wizard of [k] may have changed, and the
    wizards are kept under their addresses. *)
Definition wizardStep {RL : Type} (k : string) (st st' : Bot RL) : Prop :=
  keyed st'
  /\ forall key : string, key <> k -> userStates st' !! key = userStates st !! key.


(** ** Sample data with two open tickets *)

Module Overlap.

(** Alice has filed two tickets, and nobody has taken either. *)
Definition twoOpen : Bot Ref.Limiter :=
  fst (receive Ref.env
         [ (0, Ref.text Sample.alice "salam"); (1000, Ref.text Sample.alice "1");
           (2000, Ref.text Sample.alice "205"); (3000, Ref.text Sample.alice "3");
           (100000, Ref.text Sample.alice "salam"); (101000, Ref.text Sample.alice "2");
           (102000, Ref.text Sample.alice "1105 A"); (103000, Ref.text Sample.alice "5") ]
         Sample.fresh).

(** Bob asks for the first ticket and for the second one. *)
Definition first : Message := Ref.text Sample.bob "/assign 1".
Definition second : Message := Ref.text Sample.bob "/assign 2".

(** The two handlers take turns at every [await]. *)
Definition turns : list nat := [0; 1; 0; 1; 0; 1; 0; 1]%nat.

End Overlap.

(** ** Further sample data *)

Module Cases.

(** A text of two lines. *)
Definition twoLines : string := "ab" +:+ nl +:+ "cd".

(** Alice has filed her first ticket, and nobody has taken it. *)
Definition filed : Bot Ref.Limiter :=
  fst (Ref.run 0 [Ref.text Sample.alice "salam"; Ref.text Sample.alice "1";
                  Ref.text Sample.alice "205"; Ref.text Sample.alice "3"] Sample.fresh).

Definition filedTicket : Db.Ticket :=
  {| Db.id := 1; Db.user_id := Sample.alice; Db.username := "Aysel";
     Db.phone := "+994 50 123-45-67"; Db.corpus := Some "1"; Db.room := Some "205";
     Db.problem_type := Some "🧾 Printer işləmir"; Db.status := Db.open;
     Db.created_at := "3000"; Db.solved_at := None;
     Db.assigned_admin := None; Db.assigned_admin_name := None;
     Db.solution := None; Db.solved_by_phone := None |}.

(** Alice's wizard at the room step. *)
Definition roomStep : UserState :=
  {| step := 2; username := "Aysel"; userPhone := Sample.alice; startTime := 0;
     attempts := 1; corpus := Some "1"; room := None; problemType := None |}.

(** The messages of the group that solve and reopen ticket 1. *)
Definition solve : Message := Ref.text Sample.group "/solved 1 rebooted".
Definition reopen : Message := Ref.text Sample.group "/unsolved 1".

(** U+00A0, the no-break space, and U+FEFF, the byte order mark, in
    their bytes. *)
Definition nbsp : string := String (ascii_of_nat 194) (String (ascii_of_nat 160) "").

Definition bom : string :=
  String (ascii_of_nat 239) (String (ascii_of_nat 187) (String (ascii_of_nat 191) "")).

(** A room with a no-break space before its letter and another after it. *)
Definition spacedRoom : string := " 205" +:+ nbsp +:+ "a" +:+ nbsp.

(** A command whose words a no-break space divides. *)
Definition spacedRate : string := " /rate" +:+ nbsp +:+ " 5 good" +:+ nbsp.

Definition spacedRegister : string := "/register  Bob" +:+ nbsp +:+ "Marley ".

(** Nine instants, one second apart. *)
Definition nineSeconds : list Z := [1000; 2000; 3000; 4000; 5000; 6000; 7000; 8000; 9000].

End Cases.

(** ** Proof automation *)

(** The first bytes of a text tell it from the apology. *)
Ltac other_text H :=
  first
    [ discriminate H
    | injection H as H; apply (f_equal (Js.take 5)) in H; vm_compute in H; discriminate H ].

Ltac no_apology H :=
  repeat (destruct H as [H | H]; [other_text H|]); destruct H.

(** Case analysis on the tests of a handler whose result is a hypothesis. *)
Ltac split_tests :=
  repeat match goal with
         | H : context [match ?x with _ => _ end] |- _ => destruct x eqn:?; simplify_eq
         end.

(** Case analysis on the tests in the goal. *)
Ltac split_goal_tests :=
  repeat match goal with
         | |- context [match ?x with _ => _ end] => destruct x
         end.

(** ** Examples *)

Example trim_ex : Js.trim "  205 a " = "205 a".
Proof. reflexivity. Qed.

Example toUpperCase_ex : Js.toUpperCase "205 a" = "205 A".
Proof. reflexivity. Qed.

Example split_ex : Js.split " " "/solved 5 fixed it" = ["/solved"; "5"; "fixed"; "it"].
Proof. reflexivity. Qed.

Example split_empty_part_ex : Js.split " " "/assign  7" = ["/assign"; ""; "7"].
Proof. reflexivity. Qed.

Example trim_beyond_ascii_ex :
  Js.trim (" " +:+ Cases.nbsp +:+ "salam" +:+ Cases.nbsp +:+ Cases.bom +:+ " ") = "salam".
Proof. reflexivity. Qed.

Example trim_keeps_the_middle_ex :
  Js.trim ("205" +:+ Cases.nbsp +:+ "a ") = "205" +:+ Cases.nbsp +:+ "a".
Proof. reflexivity. Qed.

Example len_ex : Js.len "əə" = 2 /\ String.length "əə" = 4%nat /\ Js.len "🎫" = 2.
Proof. repeat split. Qed.

Example splitWs_ex :
  splitWs 0 false ("/register Bob" +:+ Cases.nbsp +:+ " Marley") = ["/register"; "Bob"; "Marley"].
Proof. reflexivity. Qed.

Example lookupKey_ex :
  lookupKey "3" problemTypesExtended = Some "🧾 Printer işləmir"
  /\ lookupKey "17" problemTypesExtended = None
  /\ lookupKey "constructor" problemTypesExtended <> None.
Proof. repeat split. discriminate. Qed.

Example parseInt_ex :
  Js.parseInt "5abc" = Some 5 /\ Js.parseInt "x" = None /\ Js.parseInt "0x10" = Some 16.
Proof. repeat split. Qed.

Example digitRuns_ex : Js.digitRuns "A 12B3" = ["12"; "3"].
Proof. reflexivity. Qed.

Example showZ_ex : Js.showZ 205 = "205".
Proof. reflexivity. Qed.

(** A whole conversation through the router: the greeting, the corpus, the
    room and the problem key give one open ticket and end the wizard. *)
Example conversation_through_router :
  let st := fst (Ref.run 0 [Ref.text Sample.alice "salam"; Ref.text Sample.alice "1";
                            Ref.text Sample.alice "205"; Ref.text Sample.alice "3"]
                   Sample.fresh) in
  map (fun t => (Db.id t, Db.corpus t, Db.room t, Db.problem_type t, Db.status t))
      (Db.tickets (db st))
  = [(1, Some "1", Some "205", Some "🧾 Printer işləmir", Db.open)]
  /\ userStates st !! Sample.alice = None.
Proof. vm_compute. split; reflexivity. Qed.

(** The greeting word and the right password, each followed by a no-break
    space: [trim] takes it away. *)
Example greeting_with_nbsp_ex : greetingShortcut (Js.trim ("Salam" +:+ Cases.nbsp)) = true.
Proof. reflexivity. Qed.

Example password_with_nbsp_ex :
  Sample.alice
  ∈ adminSessions (fst (handleMessage Ref.env 2000
                          (Ref.text Sample.alice ("secret" +:+ Cases.nbsp)) Sample.firstTry)).
Proof. apply (bool_decide_unpack _). vm_compute. exact I. Qed.

(** ** Properties of the router *)

Section RouterProperties.

Variable E : Env.
Implicit Type st : Bot (RL E).
Implicit Type m : Message.

(** C1. A message of a sender whose normalized identity is in the Ban
    Registry changes nothing and is answered by nothing, and it is recorded:
    [handleMessage] returns the state it was given, and its effects are
    exactly three records, in this order: the line appended to the file of
    banned messages, with the time, the sender's formatted number and name,
    the kind of chat and the text of the message; the entry of the security
    log; and the console line, with the time, the number, the name and the
    text. No reply and no message to anyone is among them. This holds for
    every body. *)
Theorem banned_sender_is_only_recorded now m st (identity : string) :
  fromMe m = false ->
  normalize E (extractSenderId E m (isGroupChat m)) = Some identity ->
  identity <> "" ->
  identity ∈ bannedUsers st ->
  handleMessage E now m st
  = (st,
     [ AppendFile "logs/banned_messages.log"
         ("[" +:+ formatTime E "YYYY-MM-DD HH:mm:ss" now +:+ "] 🚫 BANNED USER: "
          +:+ formatPhoneNumber (Some identity)
          +:+ " (" +:+ Js.orElse (notifyName m) "Naməlum" +:+ ") "
          +:+ (if isGroupChat m then "[GROUP]" else "[PRIVATE]")
          +:+ ": " +:+ default "" (body m) +:+ nl);
       Log "security" "🚫 Banlı istifadəçidən mesaj";
       Console
         ("[" +:+ formatTime E "YYYY-MM-DD HH:mm:ss" now +:+ "] 🚫 BANNED: "
          +:+ formatPhoneNumber (Some identity)
          +:+ " (" +:+ Js.orElse (notifyName m) "Naməlum" +:+ "): "
          +:+ default "" (body m)) ])
  /\ forallb isRecord (snd (handleMessage E now m st)) = true
  /\ (forall text : string, ~ In (Reply text) (snd (handleMessage E now m st)))
  /\ (forall chat text : string, ~ In (SendMessage chat text) (snd (handleMessage E now m st))).
Proof.
  intros Hme Hnorm Hne Hban.
  assert (Hrun : handleMessage E now m st
                 = (st, bannedAudit E now m (isGroupChat m) (Some identity))).
  { unfold handleMessage. rewrite Hme, Hnorm. simpl.
    apply String.eqb_neq in Hne. rewrite Hne. simpl.
    rewrite bool_decide_eq_true_2 by assumption. reflexivity. }
  rewrite Hrun. unfold bannedAudit, bakuTime. cbv zeta. cbn [snd].
  split; [reflexivity|]. split; [reflexivity|].
  split; intros; intros [H | [H | [H | []]]]; discriminate H.
Qed.

(** *** The admin login check *)

Lemma autoBan_continues now m st :
  snd (autoBan E now m st) = false ->
  exists f, autoBan E now m st = (set_messageSpam f st, [], false).
Proof.
  unfold autoBan. cbv zeta. intros H.
  destruct (count _ >? 10).
  - exfalso. revert H. split_goal_tests; cbn [snd]; discriminate.
  - eexists. reflexivity.
Qed.

(** A message that reaches the login check is handled by the greeting
    shortcut when it is a greeting, and by the login check otherwise, on
    the state in which the spam counter has counted it. *)
Lemma handleMessage_reaching_login now m st :
  reachesLoginCheck E now m st = true ->
  exists f,
    let st1 := set_messageSpam f st in
    handleMessage E now m st
    = if greetingShortcut (Js.trim (default "" (body m))) then
        (fst (startNewTicket E now m st1), preamble E now m ++ snd (startNewTicket E now m st1))
      else
        match adminLoginCheck E m st1 with
        | Returned r => (fst r, preamble E now m ++ snd r)
        | Threw => (st1, preamble E now m ++ [Log "error" "❌ Mesaj emal xətası:"])
        | Next =>
            (fst (processMessage E now m false (extractSenderId E m false) st1),
             messageAudit E now m false
             ++ snd (processMessage E now m false (extractSenderId E m false) st1))
        end.
Proof.
  unfold reachesLoginCheck. intros H.
  rewrite !andb_true_iff, !negb_true_iff in H.
  destruct H as [[[[[[Hme Hgrp] Hban] Hspam] Hfrom] Hbody] Hmedia].
  destruct (autoBan_continues now m st Hspam) as [f Hf].
  exists f. cbv zeta. unfold handleMessage, preamble, processMessage, normalizePhone.
  rewrite Hme, Hgrp, Hban, andb_false_r. cbn [negb]. rewrite Hf. cbv iota beta zeta.
  rewrite Hfrom, Hbody.
  destruct (mediaCheck m) as [mediaLog tooLarge]. cbn [fst snd] in *. subst tooLarge.
  change (isBanned (set_messageSpam f st)) with (isBanned st). rewrite Hban.
  rewrite andb_true_l. fold (greetingShortcut (Js.trim (default "" (body m)))).
  destruct (greetingShortcut _).
  { destruct (startNewTicket E now m (set_messageSpam f st)) as [s1 e1]. cbn [fst snd].
    by rewrite <- !app_assoc. }
  destruct (adminLoginCheck E m (set_messageSpam f st)) as [[s1 e1]| |] eqn:Hlogin.
  - cbn [fst snd]. by rewrite <- !app_assoc.
  - destruct (handleCommands E now m _ false _) as [[[|] [s1 e1]]|]; cbn [negb andb fst snd];
      try reflexivity.
    destruct (bool_decide _); [|reflexivity].
    destruct (continueTicket E now m s1) as [s2 e2]. reflexivity.
  - by rewrite <- !app_assoc.
Qed.

Lemma startNewTicket_adminLoginState now m st :
  adminLoginState (fst (startNewTicket E now m st)) = adminLoginState st.
Proof.
  unfold startNewTicket.
  destruct (isBanned st _); [reflexivity|].
  destruct (canCreateTicket E now (from m) (rateLimiter st)) as [lc l].
  destruct (negb (allowed lc)); reflexivity.
Qed.

Lemma adminLoginCheck_takes_text m st (text : string) (ls : LoginState) :
  body m = Some text ->
  adminLoginState st !! from m = Some ls ->
  exists s e, adminLoginCheck E m st = Returned (s, e) /\ loginTook E ls text m st s.
Proof.
  intros Hbody Hls. unfold adminLoginCheck, loginTook, credentialsMatch.
  rewrite Hls, Hbody. destruct ls as [|username]; cbv zeta.
  - eexists _, _. split; [reflexivity|]. repeat split.
    cbn [adminLoginState set_adminLoginState]. apply lookup_insert_eq.
  - destruct (String.eqb username _ && String.eqb (Js.trim text) _).
    + destruct (negb (isAdmin _ _)); eexists _, _; (split; [reflexivity|]); repeat split;
        cbn; try set_solver; apply lookup_delete_eq.
    + destruct (_ >=? 3).
      * eexists _, _. split; [reflexivity|].
        destruct (normalizePhone E (from m)) as [p|];
          [destruct (negb (isBanned _ (Some p)))|]; repeat split; cbn; rewrite ?Hls;
          discriminate.
      * eexists _, _. split; [reflexivity|]. repeat split.
        cbn. rewrite lookup_delete_eq. discriminate.
Qed.

(** C2 (amended). In a one-to-one conversation, a message with a text from
    a sender whose admin login is in progress, once it has passed the
    router's earlier steps (ban check, spam counter, media limit), is taken
    whole by the login when its text is not the greeting word: the text is
    the username or the password, no command is dispatched, no wizard is
    started or continued. The greeting shortcut stands before the login
    check, however: a text that is the greeting word (salam, in any case)
    starts a new ticket wizard and leaves the login where it was. *)
Theorem login_takes_every_text_but_the_greeting now m st (text : string) (ls : LoginState) :
  reachesLoginCheck E now m st = true ->
  body m = Some text ->
  adminLoginState st !! from m = Some ls ->
  (greetingShortcut (Js.trim text) = false ->
     exists f s e,
       adminLoginCheck E m (set_messageSpam f st) = Returned (s, e)
       /\ handleMessage E now m st = (s, preamble E now m ++ e)
       /\ loginTook E ls text m st s)
  /\ (greetingShortcut (Js.trim text) = true ->
        exists f,
          handleMessage E now m st
          = (fst (startNewTicket E now m (set_messageSpam f st)),
             preamble E now m ++ snd (startNewTicket E now m (set_messageSpam f st)))
          /\ adminLoginState (fst (handleMessage E now m st)) !! from m = Some ls).
Proof.
  intros Hreach Hbody Hls.
  destruct (handleMessage_reaching_login now m st Hreach) as [f Hrun].
  cbv zeta in Hrun. rewrite Hbody in Hrun.
  change (default "" (Some text)) with text in Hrun.
  split; intros Hgreet; rewrite Hgreet in Hrun.
  - destruct (adminLoginCheck_takes_text m (set_messageSpam f st) text ls Hbody Hls)
      as (s & e & Hcheck & Htook).
    exists f, s, e. rewrite Hcheck in Hrun. split; [exact Hcheck|]. split; [exact Hrun|].
    exact Htook.
  - exists f. split; [exact Hrun|]. rewrite Hrun. cbn [fst].
    rewrite startNewTicket_adminLoginState. exact Hls.
Qed.

(** *** Failed logins *)

Lemma passwordReply_run (right : bool) now m st :
  passwordReply E right now m st = true ->
  exists f (text username : string),
    body m = Some text
    /\ adminLoginState st !! from m = Some (ask_password username)
    /\ credentialsMatch E st username (Js.trim text) = right
    /\ handleMessage E now m st
       = match adminLoginCheck E m (set_messageSpam f st) with
         | Returned r => (fst r, preamble E now m ++ snd r)
         | Threw => (set_messageSpam f st, preamble E now m ++ [Log "error" "❌ Mesaj emal xətası:"])
         | Next =>
             (fst (processMessage E now m false (extractSenderId E m false)
                     (set_messageSpam f st)),
              messageAudit E now m false
              ++ snd (processMessage E now m false (extractSenderId E m false)
                        (set_messageSpam f st)))
         end.
Proof.
  unfold passwordReply. intros H. apply andb_prop in H as [Hreach H].
  destruct (body m) as [text|] eqn:Hbody; [|discriminate].
  destruct (adminLoginState st !! from m) as [[|username]|] eqn:Hls; try discriminate.
  apply andb_prop in H as [Hgreet Hcred].
  apply negb_true_iff in Hgreet. apply Bool.eqb_prop in Hcred.
  destruct (handleMessage_reaching_login now m st Hreach) as [f Hrun].
  cbv zeta in Hrun. rewrite Hbody in Hrun.
  change (default "" (Some text)) with text in Hrun. rewrite Hgreet in Hrun.
  exists f, text, username. repeat split; assumption.
Qed.

(** A wrong password counts one failed attempt of the sender; the third
    one bans the sender and clears the count. *)
Lemma wrong_password_counts now m st :
  passwordReply E false now m st = true ->
  let identity := normalize E (from m) in
  let n := default 0 (failedLoginAttempts st !! identity) in
  let s := fst (handleMessage E now m st) in
  if n + 1 >=? 3
  then failedLoginAttempts s !! identity = None
       /\ (forall p : string, identity = Some p -> p ∈ bannedUsers s)
  else failedLoginAttempts s !! identity = Some (n + 1).
Proof.
  intros H. destruct (passwordReply_run _ _ _ _ H) as (f & text & username & Hb & Hls & Hc & Hrun).
  cbv zeta. rewrite Hrun. unfold adminLoginCheck, normalizePhone.
  change (adminLoginState (set_messageSpam f st)) with (adminLoginState st).
  rewrite Hls, Hb. cbv zeta. unfold credentialsMatch in Hc.
  change (adminCredentials (set_messageSpam f st)) with (adminCredentials st).
  rewrite Hc.
  change (failedLoginAttempts (set_messageSpam f st)) with (failedLoginAttempts st).
  destruct (_ >=? 3); cbn [fst].
  - split.
    + destruct (negb (isBanned _ _)); [destruct (normalize E (from m))|];
        cbn; apply lookup_delete_eq.
    + intros p Hp. rewrite Hp. unfold isBanned.
      cbn [bannedUsers set_failedLoginAttempts set_messageSpam].
      destruct (bool_decide (p ∈ bannedUsers st)) eqn:Hin; cbn.
      * by apply bool_decide_eq_true_1 in Hin.
      * set_solver.
  - cbn. apply lookup_insert_eq.
Qed.

(** The right password clears the count and opens a session. *)
Lemma right_password_clears now m st :
  passwordReply E true now m st = true ->
  let s := fst (handleMessage E now m st) in
  failedLoginAttempts s !! normalize E (from m) = None
  /\ bannedUsers s = bannedUsers st
  /\ from m ∈ adminSessions s.
Proof.
  intros H. destruct (passwordReply_run _ _ _ _ H) as (f & text & username & Hb & Hls & Hc & Hrun).
  cbv zeta. rewrite Hrun. unfold adminLoginCheck, normalizePhone.
  change (adminLoginState (set_messageSpam f st)) with (adminLoginState st).
  rewrite Hls, Hb. cbv zeta. unfold credentialsMatch in Hc.
  change (adminCredentials (set_messageSpam f st)) with (adminCredentials st).
  rewrite Hc.
  destruct (negb (isAdmin _ _)); cbn; (split; [apply lookup_delete_eq|]);
    (split; [reflexivity|set_solver]).
Qed.

(** C8. Three failed password attempts in a row in the admin login (the
    count of the sender starts at none, and nothing changes it between the
    attempts) leave the sender in the Ban Registry and the count cleared;
    after the first and the second the count is 1 and 2. A login that
    succeeds clears the count instead, and bans nobody. *)
Theorem three_wrong_passwords_ban_the_sender
    now1 now2 now3 m1 m2 m3 (st1 st2 st3 : Bot (RL E)) (p : string) :
  normalize E (from m1) = Some p ->
  normalize E (from m2) = Some p ->
  normalize E (from m3) = Some p ->
  passwordReply E false now1 m1 st1 = true ->
  passwordReply E false now2 m2 st2 = true ->
  passwordReply E false now3 m3 st3 = true ->
  failedLoginAttempts st1 !! Some p = None ->
  failedLoginAttempts st2 !! Some p
    = failedLoginAttempts (fst (handleMessage E now1 m1 st1)) !! Some p ->
  failedLoginAttempts st3 !! Some p
    = failedLoginAttempts (fst (handleMessage E now2 m2 st2)) !! Some p ->
  (failedLoginAttempts (fst (handleMessage E now1 m1 st1)) !! Some p = Some 1
   /\ failedLoginAttempts (fst (handleMessage E now2 m2 st2)) !! Some p = Some 2
   /\ p ∈ bannedUsers (fst (handleMessage E now3 m3 st3))
   /\ failedLoginAttempts (fst (handleMessage E now3 m3 st3)) !! Some p = None)
  /\ (forall now m st,
        passwordReply E true now m st = true ->
        failedLoginAttempts (fst (handleMessage E now m st)) !! normalize E (from m) = None
        /\ bannedUsers (fst (handleMessage E now m st)) = bannedUsers st
        /\ from m ∈ adminSessions (fst (handleMessage E now m st))).
Proof.
  intros N1 N2 N3 W1 W2 W3 H1 H2 H3. split; [|exact right_password_clears].
  pose proof (wrong_password_counts _ _ _ W1) as C1.
  pose proof (wrong_password_counts _ _ _ W2) as C2.
  pose proof (wrong_password_counts _ _ _ W3) as C3.
  cbv zeta in C1, C2, C3. rewrite N1 in C1. rewrite N2 in C2. rewrite N3 in C3.
  rewrite H1 in C1. cbn in C1.
  rewrite H2, C1 in C2. cbn in C2.
  rewrite H3, C2 in C3. cbn in C3.
  destruct C3 as [C3 Hban]. repeat split; try assumption. exact (Hban p eq_refl).
Qed.

End RouterProperties.

(** ** Properties of the ticket wizard *)

Section WizardProperties.

Variable E : Env.
Implicit Type st : Bot (RL E).
Implicit Type m : Message.

(** What a start request does to the wizards, case by case. *)
Lemma startNewTicket_userStates now m st :
  userStates (fst (startNewTicket E now m st))
  = if isBanned st (normalize E (from m)) then userStates st
    else if allowed (fst (canCreateTicket E now (from m) (rateLimiter st)))
         then <[from m := freshState now m]> (userStates st)
         else userStates st.
Proof.
  unfold startNewTicket, normalizePhone.
  destruct (isBanned st (normalize E (from m))); [reflexivity|].
  destruct (canCreateTicket E now (from m) (rateLimiter st)) as [lc l]. simpl.
  destruct (allowed lc); reflexivity.
Qed.

(** C3 (amended). The wizards are the entries of one map keyed by sender,
    so a sender has at most one. A start request of a sender who already
    has a wizard creates no second one (the senders with a wizard stay the
    same, and the wizards of other senders are untouched), but it does not
    keep the progress: when the sender is not banned and the rate limiter
    allows, the entry becomes the fresh state (step 1, no attempts, no
    corpus, room or problem); when the rate limiter refuses, or the sender
    is banned, the entry is kept as it is. *)
Theorem start_request_replaces_existing_wizard now m st (u : UserState) :
  userStates st !! from m = Some u ->
  let st' := fst (startNewTicket E now m st) in
  dom (userStates st') = dom (userStates st)
  /\ (forall other : string, other <> from m ->
        userStates st' !! other = userStates st !! other)
  /\ userStates st' !! from m
     = Some (if isBanned st (normalize E (from m)) then u
             else if allowed (fst (canCreateTicket E now (from m) (rateLimiter st)))
                  then freshState now m else u).
Proof.
  intros Hu st'. subst st'. rewrite startNewTicket_userStates.
  destruct (isBanned st (normalize E (from m))); [by eauto|].
  destruct (allowed (fst (canCreateTicket E now (from m) (rateLimiter st)))); [|by eauto].
  split; [|split].
  - apply dom_insert_lookup_L. by exists u.
  - intros other Hne. by rewrite lookup_insert_ne.
  - by rewrite lookup_insert_eq.
Qed.

Lemma continueTicket_unfold now m st (u : UserState) :
  userStates st !! from m = Some u ->
  continueTicket E now m st
  = match switchStep E now (from m) m (counted u) (store E (from m) (counted u) st) with
    | Some r => r
    | None =>
        let '(st', effects) := handleTicketError E m (from m) (store E (from m) (counted u) st) in
        (st', Log "error" "❌ Ticket xətası:" :: effects)
    end.
Proof. intros Hu. unfold continueTicket. rewrite Hu. reflexivity. Qed.

Lemma lookup_store (key : string) (u : UserState) st :
  userStates (store E key u st) !! key = Some u.
Proof. unfold store. simpl. apply lookup_insert_eq. Qed.

(** C5. In the step that awaits the room, an input whose leading digit run
    lies outside the range of the corpus (101 to 543 for corpus 1, 1101 to
    1644 for corpus 2) is answered by one re-prompt, and the wizard stays
    where it was: same step, same corpus, same room, no ticket written. *)
Theorem room_outside_corpus_range_is_rejected now m st (u : UserState) (c text : string) :
  userStates st !! from m = Some u ->
  step u = 2 ->
  corpus u = Some c ->
  c = "1" \/ c = "2" ->
  body m = Some text ->
  Js.takeWhile Js.isDigit (Js.toUpperCase (Js.trim text)) <> "" ->
  ~ inCorpusRange c (Js.parseDec (Js.takeWhile Js.isDigit (Js.toUpperCase (Js.trim text)))) ->
  exists (prompt : string) (u' : UserState),
    continueTicket E now m st = (store E (from m) u' st, [Reply prompt])
    /\ step u' = 2 /\ corpus u' = Some c /\ room u' = room u.
Proof.
  intros Hu Hstep Hc Hc12 Hbody Hdigits Hout.
  rewrite (continueTicket_unfold _ _ _ _ Hu).
  unfold switchStep. simpl. rewrite Hstep. simpl.
  unfold handleStep2. rewrite Hbody.
  destruct (Js.len (Js.toUpperCase (Js.trim text)) >? 10).
  { exists "❌ Otaq nömrəsi maksimum 10 simvol ola bilər.", (counted u).
    simpl. rewrite Hstep, Hc. auto. }
  apply String.eqb_neq in Hdigits. rewrite Hdigits.
  simpl. rewrite Hc.
  set (n := Js.parseDec _) in *.
  destruct Hc12 as [-> | ->].
  - rewrite bool_decide_eq_true_2 by reflexivity.
    assert (Hr : (n <? 101) || (n >? 543) = true).
    { unfold inCorpusRange in Hout.
      destruct (n <? 101) eqn:Hlo; [reflexivity|].
      destruct (n >? 543) eqn:Hhi; [reflexivity|].
      exfalso. apply Hout. left. split; [reflexivity|]. lia. }
    rewrite Hr.
    exists "❌ 1-ci korpus üçün otaq nömrəsi 101 ilə 543 arasında olmalıdır.", (counted u).
    simpl. rewrite Hstep, Hc. auto.
  - rewrite bool_decide_eq_false_2 by discriminate.
    rewrite bool_decide_eq_true_2 by reflexivity.
    assert (Hr : (n <? 1101) || (n >? 1644) = true).
    { unfold inCorpusRange in Hout.
      destruct (n <? 1101) eqn:Hlo; [reflexivity|].
      destruct (n >? 1644) eqn:Hhi; [reflexivity|].
      exfalso. apply Hout. right. split; [reflexivity|]. lia. }
    rewrite Hr.
    exists "❌ 2-ci korpus üçün otaq nömrəsi 1101 ilə 1644 arasında olmalıdır.", (counted u).
    simpl. rewrite Hstep, Hc. auto.
Qed.

(** C4. For a sender without a wizard, who is not banned and whom the rate
    limiter lets pass, with the store answering: the start request and then
    the replies "1", "205" and "3" add exactly one ticket to the store, with
    corpus "1", room "205", the label of catalog entry 3 as its problem and
    status open, and no wizard of the sender is left afterwards. *)
Theorem wizard_run_creates_one_open_ticket now0 now1 now2 now3 m0 m1 m2 m3 st :
  from m1 = from m0 -> from m2 = from m0 -> from m3 = from m0 ->
  body m1 = Some "1" -> body m2 = Some "205" -> body m3 = Some "3" ->
  userStates st !! from m0 = None ->
  isBanned st (normalize E (from m0)) = false ->
  allowed (fst (canCreateTicket E now0 (from m0) (rateLimiter st))) = true ->
  Db.online (db st) = true ->
  let st1 := fst (startNewTicket E now0 m0 st) in
  let st2 := fst (continueTicket E now1 m1 st1) in
  let st3 := fst (continueTicket E now2 m2 st2) in
  let st4 := fst (continueTicket E now3 m3 st3) in
  exists t : Db.Ticket,
    Db.tickets (db st4) = Db.tickets (db st) ++ [t]
    /\ Db.tickets (db st3) = Db.tickets (db st)
    /\ Db.user_id t = from m0
    /\ Db.corpus t = Some "1"
    /\ Db.room t = Some "205"
    /\ Db.problem_type t = lookupKey "3" problemTypesExtended
    /\ Db.problem_type t = Some "🧾 Printer işləmir"
    /\ Db.status t = Db.open
    /\ userStates st4 !! from m0 = None.
Proof.
  intros F1 F2 F3 B1 B2 B3 Hnone Hban Hallowed Honline st1 st2 st3 st4.
  assert (H1 : st1 = store E (from m0) (freshState now0 m0)
                       (set_rateLimiter
                          (fun _ => snd (canCreateTicket E now0 (from m0) (rateLimiter st))) st)).
  { subst st1. unfold startNewTicket, normalizePhone. rewrite Hban.
    destruct (canCreateTicket E now0 (from m0) (rateLimiter st)) as [lc l].
    simpl in Hallowed. rewrite Hallowed. reflexivity. }
  clearbody st1. subst st1.
  set (base := set_rateLimiter _ st) in *.
  assert (H2 : st2 = store E (from m0)
                       (set_step 2 (set_corpus "1" (counted (freshState now0 m0)))) base).
  { subst st2. erewrite continueTicket_unfold by (rewrite F1; apply lookup_store).
    unfold switchStep, handleStep1. simpl. rewrite B1, F1. simpl.
    unfold store, set_userStates. simpl. f_equal.
    rewrite !insert_insert_eq. reflexivity. }
  clearbody st2. subst st2.
  assert (H3 : st3 = store E (from m0)
                       (set_step 3 (set_room "205"
                          (counted (set_step 2 (set_corpus "1" (counted (freshState now0 m0)))))))
                       base).
  { subst st3. erewrite continueTicket_unfold by (rewrite F2; apply lookup_store).
    unfold switchStep, handleStep2. simpl. rewrite B2, F2. simpl.
    unfold store, set_userStates. simpl. f_equal.
    rewrite !insert_insert_eq. reflexivity. }
  clearbody st3. subst st3.
  subst st4. erewrite continueTicket_unfold by (rewrite F3; apply lookup_store).
  unfold switchStep, handleStep3. simpl. rewrite B3, F3. simpl.
  unfold completeTicket. simpl. rewrite Honline. simpl.
  eexists. repeat split; try reflexivity.
  apply lookup_delete_eq.
Qed.

Lemma sendToGroup_sends_no_reply now (ticketId : Z) (u : UserState) st (text : string) :
  ~ In (Reply text) (sendToGroup E now ticketId u st).
Proof.
  unfold sendToGroup. destruct (traineeGroupId st) as [g|]; [destruct (String.eqb g "")|];
    simpl; intuition discriminate.
Qed.

Lemma completeTicket_sends_no_apology now m (u : UserState) st :
  ~ In (Reply apology) (snd (completeTicket E now m u st)).
Proof.
  unfold completeTicket, apology, sendQuickReply.
  destruct (negb (Db.online (db st))); cbn [snd]; intros Hin.
  - no_apology Hin.
  - apply in_app_or in Hin as [Hin | Hin]; [no_apology Hin|].
    apply in_app_or in Hin as [Hin | Hin]; [no_apology Hin|].
    exact (sendToGroup_sends_no_reply _ _ _ _ _ Hin).
Qed.

(** A step that does not throw never sends the apology. *)
Lemma switchStep_sends_no_apology now (key : string) m (u : UserState) st st' effects :
  switchStep E now key m u st = Some (st', effects) ->
  ~ In (Reply apology) effects.
Proof.
  unfold switchStep. intros H Hin.
  destruct (step u =? 1); [|destruct (step u =? 2); [|destruct (step u =? 3);
    [|destruct (step u =? 4)]]].
  - unfold handleStep1, sendQuickReply, apology in *.
    split_tests; no_apology Hin.
  - unfold handleStep2, showProblemTypes, sendQuickReply, apology in *. cbv zeta in H.
    split_tests; no_apology Hin.
  - unfold handleStep3, sendQuickReply in *. cbv zeta in H.
    split_tests;
      try (unfold apology in Hin; no_apology Hin).
    match goal with
    | H1 : completeTicket _ _ _ ?v ?sv = _ |- _ =>
        apply (completeTicket_sends_no_apology now m v sv); rewrite H1; exact Hin
    end.
  - unfold handleStep4, sendQuickReply in *. cbv zeta in H.
    split_tests;
      try (unfold apology in Hin; no_apology Hin).
    match goal with
    | H1 : completeTicket _ _ _ ?v ?sv = _ |- _ =>
        apply (completeTicket_sends_no_apology now m v sv); rewrite H1; exact Hin
    end.
  - simplify_eq. destruct Hin.
Qed.

(** Completing a ticket removes the entry under the phone recorded in the
    state object and touches no other entry. *)
Lemma completeTicket_userStates now m (u : UserState) st :
  userStates (fst (completeTicket E now m u st)) = delete (userPhone u) (userStates st).
Proof.
  unfold completeTicket. destruct (negb (Db.online (db st))); reflexivity.
Qed.

(** A step that does not throw leaves the attempt counter of the entry it
    works on as [continueTicket] set it. *)
Lemma switchStep_keeps_attempts now (key : string) m (u : UserState) st st' effects :
  userStates st !! key = Some u ->
  switchStep E now key m u st = Some (st', effects) ->
  forall u' : UserState, userStates st' !! key = Some u' -> attempts u' = attempts u.
Proof.
  unfold switchStep. intros Hu H u' Hu'.
  assert (Hdone : forall (v : UserState) r,
             attempts v = attempts u ->
             completeTicket E now m v (store E key v st) = r ->
             userStates (fst r) !! key = Some u' -> attempts u' = attempts u).
  { intros v r Hv <-. rewrite completeTicket_userStates. unfold store. simpl.
    destruct (decide (userPhone v = key)) as [-> | Hne].
    - rewrite lookup_delete_eq. discriminate.
    - rewrite lookup_delete_ne, lookup_insert_eq by exact Hne. congruence. }
  destruct (step u =? 1); [|destruct (step u =? 2); [|destruct (step u =? 3);
    [|destruct (step u =? 4)]]].
  - unfold handleStep1, store in H. split_tests; try reflexivity;
      simpl in Hu'; rewrite ?lookup_insert_eq in Hu'; simplify_eq; reflexivity.
  - unfold handleStep2, store in H. cbv zeta in H. split_tests; try reflexivity;
      simpl in Hu'; rewrite ?lookup_insert_eq in Hu'; simplify_eq; reflexivity.
  - unfold handleStep3 in H. cbv zeta in H. split_tests; try reflexivity;
      try (unfold store in Hu'; simpl in Hu'; rewrite ?lookup_insert_eq in Hu';
           simplify_eq; reflexivity).
    match goal with
    | H1 : completeTicket _ _ _ ?v _ = _ |- _ =>
        exact (Hdone v _ eq_refl H1 Hu')
    end.
  - unfold handleStep4 in H. cbv zeta in H. split_tests; try reflexivity;
      try (unfold store in Hu'; simpl in Hu'; rewrite ?lookup_insert_eq in Hu';
           simplify_eq; reflexivity).
    match goal with
    | H1 : completeTicket _ _ _ ?v _ = _ |- _ =>
        exact (Hdone v _ eq_refl H1 Hu')
    end.
  - congruence.
Qed.

(** C9 (amended). The attempt counter of a conversation counts every reply
    that the wizard handles: a valid step, an invalid input and a failure
    alike. The wizard is ended with the apology, and its state discarded,
    exactly when a reply fails in processing and is at least the third reply
    of the conversation. A reply that fails earlier is answered by the
    general error text and the state is kept; a reply that does not fail
    never ends the wizard with the apology. *)
Theorem wizard_apology_on_failure_from_third_reply now m st (u : UserState) :
  userStates st !! from m = Some u ->
  let st' := fst (continueTicket E now m st) in
  let effects := snd (continueTicket E now m st) in
  (In (Reply apology) effects <-> stepFails E now m st = true /\ 3 <= attempts u + 1)
  /\ (stepFails E now m st = true -> 3 <= attempts u + 1 ->
      userStates st' !! from m = None)
  /\ (stepFails E now m st = true -> attempts u + 1 < 3 ->
      userStates st' !! from m = Some (counted u)
      /\ effects = [ Log "error" "❌ Ticket xətası:"; Log "error" "❌ Ticket xətası:";
                     Reply "❌ Xəta baş verdi. Zəhmət olmasa yenidən cəhd edin." ])
  /\ (stepFails E now m st = false ->
      forall u' : UserState, userStates st' !! from m = Some u' ->
        attempts u' = attempts u + 1).
Proof.
  intros Hu st' effects. subst st' effects.
  rewrite (continueTicket_unfold _ _ _ _ Hu).
  unfold stepFails. rewrite Hu.
  destruct (switchStep E now (from m) m (counted u) (store E (from m) (counted u) st))
    as [[st1 effects1]|] eqn:Hstep.
  - simpl. split; [|split; [|split]]; try discriminate.
    + split; [|intros [? _]; discriminate].
      intros Hin. exfalso. exact (switchStep_sends_no_apology _ _ _ _ _ _ _ Hstep Hin).
    + intros _ u' Hu'.
      exact (switchStep_keeps_attempts _ _ _ _ _ _ _ (lookup_store _ _ _) Hstep u' Hu').
  - unfold handleTicketError. rewrite lookup_store. simpl.
    destruct (attempts u + 1 >=? 3) eqn:Hge; simpl.
    + split; [|split; [|split]]; try discriminate.
      * split; [intros _; split; [reflexivity|lia]|]. intros _. right. right. left. reflexivity.
      * intros _ _. apply lookup_delete_eq.
      * intros _ Hlt. lia.
    + split; [|split; [|split]]; try discriminate.
      * split; [|intros [_ ?]; lia].
        intros [H|[H|[H|[]]]]; discriminate H.
      * intros _ ?. lia.
      * intros _ _. split; [apply lookup_insert_eq|reflexivity].
Qed.

End WizardProperties.

(** ** Properties of the ticket lifecycle *)

Section LifecycleProperties.

Variable E : Env.
Implicit Type st : Bot (RL E).
Implicit Type m : Message.
Implicit Type s : Db.Store.

(** *** Rows and updates *)

Lemma find_hasId_map (i : Z) (g : Db.Ticket -> Db.Ticket) (l : list Db.Ticket) :
  (forall r, Db.id (g r) = Db.id r) ->
  List.find (Db.hasId i) (List.map (fun r => if Db.hasId i r then g r else r) l)
  = option_map g (List.find (Db.hasId i) l).
Proof.
  intros Hid. induction l as [|r l IH]; [reflexivity|]. simpl.
  destruct (Db.hasId i r) eqn:Hr.
  - unfold Db.hasId in *. rewrite Hid, Hr. reflexivity.
  - rewrite Hr. exact IH.
Qed.

Lemma find_hasId_map_other (i j : Z) (g : Db.Ticket -> Db.Ticket) (l : list Db.Ticket) :
  (forall r, Db.id (g r) = Db.id r) -> j <> i ->
  List.find (Db.hasId j) (List.map (fun r => if Db.hasId i r then g r else r) l)
  = List.find (Db.hasId j) l.
Proof.
  intros Hid Hne. induction l as [|r l IH]; [reflexivity|]. simpl.
  destruct (Db.hasId i r) eqn:Hr.
  - unfold Db.hasId in *. rewrite Hid.
    apply Z.eqb_eq in Hr. rewrite Hr.
    destruct (Z.eqb_spec i j); [congruence|]. exact IH.
  - destruct (Db.hasId j r); [reflexivity|exact IH].
Qed.

Lemma lookup_map_other (i : Z) (g : Db.Ticket -> Db.Ticket) (l : list Db.Ticket)
    (n : nat) (r : Db.Ticket) :
  l !! n = Some r -> Db.id r <> i ->
  List.map (fun r => if Db.hasId i r then g r else r) l !! n = Some r.
Proof.
  intros Hl Hne. change (List.map ?f l) with (f <$> l).
  rewrite list_lookup_fmap, Hl. simpl.
  unfold Db.hasId. destruct (Z.eqb_spec (Db.id r) i); [contradiction|reflexivity].
Qed.

(** C7. A [/solved <id> <text>] command for a ticket whose status is
    already solved is refused with one text to the sender, and the bot's
    state, the ticket's row with it, stays exactly as it was: [solved_at],
    [solution], [status] and the assigned admin keep their values. *)
Theorem solved_ticket_is_not_solved_again now m (adminName b : string) st
    (i : Z) (t : Db.Ticket) :
  body m = Some b ->
  3 <= Z.of_nat (length (Js.split " " b)) ->
  Js.parseInt (nth 1 (Js.split " " b) "") = Some i ->
  Db.ticketById (db st) (Some i) = Some t ->
  Db.status t = Db.solved ->
  markSolved E now m adminName st
  = Some (st, if Db.online (db st)
              then [Reply "❌ Bu ticket artıq həll edilib!"]
              else [Log "error" "❌ Solved xətası:";
                    Reply "❌ Ticket yenilənərkən xəta baş verdi!"]).
Proof.
  intros Hb Hlen Hid Ht Hs. unfold markSolved. rewrite Hb.
  destruct (Z.ltb_spec (Z.of_nat (length (Js.split " " b))) 3); [lia|].
  cbv zeta. rewrite Hid.
  destruct (Db.online (db st)); [|reflexivity].
  simpl negb. cbv iota. rewrite Ht, Hs. reflexivity.
Qed.

(** C10. Reopening a solved ticket with [/unsolved <id>] rewrites four
    columns of its row and nothing else: [status] becomes open, and
    [solved_at], [assigned_admin] and [solution] become NULL. Every other
    column of the row keeps its value, every other row is untouched. In
    particular [assigned_admin_name] stays, so that a reopened ticket has no
    assigned admin but still carries the former admin's display name. *)
Theorem reopen_rewrites_four_columns_only m (b : string) st (i : Z) (t : Db.Ticket) :
  body m = Some b ->
  2 <= Z.of_nat (length (Js.split " " b)) ->
  Js.parseInt (nth 1 (Js.split " " b) "") = Some i ->
  Db.online (db st) = true ->
  Db.ticketById (db st) (Some i) = Some t ->
  Db.status t = Db.solved ->
  exists st' effects (t' : Db.Ticket),
    handleUnsolved E m st = Some (st', effects)
    /\ Db.ticketById (db st') (Some i) = Some t'
    /\ (Db.status t' = Db.open /\ Db.solved_at t' = None
        /\ Db.assigned_admin t' = None /\ Db.solution t' = None)
    /\ (Db.id t' = Db.id t /\ Db.user_id t' = Db.user_id t
        /\ Db.username t' = Db.username t /\ Db.phone t' = Db.phone t
        /\ Db.corpus t' = Db.corpus t /\ Db.room t' = Db.room t
        /\ Db.problem_type t' = Db.problem_type t
        /\ Db.created_at t' = Db.created_at t
        /\ Db.assigned_admin_name t' = Db.assigned_admin_name t
        /\ Db.solved_by_phone t' = Db.solved_by_phone t)
    /\ length (Db.tickets (db st')) = length (Db.tickets (db st))
    /\ (forall (n : nat) (r : Db.Ticket),
          Db.tickets (db st) !! n = Some r -> Db.id r <> i ->
          Db.tickets (db st') !! n = Some r)
    /\ (forall name : string, Db.assigned_admin_name t = Some name ->
          Db.assigned_admin t' = None /\ Db.assigned_admin_name t' = Some name).
Proof.
  intros Hb Hlen Hid Hon Ht Hs. unfold handleUnsolved. rewrite Hb.
  destruct (Z.ltb_spec (Z.of_nat (length (Js.split " " b))) 2); [lia|].
  cbv zeta. rewrite Hid, Hon. simpl negb. cbv iota. rewrite Ht, Hs. simpl negb. cbv iota.
  eexists _, _, (reopened t). split; [reflexivity|].
  split.
  { simpl. unfold Db.ticketById in *. simpl.
    rewrite find_hasId_map by reflexivity. rewrite Ht. reflexivity. }
  split; [by repeat split|]. split; [by repeat split|].
  split; [simpl; apply length_map|].
  split.
  { intros n r Hr Hne. simpl. by apply lookup_map_other. }
  intros name Hname. simpl. by split.
Qed.

(** *** One active ticket per admin *)

Lemma updateTicket_tickets (i : Z) (g : Db.Ticket -> Db.Ticket) s :
  Db.tickets (Db.updateTicket (Some i) g s) = List.map (rewriteRow i g) (Db.tickets s).
Proof. reflexivity. Qed.

Lemma rewriteRow_ids (i : Z) (g : Db.Ticket -> Db.Ticket) (l : list Db.Ticket) :
  (forall r, Db.id (g r) = Db.id r) ->
  List.map Db.id (List.map (rewriteRow i g) l) = List.map Db.id l.
Proof.
  intros Hid. rewrite List.map_map. apply List.map_ext. intros r.
  unfold rewriteRow. destruct (Db.hasId i r); [apply Hid|reflexivity].
Qed.

Lemma rewriteRow_absent (i : Z) (g : Db.Ticket -> Db.Ticket) (l : list Db.Ticket) :
  ~ In i (List.map Db.id l) -> List.map (rewriteRow i g) l = l.
Proof.
  induction l as [|r l IH]; [reflexivity|]. simpl. intros Hno.
  rewrite IH by tauto. f_equal. unfold rewriteRow, Db.hasId.
  destruct (Z.eqb_spec (Db.id r) i); [tauto|reflexivity].
Qed.

(** An update that makes no row active for [a] does not raise the count. *)
Lemma activeRows_not_raised (a : string) (f : Db.Ticket -> Db.Ticket) (l : list Db.Ticket) :
  (forall r, Db.isActiveOf (Some a) (f r) = true -> Db.isActiveOf (Some a) r = true) ->
  (activeRows a (List.map f l) <= activeRows a l)%nat.
Proof.
  intros Hf. unfold activeRows. induction l as [|r l IH]; [reflexivity|].
  cbn [List.map List.filter].
  destruct (Db.isActiveOf (Some a) (f r)) eqn:Hfr.
  - rewrite (Hf r Hfr). cbn [length]. lia.
  - destruct (Db.isActiveOf (Some a) r); cbn [length]; lia.
Qed.

Lemma find_none_activeRows (a : string) (l : list Db.Ticket) :
  List.find (Db.isActiveOf (Some a)) l = None -> activeRows a l = 0%nat.
Proof.
  unfold activeRows. induction l as [|r l IH]; [reflexivity|].
  cbn [List.find List.filter].
  destruct (Db.isActiveOf (Some a) r); [discriminate|]. exact IH.
Qed.

(** With distinct ids, rewriting the row of one id raises no count from
    zero to more than one. *)
Lemma activeRows_after_assign (a : string) (i : Z) (g : Db.Ticket -> Db.Ticket)
    (l : list Db.Ticket) :
  NoDup (List.map Db.id l) ->
  activeRows a l = 0%nat ->
  (activeRows a (List.map (rewriteRow i g) l) <= 1)%nat.
Proof.
  unfold activeRows. induction l as [|r l IH]; [simpl; lia|].
  cbn [List.map List.filter]. intros Hnd H0. apply NoDup_cons in Hnd as [Hnotin Hnd].
  destruct (Db.isActiveOf (Some a) r) eqn:Hr; [discriminate|].
  unfold rewriteRow at 1. destruct (Db.hasId i r) eqn:Hi.
  - apply Z.eqb_eq in Hi. subst i.
    rewrite rewriteRow_absent by (intros Hin; apply Hnotin, list_elem_of_In, Hin).
    destruct (Db.isActiveOf (Some a) (g r)); cbn [length]; rewrite H0; lia.
  - rewrite Hr. apply IH; assumption.
Qed.

(** The rewrite of a row that no admin holds actively afterwards. *)
Lemma storeInv_release (i : option Z) (g : Db.Ticket -> Db.Ticket) s :
  (forall r, Db.id (g r) = Db.id r) ->
  (forall a r, Db.isActiveOf (Some a) (g r) = false) ->
  storeInv s -> storeInv (Db.updateTicket i g s).
Proof.
  intros Hid Hoff [[Hnd Hlt] Hone]. destruct i as [i|]; [|by repeat split].
  split; [split|].
  - rewrite updateTicket_tickets, rewriteRow_ids by exact Hid. exact Hnd.
  - rewrite updateTicket_tickets. simpl. apply Forall_forall. intros r Hin.
    apply list_elem_of_In, in_map_iff in Hin as [r0 [<- Hin0]].
    rewrite Forall_forall in Hlt. specialize (Hlt r0 (proj2 (list_elem_of_In _ _) Hin0)).
    unfold rewriteRow. destruct (Db.hasId i r0); [rewrite Hid|]; exact Hlt.
  - intros a. rewrite updateTicket_tickets.
    etransitivity; [|exact (Hone a)].
    apply activeRows_not_raised. intros r. unfold rewriteRow.
    destruct (Db.hasId i r); [rewrite Hoff; discriminate|tauto].
Qed.

(** The rewrite of a row that gives it to an admin without an active row. *)
Lemma storeInv_assign (i : option Z) (p name : option string) s :
  Db.activeTicketOf s p = None ->
  storeInv s -> storeInv (Db.updateTicket i (assignTo p name) s).
Proof.
  intros Hfree [[Hnd Hlt] Hone]. destruct i as [i|]; [|by repeat split].
  split; [split|].
  - rewrite updateTicket_tickets, rewriteRow_ids by reflexivity. exact Hnd.
  - rewrite updateTicket_tickets. simpl. apply Forall_forall. intros r Hin.
    apply list_elem_of_In, in_map_iff in Hin as [r0 [<- Hin0]].
    rewrite Forall_forall in Hlt. specialize (Hlt r0 (proj2 (list_elem_of_In _ _) Hin0)).
    unfold rewriteRow. destruct (Db.hasId i r0); exact Hlt.
  - intros a. rewrite updateTicket_tickets.
    destruct (decide (p = Some a)) as [-> | Hother].
    + apply activeRows_after_assign; [exact Hnd|].
      apply find_none_activeRows. exact Hfree.
    + etransitivity; [|exact (Hone a)].
      apply activeRows_not_raised. intros r. unfold rewriteRow.
      destruct (Db.hasId i r); [|tauto].
      unfold Db.isActiveOf, assignTo. simpl.
      destruct p as [q|]; [|discriminate].
      destruct (String.eqb_spec a q); [congruence|discriminate].
Qed.

Lemma storeInv_insert (uid uname ph : string) (c r p : option string) (created : string) s :
  storeInv s -> storeInv (snd (Db.insertTicket uid uname ph c r p Db.open created s)).
Proof.
  intros [[Hnd Hlt] Hone]. unfold Db.insertTicket. cbn [snd].
  split; [split|]; unfold oneActivePerAdmin; cbn [Db.tickets Db.nextId].
  - rewrite List.map_app. cbn [List.map Db.id]. apply NoDup_app. split; [exact Hnd|]. split.
    + intros x Hx Hx'. apply list_elem_of_In in Hx'. destruct Hx' as [<- | []].
      apply list_elem_of_In, in_map_iff in Hx as [r0 [Hid Hin]].
      rewrite Forall_forall in Hlt. specialize (Hlt r0 (proj2 (list_elem_of_In _ _) Hin)). lia.
    + apply NoDup_singleton.
  - apply Forall_app. split.
    + eapply Forall_impl; [exact Hlt|]. cbn beta. intros; lia.
    + apply Forall_singleton. cbn [Db.id]. lia.
  - intros a. unfold activeRows. rewrite List.filter_app, length_app.
    specialize (Hone a). unfold activeRows in Hone.
    cbn [List.filter Db.isActiveOf Db.assigned_admin length]. lia.
Qed.

(** *** The handlers keep the invariant *)

Lemma storeInv_same s s' :
  Db.tickets s' = Db.tickets s -> Db.nextId s' = Db.nextId s -> storeInv s -> storeInv s'.
Proof.
  unfold storeInv, idsDistinct, oneActivePerAdmin. intros -> ->. tauto.
Qed.

(** An update after which no admin holds the row actively keeps the invariant
    of the store. *)
Ltac released :=
  apply storeInv_release;
  [ reflexivity
  | intros ? ?; unfold Db.isActiveOf; cbn [Db.assigned_admin Db.status reopened assignTo];
    try reflexivity;
    repeat match goal with |- context [match ?x with _ => _ end] => destruct x end;
    rewrite ?andb_false_r; reflexivity
  | assumption ].

Lemma markSolved_inv now m (adminName : string) st st' effects :
  markSolved E now m adminName st = Some (st', effects) ->
  storeInv (db st) -> storeInv (db st').
Proof.
  unfold markSolved. cbv zeta. intros H Hinv. split_tests; try assumption.
  cbn [db set_db]. released.
Qed.

Lemma handleLongTerm_inv now m (adminName : string) st st' effects :
  handleLongTerm E now m adminName st = Some (st', effects) ->
  storeInv (db st) -> storeInv (db st').
Proof.
  unfold handleLongTerm. cbv zeta. intros H Hinv. split_tests; try assumption.
  cbn [db set_db]. released.
Qed.

Lemma handleUnsolved_inv m st st' effects :
  handleUnsolved E m st = Some (st', effects) ->
  storeInv (db st) -> storeInv (db st').
Proof.
  unfold handleUnsolved. cbv zeta. intros H Hinv. split_tests; try assumption.
  cbn [db set_db]. released.
Qed.

Lemma handleNoAssign_inv m st st' effects :
  handleNoAssign E m st = Some (st', effects) ->
  storeInv (db st) -> storeInv (db st').
Proof.
  unfold handleNoAssign. cbv zeta. intros H Hinv. split_tests; try assumption;
    cbn [db set_db]; released.
Qed.

Lemma handleAssign_inv m st st' effects :
  handleAssign E m st = Some (st', effects) ->
  storeInv (db st) -> storeInv (db st').
Proof.
  unfold handleAssign. cbv zeta. intros H Hinv. split_tests; try assumption;
    cbn [db set_db]; apply storeInv_assign; assumption.
Qed.

Lemma completeTicket_inv now m (u : UserState) st :
  storeInv (db st) -> storeInv (db (fst (completeTicket E now m u st))).
Proof.
  intros Hinv. unfold completeTicket.
  destruct (negb (Db.online (db st))); [exact Hinv|].
  unfold Db.insertTicket. cbn [fst db set_db set_rateLimiter set_userStates].
  exact (storeInv_insert _ _ _ _ _ _ _ _ Hinv).
Qed.

Lemma switchStep_inv now (key : string) m (u : UserState) st st' effects :
  switchStep E now key m u st = Some (st', effects) ->
  storeInv (db st) -> storeInv (db st').
Proof.
  unfold switchStep, handleStep1, handleStep2, handleStep3, handleStep4. cbv zeta.
  intros H Hinv. split_tests; try assumption;
    match goal with
    | H1 : completeTicket _ _ _ ?v ?sv = (?a, _) |- _ =>
        change a with (fst (a, effects)); rewrite <- H1;
        apply completeTicket_inv; exact Hinv
    end.
Qed.

Lemma continueTicket_inv now m st :
  storeInv (db st) -> storeInv (db (fst (continueTicket E now m st))).
Proof.
  intros Hinv. unfold continueTicket.
  destruct (userStates st !! from m) as [u|]; [|exact Hinv]. cbv zeta.
  destruct (switchStep E now (from m) m _ _) as [[st1 e1]|] eqn:Hstep.
  - exact (switchStep_inv _ _ _ _ _ _ _ Hstep Hinv).
  - unfold handleTicketError. rewrite lookup_store.
    destruct (attempts _ >=? 3); exact Hinv.
Qed.

Lemma startNewTicket_db now m st : db (fst (startNewTicket E now m st)) = db st.
Proof.
  unfold startNewTicket.
  destruct (isBanned st _); [reflexivity|].
  destruct (canCreateTicket E now (from m) (rateLimiter st)) as [lc l].
  destruct (negb (allowed lc)); reflexivity.
Qed.

Lemma handleStop_db m st : db (fst (handleStop E m st)) = db st.
Proof. unfold handleStop. destruct (userStates st !! from m); reflexivity. Qed.

Lemma banUser_db (identity : option string) st : db (banUser identity st) = db st.
Proof. destruct identity; reflexivity. Qed.

Lemma adminLoginCheck_db m st st' effects :
  adminLoginCheck E m st = Returned (st', effects) -> db st' = db st.
Proof.
  unfold adminLoginCheck. cbv zeta. intros H.
  split_tests; split_goal_tests;
    cbn [db set_adminLoginState set_failedLoginAttempts set_adminSessions];
    rewrite ?banUser_db; reflexivity.
Qed.

Lemma autoBan_db now m st : db (fst (fst (autoBan E now m st))) = db st.
Proof.
  unfold autoBan. cbv zeta. split_goal_tests;
    cbn [fst db set_messageSpam]; rewrite ?banUser_db; reflexivity.
Qed.

Lemma handleCommands_inv now m (messageBody : string) (isGroup matched : bool)
    st st' effects :
  externalsKeepTickets E ->
  handleCommands E now m messageBody isGroup st = Some (matched, (st', effects)) ->
  storeInv (db st) -> storeInv (db st').
Proof.
  intros Hext H Hinv. unfold handleCommands in H. cbv zeta in H.
  assert (Hother : forall h, storeInv (db (fst (external E h m st)))).
  { intros h. destruct (Hext h m st) as [Ht Hn]. exact (storeInv_same _ _ Ht Hn Hinv). }
  repeat match type of H with
         | (if ?c then _ else _) = _ => destruct c
         end;
    repeat match type of H with
           | match ?o with Some _ => _ | None => _ end = _ => destruct o as [[? ?]|] eqn:?
           end;
    simplify_eq; cbn [fst];
    first
      [ exact Hinv
      | apply Hother
      | rewrite startNewTicket_db; exact Hinv
      | rewrite handleStop_db; exact Hinv
      | eapply markSolved_inv; eassumption
      | eapply handleLongTerm_inv; eassumption
      | eapply handleUnsolved_inv; eassumption
      | eapply handleAssign_inv; eassumption
      | eapply handleNoAssign_inv; eassumption ].
Qed.

Lemma processMessage_inv now m (isGroup : bool) (senderIdRaw : string) st :
  externalsKeepTickets E ->
  storeInv (db st) -> storeInv (db (fst (processMessage E now m isGroup senderIdRaw st))).
Proof.
  intros Hext Hinv. unfold processMessage. cbv zeta.
  destruct (String.eqb (from m) ""); [exact Hinv|].
  destruct (negb (Js.truthy (body m)) && negb (hasMedia m)); [exact Hinv|].
  destruct (mediaCheck m) as [mediaLog tooLarge]. destruct tooLarge; [exact Hinv|].
  destruct (isBanned st _); [exact Hinv|].
  destruct (negb isGroup && negb (Js.startsWith "/" _) && isGreeting _).
  { pose proof (startNewTicket_db now m st) as Hdb.
    destruct (startNewTicket E now m st) as [s1 e1]. cbn [fst] in *. rewrite Hdb. exact Hinv. }
  destruct (if negb isGroup then adminLoginCheck E m st else Next) as [[s1 e1]| |] eqn:Hlogin.
  - destruct (negb isGroup); [|discriminate].
    cbn [fst]. rewrite (adminLoginCheck_db _ _ _ _ Hlogin). exact Hinv.
  - destruct (handleCommands E now m _ isGroup st) as [[matched [s1 e1]]|] eqn:Hcmd;
      [|exact Hinv].
    pose proof (handleCommands_inv _ _ _ _ _ _ _ _ Hext Hcmd Hinv) as Hinv1.
    destruct matched; [exact Hinv1|].
    destruct (negb isGroup && bool_decide (is_Some (userStates s1 !! senderIdRaw)));
      [|exact Hinv1].
    pose proof (continueTicket_inv now m s1 Hinv1) as Hinv2.
    destruct (continueTicket E now m s1) as [s2 e2]. exact Hinv2.
  - exact Hinv.
Qed.

Lemma handleMessage_inv now m st :
  externalsKeepTickets E ->
  storeInv (db st) -> storeInv (db (fst (handleMessage E now m st))).
Proof.
  intros Hext Hinv. unfold handleMessage. cbv zeta.
  destruct (fromMe m); [exact Hinv|].
  destruct (Js.truthy _ && isBanned st _); [exact Hinv|].
  assert (Hspam : storeInv (db (fst (fst
            (if negb (isGroupChat m) then autoBan E now m st else (st, [], false)))))).
  { destruct (negb (isGroupChat m)); [rewrite autoBan_db|]; exact Hinv. }
  destruct (if negb (isGroupChat m) then autoBan E now m st else (st, [], false))
    as [[s1 e1] stop].
  cbn [fst] in Hspam. destruct stop; [exact Hspam|].
  pose proof (processMessage_inv now m (isGroupChat m)
                (extractSenderId E m (isGroupChat m)) s1 Hext Hspam) as Hp.
  destruct (processMessage E now m _ _ s1) as [s2 e2]. exact Hp.
Qed.

Lemma receive_inv (events : list (Z * Message)) st :
  externalsKeepTickets E ->
  storeInv (db st) -> storeInv (db (fst (receive E events st))).
Proof.
  intros Hext. revert st. induction events as [|[now m] rest IH]; intros st Hinv.
  - exact Hinv.
  - cbn [receive].
    pose proof (handleMessage_inv now m st Hext Hinv) as H1.
    destruct (handleMessage E now m st) as [s1 e1]. cbn [fst] in H1.
    specialize (IH s1 H1). destruct (receive E rest s1) as [s2 e2]. exact IH.
Qed.

(** With at most one active row per admin, the query for the active row
    of an admin finds the one there is. *)
Lemma find_the_active_row (a : string) (l : list Db.Ticket) (held : Db.Ticket) :
  (activeRows a l <= 1)%nat ->
  In held l -> Db.isActiveOf (Some a) held = true ->
  List.find (Db.isActiveOf (Some a)) l = Some held.
Proof.
  unfold activeRows. induction l as [|r l IH]; [intros _ []|].
  cbn [List.filter List.find]. intros Hle Hin Hheld.
  destruct (Db.isActiveOf (Some a) r) eqn:Hr.
  - destruct Hin as [-> | Hin]; [reflexivity|]. exfalso.
    cbn [length] in Hle.
    assert (Hin' : In held (List.filter (Db.isActiveOf (Some a)) l))
      by (apply List.filter_In; split; assumption).
    destruct (List.filter (Db.isActiveOf (Some a)) l); [destruct Hin'|cbn [length] in Hle; lia].
  - destruct Hin as [-> | Hin]; [congruence|]. apply IH; assumption.
Qed.

(** A handler that runs alone, with no other handler between its
    statements, is the handler of the core. *)
Lemma assignTask_alone m st :
  match handleAssign E m st, assignTask E m st with
  | Some (st', effects), Some t => runAlone t (db st) = (db st', effects)
  | None, None => True
  | _, _ => False
  end.
Proof.
  unfold handleAssign, assignTask, adminDisplayName.
  destruct (isGroupChat m); [reflexivity|].
  destruct (body m) as [b|]; [|exact I]. cbv zeta.
  destruct (Z.of_nat (length (Js.split " " b)) <? 2); [reflexivity|].
  destruct (Db.online (db st)) eqn:Honline;
    repeat (cbn [negb runAlone]; unfold id; rewrite ?Honline); [|reflexivity].
  destruct (Db.activeTicketOf (db st) _);
    repeat (cbn [negb runAlone]; unfold id; rewrite ?Honline); [reflexivity|].
  destruct (Db.ticketById (db st) _) as [ticket|]; [|reflexivity].
  destruct (Db.Status_eqb (Db.status ticket) Db.solved); [reflexivity|].
  destruct (Db.Status_eqb (Db.status ticket) Db.long_term); [reflexivity|].
  destruct (Js.truthy (Db.assigned_admin ticket)).
  - destruct (bool_decide _); [reflexivity|].
    repeat (cbn [negb runAlone]; unfold id; rewrite ?Honline). reflexivity.
  - repeat (cbn [negb runAlone]; unfold id; rewrite ?Honline).
    unfold set_db. cbn [db]. reflexivity.
Qed.

(** C6. An admin who holds a ticket that is neither solved nor long-term
    and asks for another one with [/assign] is refused: no row changes, and
    the text of the refusal carries the id of the ticket the admin holds.
    Hence, when the messages are handled one after the other, every admin
    holds at most one ticket that is neither solved nor long-term, whatever
    messages arrive. (The query for the admin's ticket and the update are
    two statements with an [await] between them: when two [/assign] of one
    admin overlap, both can pass.) *)
Theorem busy_admin_is_refused_another_ticket m (b p : string) st (held : Db.Ticket) :
  externalsKeepTickets E ->
  storeInv (db st) ->
  isGroupChat m = false ->
  body m = Some b ->
  2 <= Z.of_nat (length (Js.split " " b)) ->
  normalize E (from m) = Some p ->
  In held (Db.tickets (db st)) ->
  Db.assigned_admin held = Some p ->
  Db.status held <> Db.solved ->
  Db.status held <> Db.long_term ->
  handleAssign E m st
  = Some (st, if Db.online (db st)
              then [Reply ("❌ Siz artıq Ticket #" +:+ Js.showZ (Db.id held) +:+
                           " ilə məşğulsunuz. Yeni ticket götürmək üçün əvvəlcə onu həll etməli (/solved) və ya imtina etməlisiniz (/noassign).")]
              else [Log "error" "❌ Assign error:"; Reply "❌ Assign zamanı xəta baş verdi."])
  /\ (forall events : list (Z * Message),
        oneActivePerAdmin (db (fst (receive E events st)))).
Proof.
  intros Hext Hinv Hpriv Hb Hlen Hp Hin Hadmin Hns Hnl. split.
  - unfold handleAssign. rewrite Hpriv, Hb.
    destruct (Z.ltb_spec (Z.of_nat (length (Js.split " " b))) 2); [lia|].
    cbv zeta. unfold normalizePhone. rewrite Hp.
    destruct (Db.online (db st)); [|reflexivity].
    simpl negb. cbv iota.
    assert (Hactive : Db.isActiveOf (Some p) held = true).
    { unfold Db.isActiveOf. rewrite Hadmin, String.eqb_refl.
      destruct (Db.status held); [reflexivity|congruence|congruence]. }
    unfold Db.activeTicketOf.
    rewrite (find_the_active_row p _ held (proj2 Hinv p) Hin Hactive).
    reflexivity.
  - intros events. exact (proj2 (receive_inv events st Hext Hinv)).
Qed.

End LifecycleProperties.

(** ** The theorems at sample inputs *)

(** The reference collaborators and the fresh bot meet the assumptions. *)
Lemma externalsKeepTickets_ref : externalsKeepTickets Ref.env.
Proof. intros h m st. split; reflexivity. Qed.

Lemma storeInv_fresh : storeInv (db Sample.fresh).
Proof.
  split; [split|].
  - apply NoDup_nil_2.
  - apply Forall_nil_2.
  - intros a. unfold activeRows. simpl. lia.
Qed.

(** C1 at a sample input: alice is banned and sends [/start]. *)
Lemma banned_sender_is_only_recorded_witness :
  handleMessage Ref.env 0 (Ref.text Sample.alice "/start") Sample.aliceBanned
  = (Sample.aliceBanned,
     [ AppendFile "logs/banned_messages.log"
         ("[0] 🚫 BANNED USER: +994 50 123-45-67 (Aysel) [PRIVATE]: /start" +:+ nl);
       Log "security" "🚫 Banlı istifadəçidən mesaj";
       Console "[0] 🚫 BANNED: +994 50 123-45-67 (Aysel): /start" ])
  /\ forallb isRecord
       (snd (handleMessage Ref.env 0 (Ref.text Sample.alice "/start") Sample.aliceBanned)) = true.
Proof.
  destruct (banned_sender_is_only_recorded Ref.env 0 (Ref.text Sample.alice "/start")
              Sample.aliceBanned Sample.aliceId)
    as (Hrun & Hrecords & _).
  - reflexivity.
  - reflexivity.
  - discriminate.
  - apply (bool_decide_unpack _). vm_compute. exact I.
  - split; [|exact Hrecords]. etransitivity; [exact Hrun|]. vm_compute. reflexivity.
Defined.

(** C2, the claim as it was stated fails: with a login in progress, the
    greeting word is not taken as the username; it starts a wizard and the
    login still waits for the username. *)
Lemma greeting_during_login_starts_a_wizard :
  let st := Sample.atUsername in
  let st' := fst (handleMessage Ref.env 1000 (Ref.text Sample.alice "salam") st) in
  adminLoginState st !! Sample.alice = Some ask_username
  /\ userStates st !! Sample.alice = None
  /\ adminLoginState st' !! Sample.alice = Some ask_username
  /\ adminLoginState st' !! Sample.alice <> Some (ask_password "salam")
  /\ step <$> userStates st' !! Sample.alice = Some 1.
Proof. vm_compute. repeat split; try reflexivity. discriminate. Qed.

(** C2 (amended) at a sample input: alice has sent [/login] and now sends
    the username. *)
Lemma login_takes_every_text_but_the_greeting_witness :
  exists s : Bot Ref.Limiter,
    fst (handleMessage Ref.env 1000 (Ref.text Sample.alice "admin") Sample.atUsername) = s
    /\ loginTook Ref.env ask_username "admin" (Ref.text Sample.alice "admin") Sample.atUsername s.
Proof.
  destruct (login_takes_every_text_but_the_greeting Ref.env 1000
              (Ref.text Sample.alice "admin") Sample.atUsername "admin" ask_username)
    as [Htext _].
  - vm_compute. reflexivity.
  - reflexivity.
  - vm_compute. reflexivity.
  - destruct Htext as (f & s & e & _ & Hrun & Htook); [vm_compute; reflexivity|].
    exists s. rewrite Hrun. split; [reflexivity|exact Htook].
Defined.

(** C3, the claim as it was stated fails: a start request in the middle of
    a wizard throws away the step, the corpus and the room. *)
Lemma start_request_discards_progress :
  let before := Sample.atProblemChoice in
  let after := fst (handleMessage Ref.env 60000 (Ref.text Sample.alice "/start") before) in
  (fun u => (step u, corpus u, room u)) <$> userStates before !! Sample.alice
  = Some (3, Some "1", Some "205")
  /\ (fun u => (step u, corpus u, room u)) <$> userStates after !! Sample.alice
     = Some (1, None, None)
  /\ userStates after !! Sample.alice <> userStates before !! Sample.alice.
Proof. vm_compute. repeat split; try reflexivity. discriminate. Qed.

(** C3 (amended) at a sample input: alice sends [/start] at the problem
    choice. *)
Lemma start_request_replaces_existing_wizard_witness :
  userStates (fst (startNewTicket Ref.env 60000 (Ref.text Sample.alice "/start")
                     Sample.atProblemChoice)) !! Sample.alice
  = Some (freshState 60000 (Ref.text Sample.alice "/start")).
Proof.
  destruct (start_request_replaces_existing_wizard Ref.env 60000
              (Ref.text Sample.alice "/start") Sample.atProblemChoice
              {| step := 3; username := "Aysel"; userPhone := Sample.alice; startTime := 0;
                 attempts := 2; corpus := Some "1"; room := Some "205";
                 problemType := None |})
    as (_ & _ & Hentry).
  - vm_compute. reflexivity.
  - etransitivity; [exact Hentry|]. vm_compute. reflexivity.
Defined.

(** C4 at a sample input: alice's run on a fresh bot. *)
Lemma wizard_run_creates_one_open_ticket_witness :
  exists t : Db.Ticket,
    Db.tickets (db (fst (continueTicket Ref.env 3000 (Ref.text Sample.alice "3")
                      (fst (continueTicket Ref.env 2000 (Ref.text Sample.alice "205")
                         (fst (continueTicket Ref.env 1000 (Ref.text Sample.alice "1")
                            (fst (startNewTicket Ref.env 0 (Ref.text Sample.alice "/start")
                                    Sample.fresh)))))))))
    = [t]
    /\ Db.corpus t = Some "1" /\ Db.room t = Some "205"
    /\ Db.problem_type t = Some "🧾 Printer işləmir" /\ Db.status t = Db.open.
Proof.
  destruct (wizard_run_creates_one_open_ticket Ref.env 0 1000 2000 3000
              (Ref.text Sample.alice "/start") (Ref.text Sample.alice "1")
              (Ref.text Sample.alice "205") (Ref.text Sample.alice "3") Sample.fresh)
    as (t & Hrows & _ & _ & Hc & Hr & _ & Hp & Hs & _);
    try reflexivity.
  exists t. repeat split; assumption.
Defined.

(** C5 at a sample input: room 1400 in corpus 1. *)
Lemma room_outside_corpus_range_is_rejected_witness :
  exists (prompt : string) (u' : UserState),
    continueTicket Ref.env 2000 (Ref.text Sample.alice "1400") Sample.atRoom
    = (store Ref.env Sample.alice u' Sample.atRoom, [Reply prompt])
    /\ step u' = 2 /\ corpus u' = Some "1" /\ room u' = None.
Proof.
  apply (room_outside_corpus_range_is_rejected Ref.env 2000 (Ref.text Sample.alice "1400")
           Sample.atRoom
           {| step := 2; username := "Aysel"; userPhone := Sample.alice; startTime := 0;
              attempts := 1; corpus := Some "1"; room := None; problemType := None |}
           "1" "1400").
  - vm_compute. reflexivity.
  - reflexivity.
  - reflexivity.
  - left. reflexivity.
  - reflexivity.
  - vm_compute. discriminate.
  - vm_compute. intros [[_ [_ H]] | [H _]]; [apply H; reflexivity | discriminate H].
Defined.

(** C6, the claim as it was stated fails: alice has filed two tickets and
    bob holds none. Bob's [/assign 1] and [/assign 2] overlap, each handler
    going on when the other waits: both queries for bob's active ticket run
    before either update, both find none, and bob holds two open tickets at
    the end. Each of the two handlers, run alone, is the handler of the
    core. *)
Lemma overlapping_assigns_give_two_active_tickets :
  exists (first second : Task) (s : Db.Store),
    assignTask Ref.env Overlap.first Overlap.twoOpen = Some first
    /\ assignTask Ref.env Overlap.second Overlap.twoOpen = Some second
    /\ option_map (fun r => (db (fst r), snd r))
                  (handleAssign Ref.env Overlap.first Overlap.twoOpen)
       = Some (runAlone first (db Overlap.twoOpen))
    /\ option_map (fun r => (db (fst r), snd r))
                  (handleAssign Ref.env Overlap.second Overlap.twoOpen)
       = Some (runAlone second (db Overlap.twoOpen))
    /\ oneActivePerAdmin (db Overlap.twoOpen)
    /\ activeRows Sample.bobId (Db.tickets (db Overlap.twoOpen)) = 0%nat
    /\ (exists done1 done2,
          runSchedule Overlap.turns [first; second] (db Overlap.twoOpen)
          = ([Finish done1; Finish done2], s))
    /\ activeRows Sample.bobId (Db.tickets s) = 2%nat
    /\ ~ oneActivePerAdmin s.
Proof.
  eexists _, _, _. split; [reflexivity|]. split; [reflexivity|].
  split; [vm_compute; reflexivity|].
  split; [vm_compute; reflexivity|].
  split.
  { exact (proj2 (receive_inv Ref.env _ Sample.fresh externalsKeepTickets_ref storeInv_fresh)). }
  split; [vm_compute; reflexivity|].
  split; [eexists _, _; vm_compute; reflexivity|].
  split; [vm_compute; reflexivity|].
  intros Hone. specialize (Hone Sample.bobId). vm_compute in Hone. lia.
Qed.

(** C6 at a sample input: bob holds ticket 1 and asks for ticket 2. *)
Lemma busy_admin_is_refused_another_ticket_witness :
  handleAssign Ref.env (Ref.text Sample.bob "/assign 2") Sample.bobBusy
  = Some (Sample.bobBusy,
          [Reply "❌ Siz artıq Ticket #1 ilə məşğulsunuz. Yeni ticket götürmək üçün əvvəlcə onu həll etməli (/solved) və ya imtina etməlisiniz (/noassign)."]).
Proof.
  destruct (busy_admin_is_refused_another_ticket Ref.env (Ref.text Sample.bob "/assign 2")
              "/assign 2" Sample.bobId Sample.bobBusy Sample.firstTicket)
    as [Hrefused _].
  - exact externalsKeepTickets_ref.
  - exact (receive_inv Ref.env Sample.twoTickets Sample.fresh
             externalsKeepTickets_ref storeInv_fresh).
  - reflexivity.
  - reflexivity.
  - vm_compute. discriminate.
  - reflexivity.
  - vm_compute. left. reflexivity.
  - reflexivity.
  - discriminate.
  - discriminate.
  - exact Hrefused.
Defined.

(** C7 at a sample input: ticket 1 is solved and is solved once more. *)
Lemma solved_ticket_is_not_solved_again_witness :
  markSolved Ref.env 107000 (Ref.text Sample.group "/solved 1 again") "Aysel" Sample.firstSolved
  = Some (Sample.firstSolved, [Reply "❌ Bu ticket artıq həll edilib!"]).
Proof.
  apply (solved_ticket_is_not_solved_again Ref.env 107000
           (Ref.text Sample.group "/solved 1 again") "Aysel" "/solved 1 again"
           Sample.firstSolved 1 Sample.firstTicketSolved).
  - reflexivity.
  - vm_compute. discriminate.
  - reflexivity.
  - vm_compute. reflexivity.
  - reflexivity.
Defined.

(** C10 at a sample input: the solved ticket 1 is reopened; it has no
    assigned admin and keeps the admin's display name. *)
Lemma reopen_rewrites_four_columns_only_witness :
  exists (st' : Bot Ref.Limiter) (t' : Db.Ticket),
    fst <$> handleUnsolved Ref.env (Ref.text Sample.group "/unsolved 1") Sample.firstSolved
    = Some st'
    /\ Db.ticketById (db st') (Some 1) = Some t'
    /\ Db.status t' = Db.open
    /\ Db.assigned_admin t' = None
    /\ Db.assigned_admin_name t' = Some "Aysel".
Proof.
  destruct (reopen_rewrites_four_columns_only Ref.env (Ref.text Sample.group "/unsolved 1")
              "/unsolved 1" Sample.firstSolved 1 Sample.firstTicketSolved)
    as (st' & effects & t' & Hrun & Hrow & (Hstatus & _) & _ & _ & _ & Hname).
  - reflexivity.
  - vm_compute. discriminate.
  - reflexivity.
  - reflexivity.
  - vm_compute. reflexivity.
  - reflexivity.
  - exists st', t'. rewrite Hrun. repeat split; try assumption.
    + exact (proj1 (Hname "Aysel" eq_refl)).
    + exact (proj2 (Hname "Aysel" eq_refl)).
Defined.

(** C8 at a sample input: alice logs in with a wrong password three times. *)
Lemma three_wrong_passwords_ban_the_sender_witness :
  Sample.aliceId ∈ bannedUsers (fst (handleMessage Ref.env 202000 Sample.wrong Sample.thirdTry))
  /\ failedLoginAttempts (fst (handleMessage Ref.env 202000 Sample.wrong Sample.thirdTry))
     !! Some Sample.aliceId = None.
Proof.
  destruct (three_wrong_passwords_ban_the_sender Ref.env 2000 102000 202000
              Sample.wrong Sample.wrong Sample.wrong
              Sample.firstTry Sample.secondTry Sample.thirdTry Sample.aliceId)
    as [(_ & _ & Hban & Hcount) _];
    try (vm_compute; reflexivity).
  split; assumption.
Defined.

(** C9, the claim as it was stated fails: the wizard ends with the apology
    after a single processing failure, because the two replies before it,
    a valid corpus and an invalid room, were counted as attempts. *)
Lemma apology_after_a_single_failure :
  let last := handleMessage Ref.env 3000 (Ref.media Sample.alice) Sample.afterBadRoom in
  stepFails Ref.env 1000 (Ref.text Sample.alice "1") Sample.afterStart = false
  /\ stepFails Ref.env 2000 (Ref.text Sample.alice "abc") Sample.afterCorpus = false
  /\ stepFails Ref.env 3000 (Ref.media Sample.alice) Sample.afterBadRoom = true
  /\ attempts <$> userStates Sample.afterBadRoom !! Sample.alice = Some 2
  /\ In (Reply apology) (snd last)
  /\ userStates (fst last) !! Sample.alice = None.
Proof.
  vm_compute. repeat split; try reflexivity.
  do 7 right. left. reflexivity.
Qed.

(** C9 (amended) at a sample input: the third reply of alice's conversation
    is a media message without a text. *)
Lemma wizard_apology_on_failure_from_third_reply_witness :
  In (Reply apology)
     (snd (continueTicket Ref.env 3000 (Ref.media Sample.alice) Sample.afterBadRoom))
  /\ userStates (fst (continueTicket Ref.env 3000 (Ref.media Sample.alice)
                        Sample.afterBadRoom)) !! Sample.alice = None.
Proof.
  destruct (wizard_apology_on_failure_from_third_reply Ref.env 3000
              (Ref.media Sample.alice) Sample.afterBadRoom
              {| step := 2; username := "Aysel"; userPhone := Sample.alice; startTime := 0;
                 attempts := 2; corpus := Some "1"; room := None; problemType := None |})
    as (Hiff & Hgone & _).
  - vm_compute. reflexivity.
  - split.
    + apply Hiff. split; [vm_compute; reflexivity | vm_compute; discriminate].
    + apply Hgone; [vm_compute; reflexivity | vm_compute; discriminate].
Defined.

(** * Further properties of the bot *)

(** ** Texts *)

Lemma append_cons (c : ascii) (a b : string) : String c a +:+ b = String c (a +:+ b).
Proof. reflexivity. Qed.

Lemma append_nil_r (s : string) : s +:+ "" = s.
Proof. induction s as [|c s IH]; [reflexivity|]. rewrite append_cons. by f_equal. Qed.

Lemma append_assoc (a b c : string) : (a +:+ b) +:+ c = a +:+ b +:+ c.
Proof. induction a as [|x a IH]; [reflexivity|]. rewrite !append_cons. by f_equal. Qed.

Lemma len_append (a b : string) : Js.len (a +:+ b) = Js.len a + Js.len b.
Proof.
  induction a as [|x a IH]; [change ("" +:+ b) with b; cbn [Js.len]; lia|].
  rewrite append_cons. cbn [Js.len]. lia.
Qed.

Lemma len_nonneg (s : string) : 0 <= Js.len s.
Proof.
  induction s as [|c s IH]; [reflexivity|]. cbn [Js.len]. unfold Js.units.
  repeat destruct (_ <? _)%nat; lia.
Qed.

Lemma glue_app (l1 l2 : list string) : glue (l1 ++ l2) = glue l1 +:+ glue l2.
Proof.
  induction l1 as [|x l1 IH]; [reflexivity|].
  cbn [glue fold_right app] in *. fold (glue (l1 ++ l2)) (glue l1).
  by rewrite IH, append_assoc.
Qed.

Lemma split_not_nil (sep : ascii) (s : string) : Js.split sep s <> [].
Proof.
  destruct s as [|c s]; [discriminate|]. cbn [Js.split].
  destruct (Ascii.eqb c sep); [discriminate|].
  destruct (Js.split sep s); discriminate.
Qed.

(** The lines of a text, each with its line feed, give the text and one
    line feed back. *)
Lemma glue_lines (text : string) :
  glue (List.map (fun line => line +:+ nl) (Js.split (ascii_of_nat 10) text)) = text +:+ nl.
Proof.
  induction text as [|c s IH]; [reflexivity|]. cbn [Js.split].
  destruct (Ascii.eqb_spec c (ascii_of_nat 10)) as [-> | Hc].
  - cbn [List.map glue fold_right]. fold (glue (List.map (fun line => line +:+ nl)
      (Js.split (ascii_of_nat 10) s))). rewrite IH. reflexivity.
  - destruct (Js.split (ascii_of_nat 10) s) as [|w ws] eqn:Hs.
    + exfalso. exact (split_not_nil _ _ Hs).
    + cbn [List.map glue fold_right] in *. rewrite !append_cons. f_equal. exact IH.
Qed.

Lemma splitLines_glue (maxLength : Z) (lines messages : list string) (currentMessage : string) :
  glue (splitLines maxLength lines messages currentMessage)
  = glue messages +:+ currentMessage +:+ glue (List.map (fun line => line +:+ nl) lines).
Proof.
  revert messages currentMessage.
  induction lines as [|line rest IH]; intros messages cur; cbn [splitLines List.map].
  - cbn [glue fold_right]. rewrite append_nil_r.
    destruct (String.eqb_spec cur "") as [-> | _].
    + by rewrite append_nil_r.
    + rewrite glue_app. cbn [glue fold_right]. by rewrite append_nil_r.
  - cbn [glue fold_right]. fold (glue (List.map (fun line => line +:+ nl) rest)).
    destruct (_ >? maxLength); rewrite IH.
    + rewrite glue_app. cbn [glue fold_right].
      by rewrite append_nil_r, !append_assoc.
    + by rewrite !append_assoc.
Qed.

(** X1. [splitMessage] loses nothing and adds one line feed: its parts, one
    after the other, are the text followed by a line feed, whatever the
    limit is. *)
Theorem splitMessage_keeps_the_text (text : string) (maxLength : Z) :
  glue (splitMessage text maxLength) = text +:+ nl.
Proof.
  unfold splitMessage. rewrite splitLines_glue. cbn [glue fold_right String.append].
  apply glue_lines.
Qed.

Lemma splitLines_fit (maxLength : Z) (lines messages : list string) (currentMessage : string) :
  Forall (fun line => Js.len line + 1 <= maxLength) lines ->
  Forall (fun part => Js.len part <= maxLength) messages ->
  Js.len currentMessage <= maxLength ->
  Forall (fun part => Js.len part <= maxLength)
         (splitLines maxLength lines messages currentMessage).
Proof.
  revert messages currentMessage.
  induction lines as [|line rest IH]; intros messages cur Hlines Hmsgs Hcur; cbn [splitLines].
  - destruct (String.eqb cur ""); [exact Hmsgs|].
    apply Forall_app. split; [exact Hmsgs|]. by apply Forall_singleton.
  - apply Forall_cons in Hlines as [Hline Hrest].
    destruct (Z.gtb_spec (Js.len cur + Js.len line + 1) maxLength).
    + apply IH; [exact Hrest| |].
      * apply Forall_app. split; [exact Hmsgs|]. by apply Forall_singleton.
      * rewrite len_append. change (Js.len nl) with 1. lia.
    + apply IH; [exact Hrest|exact Hmsgs|].
      rewrite !len_append. change (Js.len nl) with 1. lia.
Qed.

(** X2. When every line of the text, with its line feed, is within the
    limit, so is every part that [splitMessage] returns; the lengths are
    those of [.length], in UTF-16 code units. *)
Theorem splitMessage_parts_within_limit (text : string) (maxLength : Z) :
  Forall (fun line => Js.len line + 1 <= maxLength) (Js.split (ascii_of_nat 10) text) ->
  Forall (fun part => Js.len part <= maxLength) (splitMessage text maxLength).
Proof.
  intros Hlines. unfold splitMessage. apply splitLines_fit; [exact Hlines|constructor|].
  destruct (Js.split (ascii_of_nat 10) text) as [|line rest] eqn:Hs.
  - exfalso. exact (split_not_nil _ _ Hs).
  - apply Forall_cons in Hlines as [Hline _]. change (Js.len "") with 0.
    assert (0 <= Js.len line) by apply len_nonneg. lia.
Qed.

Lemma splitLines_messages_first (maxLength : Z) (lines messages : list string)
    (currentMessage : string) :
  splitLines maxLength lines messages currentMessage
  = messages ++ splitLines maxLength lines [] currentMessage.
Proof.
  revert messages currentMessage.
  induction lines as [|line rest IH]; intros messages cur; cbn [splitLines].
  - destruct (String.eqb cur ""); [by rewrite app_nil_r|reflexivity].
  - destruct (_ >? maxLength); [|apply IH].
    rewrite IH. rewrite (IH ([] ++ [cur])). by rewrite <- app_assoc.
Qed.

Lemma splitLines_first_part (maxLength : Z) (lines : list string) (currentMessage : string) :
  currentMessage <> "" ->
  exists part rest,
    splitLines maxLength lines [] currentMessage = part :: rest /\ part <> "".
Proof.
  revert currentMessage.
  induction lines as [|line more IH]; intros cur Hcur; cbn [splitLines].
  - rewrite (proj2 (String.eqb_neq cur "") Hcur). by exists cur, [].
  - destruct (_ >? maxLength).
    + rewrite splitLines_messages_first. by exists cur, (splitLines maxLength more [] (line +:+ nl)).
    + apply IH. destruct cur; [done|discriminate].
Qed.

(** X3. The first part that [splitMessage] returns is the empty text exactly
    when the first line of the text, with its line feed, is over the limit,
    by its length in UTF-16 code units: the message being filled is pushed
    before it holds anything. *)
Theorem splitMessage_empty_first_part (text : string) (maxLength : Z) :
  (exists rest, splitMessage text maxLength = "" :: rest)
  <-> Js.len (hd "" (Js.split (ascii_of_nat 10) text)) + 1 > maxLength.
Proof.
  unfold splitMessage.
  destruct (Js.split (ascii_of_nat 10) text) as [|line more] eqn:Hs.
  { exfalso. exact (split_not_nil _ _ Hs). }
  cbn [hd splitLines]. change (Js.len "") with 0.
  destruct (Z.gtb_spec (0 + Js.len line + 1) maxLength) as [Hover | Hfits].
  - split; [intros _; lia|]. intros _. rewrite splitLines_messages_first.
    by eexists.
  - split; [|intros; lia]. intros [rest Hrest]. exfalso.
    destruct (splitLines_first_part maxLength more ("" +:+ line +:+ nl))
      as (part & rest' & Heq & Hne).
    + destruct line; discriminate.
    + rewrite Heq in Hrest. congruence.
Qed.

(** ** Phone numbers *)

Lemma isDigit_not (c d : ascii) :
  Js.isDigit c = true -> Js.isDigit d = false -> Ascii.eqb d c = false.
Proof.
  intros Hc Hd. destruct (Ascii.eqb_spec d c) as [-> | ?]; [congruence|reflexivity].
Qed.

(** A pattern whose first character is no digit does not occur in a run of
    digits. *)
Lemma replaceFirst_digits (d : ascii) (pattern replacement digits : string) :
  Js.isDigit d = false ->
  allDigits digits = true ->
  Js.replaceFirst (String d pattern) replacement digits = digits.
Proof.
  intros Hd. induction digits as [|c s IH]; intros Hall.
  - reflexivity.
  - cbn [allDigits] in Hall. apply andb_prop in Hall as [Hc Hs].
    cbn [Js.replaceFirst Js.startsWith]. rewrite (isDigit_not c d Hc Hd).
    by rewrite IH.
Qed.

Lemma replaceFirst_suffix (d : ascii) (pattern digits : string) :
  Js.isDigit d = false ->
  allDigits digits = true ->
  Js.replaceFirst (String d pattern) "" (digits +:+ String d pattern) = digits.
Proof.
  intros Hd. induction digits as [|c s IH]; intros Hall.
  - change ("" +:+ String d pattern) with (String d pattern).
    unfold Js.replaceFirst.
    assert (Hself : forall p : string, Js.startsWith p p = true).
    { induction p as [|x p IHp]; [reflexivity|]. cbn [Js.startsWith].
      by rewrite Ascii.eqb_refl. }
    rewrite Hself.
    assert (Hdrop : forall p : string, Js.drop (String.length p) p = "").
    { induction p as [|x p IHp]; [reflexivity|]. exact IHp. }
    by rewrite Hdrop.
  - cbn [allDigits] in Hall. apply andb_prop in Hall as [Hc Hs].
    rewrite append_cons. cbn [Js.replaceFirst Js.startsWith].
    rewrite (isDigit_not c d Hc Hd). by rewrite IH.
Qed.

Lemma keepDigits_digits (digits : string) : allDigits digits = true -> keepDigits digits = digits.
Proof.
  induction digits as [|c s IH]; [reflexivity|]. cbn [allDigits keepDigits].
  intros Hall. apply andb_prop in Hall as [-> Hs]. by rewrite IH.
Qed.

(** A string that starts with a prefix is the prefix followed by a rest. *)
Lemma startsWith_append (p s : string) :
  Js.startsWith p s = true -> exists rest, s = p +:+ rest.
Proof.
  revert s. induction p as [|a p IH]; intros s Hs.
  - by exists s.
  - destruct s as [|b s]; cbn [Js.startsWith] in Hs; [discriminate|].
    destruct (Ascii.eqb_spec a b) as [-> | ?]; [|discriminate].
    destruct (IH s Hs) as [rest ->]. by exists rest.
Qed.

(** In a run of digits a byte is a code unit. *)
Lemma digit_units (c : ascii) : Js.isDigit c = true -> Js.units c = 1.
Proof.
  unfold Js.isDigit, Js.units. cbv zeta. rewrite andb_true_iff, !Nat.leb_le. intros [_ H].
  destruct (Nat.ltb_spec (nat_of_ascii c) 128); [reflexivity|lia].
Qed.

Lemma len_digits (s : string) :
  allDigits s = true -> Js.len s = Z.of_nat (String.length s).
Proof.
  induction s as [|c s IH]; [reflexivity|]. cbn [allDigits Js.len String.length].
  intros H. apply andb_prop in H as [Hc Hs]. rewrite (digit_units c Hc), (IH Hs). lia.
Qed.

Lemma dropUnits_digits (n : nat) (s : string) :
  allDigits s = true -> Js.dropUnits (Z.of_nat n) s = Js.drop n s.
Proof.
  revert n. induction s as [|c s IH]; intros n H; [by destruct n|].
  cbn [allDigits] in H. apply andb_prop in H as [Hc Hs].
  cbn [Js.dropUnits]. rewrite (digit_units c Hc). destruct n as [|n]; [reflexivity|].
  destruct (Z.gtb_spec 1 (Z.of_nat (S n))); [lia|].
  replace (Z.of_nat (S n) - 1) with (Z.of_nat n) by lia. cbn [Js.drop]. by apply IH.
Qed.

Lemma takeUnits_digits (n : nat) (s : string) :
  allDigits s = true -> Js.takeUnits (Z.of_nat n) s = Js.take n s.
Proof.
  revert n. induction s as [|c s IH]; intros n H; [by destruct n|].
  cbn [allDigits] in H. apply andb_prop in H as [Hc Hs].
  cbn [Js.takeUnits]. rewrite (digit_units c Hc). destruct n as [|n]; [reflexivity|].
  destruct (Z.gtb_spec 1 (Z.of_nat (S n))); [lia|].
  replace (Z.of_nat (S n) - 1) with (Z.of_nat n) by lia. cbn [Js.take]. by rewrite IH.
Qed.

Lemma allDigits_drop (n : nat) (s : string) :
  allDigits s = true -> allDigits (Js.drop n s) = true.
Proof.
  revert s. induction n as [|n IH]; intros [|c s] H; try done.
  cbn [allDigits] in H. apply andb_prop in H as [_ Hs]. by apply IH.
Qed.

Lemma substring_digits (a b : nat) (s : string) :
  allDigits s = true ->
  Js.substring (Z.of_nat a) (Z.of_nat b) s = Js.take (b - a) (Js.drop a s).
Proof.
  intros H. unfold Js.substring. rewrite (dropUnits_digits a s H).
  destruct (Nat.le_ge_cases a b) as [Hab | Hab].
  - replace (Z.of_nat b - Z.of_nat a) with (Z.of_nat (b - a)) by lia.
    apply takeUnits_digits. by apply allDigits_drop.
  - replace (b - a)%nat with 0%nat by lia.
    pose proof (allDigits_drop a s H) as Hd.
    destruct (Js.drop a s) as [|c r]; [reflexivity|].
    cbn [allDigits] in Hd. apply andb_prop in Hd as [Hc _].
    cbn [Js.takeUnits Js.take]. rewrite (digit_units c Hc).
    destruct (Z.gtb_spec 1 (Z.of_nat b - Z.of_nat a)); [reflexivity|lia].
Qed.

(** X4. [formatPhoneNumber] shows a number with all its digits, in their
    order, and with no other digit: taking the digits out of what it returns
    for a non-empty run of digits gives the run back. *)
Theorem formatPhoneNumber_keeps_the_digits (digits : string) :
  digits <> "" ->
  allDigits digits = true ->
  keepDigits (formatPhoneNumber (Some digits)) = digits.
Proof.
  intros Hne Hall. unfold formatPhoneNumber, Js.truthy.
  rewrite (proj2 (String.eqb_neq digits "") Hne). cbn [negb default from_option id].
  rewrite (replaceFirst_digits "@" "c.us" "" digits eq_refl Hall).
  rewrite (replaceFirst_digits "+" "" "" digits eq_refl Hall).
  assert (Hplus : keepDigits ("+" +:+ digits) = digits)
    by (rewrite append_cons; cbn [keepDigits]; change (Js.isDigit "+") with false;
        cbn iota; exact (keepDigits_digits digits Hall)).
  destruct (Js.startsWith "994" digits) eqn:Hprefix; [|exact Hplus].
  change 3 with (Z.of_nat 3). rewrite (dropUnits_digits 3 digits Hall).
  pose proof (allDigits_drop 3 digits Hall) as Hnumber.
  destruct (Z.eqb_spec (Js.len (Js.drop 3 digits)) 9) as [Hlen | _]; [|exact Hplus].
  rewrite (len_digits _ Hnumber) in Hlen.
  change 0 with (Z.of_nat 0). change 2 with (Z.of_nat 2). change 5 with (Z.of_nat 5).
  change 7 with (Z.of_nat 7).
  rewrite !(substring_digits _ _ _ Hnumber), (dropUnits_digits 7 _ Hnumber).
  clear Hnumber.
  apply startsWith_append in Hprefix as [number ->].
  change ("994" +:+ number) with (String "9" (String "9" (String "4" number))) in *.
  cbn [Js.drop] in *.
  destruct number as [|d1 [|d2 [|d3 [|d4 [|d5 [|d6 [|d7 [|d8 [|d9 [|d10 more]]]]]]]]]];
    cbn [String.length] in Hlen; try lia.
  cbn [allDigits] in Hall.
  repeat (apply andb_prop in Hall as [? Hall]).
  cbv [Js.take Js.drop Nat.sub].
  repeat (rewrite ?append_cons; change ("" +:+ ?x) with x; cbn [keepDigits]).
  repeat match goal with
         | H : Js.isDigit ?c = true |- _ => rewrite H; clear H
         end.
  reflexivity.
Qed.

(** X5. [formatPhoneNumber] shows an address with the suffix [@c.us] as it
    shows the number alone. *)
Theorem formatPhoneNumber_drops_the_suffix (digits : string) :
  digits <> "" ->
  allDigits digits = true ->
  formatPhoneNumber (Some (digits +:+ "@c.us")) = formatPhoneNumber (Some digits).
Proof.
  intros Hne Hall. unfold formatPhoneNumber, Js.truthy.
  rewrite (proj2 (String.eqb_neq digits "") Hne).
  assert (Hne' : String.eqb (digits +:+ "@c.us") "" = false).
  { apply String.eqb_neq. destruct digits; [contradiction|discriminate]. }
  rewrite Hne'. cbn [negb default from_option id].
  rewrite (replaceFirst_suffix "@" "c.us" digits eq_refl Hall).
  rewrite (replaceFirst_digits "@" "c.us" "" digits eq_refl Hall).
  reflexivity.
Qed.

(** ** What becomes of the rows *)

Lemma legalMove_refl (a : Db.Status) : legalMove a a = true.
Proof. by destruct a. Qed.

Lemma legalMove_solved (a : Db.Status) : legalMove a Db.solved = true.
Proof. by destruct a. Qed.

Section StoreEvolution.

Variable E : Env.
Variable strict : bool.
Implicit Type st : Bot (RL E).
Implicit Type m : Message.
Implicit Type s : Db.Store.
Implicit Type group : bool.

Lemma rowStep_refl group (r : Db.Ticket) : rowStep strict group r r.
Proof. split; [reflexivity|]. split; [intros _; apply legalMove_refl|reflexivity]. Qed.

Lemma evolves_refl group s : evolves strict group s s.
Proof. intros n r Hr. exists r. split; [exact Hr|apply rowStep_refl]. Qed.

Lemma evolves_same group s s' : Db.tickets s' = Db.tickets s -> evolves strict group s s'.
Proof. intros Heq n r Hr. exists r. rewrite Heq. split; [exact Hr|apply rowStep_refl]. Qed.

Lemma evolves_db group st st' : db st' = db st -> evolves strict group (db st) (db st').
Proof. intros ->. apply evolves_refl. Qed.

Lemma evolves_insert group (uid uname ph : string) (c r p : option string)
    (status : Db.Status) (created : string) s :
  evolves strict group s (snd (Db.insertTicket uid uname ph c r p status created s)).
Proof.
  intros n row Hrow. exists row. split; [|apply rowStep_refl].
  cbn [Db.insertTicket snd Db.tickets]. by apply lookup_app_l_Some.
Qed.

(** With distinct ids, the row that the query by id finds is the only one
    of its id. *)
Lemma find_hasId_unique (i : Z) (l : list Db.Ticket) (t r : Db.Ticket) :
  NoDup (List.map Db.id l) ->
  List.find (Db.hasId i) l = Some t -> In r l -> Db.hasId i r = true -> r = t.
Proof.
  induction l as [|x l IH]; [intros _ _ []|].
  cbn [List.map List.find]. intros Hnd Hfind Hin Hr.
  apply NoDup_cons in Hnd as [Hnotin Hnd].
  destruct (Db.hasId i x) eqn:Hx.
  - injection Hfind as <-. destruct Hin as [-> | Hin]; [reflexivity|]. exfalso.
    apply Hnotin, list_elem_of_In, in_map_iff. exists r. split; [|exact Hin].
    unfold Db.hasId in *. apply Z.eqb_eq in Hx, Hr. congruence.
  - destruct Hin as [-> | Hin]; [congruence|]. by apply IH.
Qed.

(** An update from a group that keeps the requester's columns, and moves
    the status of the row it was decided on legally. *)
Lemma evolves_update (oi : option Z) (g : Db.Ticket -> Db.Ticket) s (t : Db.Ticket) :
  distinctIfStrict strict s ->
  Db.ticketById s oi = Some t ->
  (forall r, requesterPart (g r) = requesterPart r) ->
  legalMove (Db.status t) (Db.status (g t)) = true ->
  evolves strict true s (Db.updateTicket oi g s).
Proof.
  intros Hnd Ht Hkeep Hlegal. destruct oi as [i|]; [|discriminate Ht].
  intros n r Hr. exists (rewriteRow i g r). split.
  - rewrite updateTicket_tickets. change (List.map ?f ?l) with (f <$> l).
    by rewrite list_lookup_fmap, Hr.
  - unfold rewriteRow. destruct (Db.hasId i r) eqn:Hi; [|apply rowStep_refl].
    split; [apply Hkeep|]. split; [|discriminate]. intros Hs.
    assert (r = t) as ->; [|exact Hlegal].
    eapply find_hasId_unique; [exact (Hnd Hs)|exact Ht| |exact Hi].
    apply list_elem_of_In. by eapply list_elem_of_lookup_2.
Qed.

(** An update that is a legal move for every row. *)
Lemma evolves_update_any group (oi : option Z) (g : Db.Ticket -> Db.Ticket) s :
  (forall r, requesterPart (g r) = requesterPart r) ->
  (forall r, legalMove (Db.status r) (Db.status (g r)) = true) ->
  (group = false -> forall r, outcomePart (g r) = outcomePart r) ->
  evolves strict group s (Db.updateTicket oi g s).
Proof.
  intros Hkeep Hlegal Hout. destruct oi as [i|]; [|apply evolves_refl].
  intros n r Hr. exists (rewriteRow i g r). split.
  - rewrite updateTicket_tickets. change (List.map ?f ?l) with (f <$> l).
    by rewrite list_lookup_fmap, Hr.
  - unfold rewriteRow. destruct (Db.hasId i r); [|apply rowStep_refl].
    split; [apply Hkeep|]. split; [intros _; apply Hlegal|]. intros Hg. by apply Hout.
Qed.

Lemma markSolved_evolves now m (adminName : string) st st' effects :
  markSolved E now m adminName st = Some (st', effects) ->
  evolves strict true (db st) (db st').
Proof.
  unfold markSolved. cbv zeta. intros H. split_tests; try apply evolves_refl.
  cbn [db set_db].
  apply evolves_update_any; [reflexivity|intros r; apply legalMove_solved|discriminate].
Qed.

Lemma handleLongTerm_evolves now m (adminName : string) st st' effects :
  distinctIfStrict strict (db st) ->
  handleLongTerm E now m adminName st = Some (st', effects) ->
  evolves strict true (db st) (db st').
Proof.
  unfold handleLongTerm. cbv zeta. intros Hnd H. split_tests; try apply evolves_refl.
  cbn [db set_db]. eapply evolves_update; [exact Hnd|eassumption|reflexivity|].
  cbn [Db.status].
  match goal with H : negb (Db.Status_eqb (Db.status ?t) Db.open) = false |- _ =>
    destruct (Db.status t); [reflexivity|discriminate H|discriminate H] end.
Qed.

Lemma handleUnsolved_evolves m st st' effects :
  distinctIfStrict strict (db st) ->
  handleUnsolved E m st = Some (st', effects) ->
  evolves strict true (db st) (db st').
Proof.
  unfold handleUnsolved. cbv zeta. intros Hnd H. split_tests; try apply evolves_refl.
  cbn [db set_db]. eapply evolves_update; [exact Hnd|eassumption|reflexivity|].
  cbn [Db.status reopened].
  match goal with H : negb (Db.Status_eqb (Db.status ?t) Db.solved) = false |- _ =>
    destruct (Db.status t); [discriminate H|discriminate H|reflexivity] end.
Qed.

Lemma handleAssign_evolves group m st st' effects :
  handleAssign E m st = Some (st', effects) ->
  evolves strict group (db st) (db st').
Proof.
  unfold handleAssign. cbv zeta. intros H. split_tests; try apply evolves_refl.
  cbn [db set_db].
  apply evolves_update_any; [reflexivity|intros r; apply legalMove_refl|reflexivity].
Qed.

Lemma handleNoAssign_evolves group m st st' effects :
  handleNoAssign E m st = Some (st', effects) ->
  evolves strict group (db st) (db st').
Proof.
  unfold handleNoAssign. cbv zeta. intros H. split_tests; try apply evolves_refl;
    cbn [db set_db];
    (apply evolves_update_any; [reflexivity|intros r; apply legalMove_refl|reflexivity]).
Qed.

Lemma completeTicket_evolves group now m (u : UserState) st :
  evolves strict group (db st) (db (fst (completeTicket E now m u st))).
Proof.
  unfold completeTicket.
  destruct (negb (Db.online (db st))); [apply evolves_refl|].
  unfold Db.insertTicket. cbn [fst db set_db set_rateLimiter set_userStates].
  apply (evolves_insert group (userPhone u) (username u)
           (formatPhoneNumber (Some (userPhone u))) (corpus u) (room u) (problemType u) Db.open).
Qed.

Lemma switchStep_evolves group now (key : string) m (u : UserState) st st' effects :
  switchStep E now key m u st = Some (st', effects) ->
  evolves strict group (db st) (db st').
Proof.
  unfold switchStep, handleStep1, handleStep2, handleStep3, handleStep4. cbv zeta.
  intros H. split_tests; try apply evolves_refl;
    match goal with
    | H1 : completeTicket _ _ _ ?v ?sv = (?a, _) |- _ =>
        change a with (fst (a, effects)); rewrite <- H1;
        apply (completeTicket_evolves group now m v sv)
    end.
Qed.

Lemma continueTicket_evolves group now m st :
  evolves strict group (db st) (db (fst (continueTicket E now m st))).
Proof.
  unfold continueTicket.
  destruct (userStates st !! from m) as [u|]; [|apply evolves_refl]. cbv zeta.
  destruct (switchStep E now (from m) m _ _) as [[st1 e1]|] eqn:Hstep.
  - exact (switchStep_evolves _ _ _ _ _ _ _ _ Hstep).
  - unfold handleTicketError. rewrite lookup_store.
    destruct (attempts _ >=? 3); apply evolves_refl.
Qed.

Lemma handleCommands_evolves now m (messageBody : string) (isGroup matched : bool)
    st st' effects :
  externalsKeepTickets E ->
  distinctIfStrict strict (db st) ->
  handleCommands E now m messageBody isGroup st = Some (matched, (st', effects)) ->
  evolves strict isGroup (db st) (db st').
Proof.
  intros Hext Hnd H. unfold handleCommands in H. cbv zeta in H.
  assert (Hother : forall h, evolves strict isGroup (db st) (db (fst (external E h m st)))).
  { intros h. destruct (Hext h m st) as [Ht Hn]. exact (evolves_same _ _ _ Ht). }
  destruct isGroup; cbn [negb andb] in H;
  repeat match type of H with
         | (if ?c then _ else _) = _ => destruct c
         end;
    repeat match type of H with
           | match ?o with Some _ => _ | None => _ end = _ => destruct o as [[? ?]|] eqn:?
           end;
    simplify_eq; cbn [fst];
    first
      [ apply evolves_refl
      | apply Hother
      | apply evolves_db, startNewTicket_db
      | apply evolves_db, handleStop_db
      | eapply markSolved_evolves; eassumption
      | eapply handleLongTerm_evolves; eassumption
      | eapply handleUnsolved_evolves; eassumption
      | eapply handleAssign_evolves; eassumption
      | eapply handleNoAssign_evolves; eassumption ].
Qed.

(** A text that is no command leaves the state to the wizard. *)
Lemma handleCommands_unmatched now m (messageBody : string) (isGroup : bool) st st' effects :
  handleCommands E now m messageBody isGroup st = Some (false, (st', effects)) -> st' = st.
Proof.
  intros H. unfold handleCommands in H. cbv zeta in H.
  repeat match type of H with
         | (if ?c then _ else _) = _ => destruct c
         end;
    repeat match type of H with
           | match ?o with Some _ => _ | None => _ end = _ => destruct o as [[? ?]|] eqn:?
           end;
    by simplify_eq.
Qed.

Lemma processMessage_evolves now m (isGroup : bool) (senderIdRaw : string) st :
  externalsKeepTickets E ->
  distinctIfStrict strict (db st) ->
  evolves strict isGroup (db st) (db (fst (processMessage E now m isGroup senderIdRaw st))).
Proof.
  intros Hext Hnd. unfold processMessage. cbv zeta.
  destruct (String.eqb (from m) ""); [apply evolves_refl|].
  destruct (negb (Js.truthy (body m)) && negb (hasMedia m)); [apply evolves_refl|].
  destruct (mediaCheck m) as [mediaLog tooLarge]. destruct tooLarge; [apply evolves_refl|].
  destruct (isBanned st _); [apply evolves_refl|].
  destruct (negb isGroup && negb (Js.startsWith "/" _) && isGreeting _).
  { pose proof (startNewTicket_db E now m st) as Hdb.
    destruct (startNewTicket E now m st) as [s1 e1]. cbn [fst] in *. by apply evolves_db. }
  destruct (if negb isGroup then adminLoginCheck E m st else Next) as [[s1 e1]| |] eqn:Hlogin.
  - destruct (negb isGroup); [|discriminate].
    cbn [fst]. apply evolves_db. exact (adminLoginCheck_db E _ _ _ _ Hlogin).
  - destruct (handleCommands E now m _ isGroup st) as [[matched [s1 e1]]|] eqn:Hcmd;
      [|apply evolves_refl].
    destruct matched; [exact (handleCommands_evolves _ _ _ _ _ _ _ _ Hext Hnd Hcmd)|].
    apply handleCommands_unmatched in Hcmd as ->.
    destruct (negb isGroup && bool_decide (is_Some (userStates st !! senderIdRaw)));
      [|apply evolves_refl].
    pose proof (continueTicket_evolves isGroup now m st) as H2.
    destruct (continueTicket E now m st) as [s2 e2]. exact H2.
  - apply evolves_refl.
Qed.

Lemma handleMessage_evolves now m st :
  externalsKeepTickets E ->
  distinctIfStrict strict (db st) ->
  evolves strict (isGroupChat m) (db st) (db (fst (handleMessage E now m st))).
Proof.
  intros Hext Hnd. unfold handleMessage. cbv zeta.
  destruct (fromMe m); [apply evolves_refl|].
  destruct (Js.truthy _ && isBanned st _); [apply evolves_refl|].
  assert (Hspam : db (fst (fst
            (if negb (isGroupChat m) then autoBan E now m st else (st, [], false)))) = db st).
  { destruct (negb (isGroupChat m)); [apply autoBan_db|reflexivity]. }
  destruct (if negb (isGroupChat m) then autoBan E now m st else (st, [], false))
    as [[s1 e1] stop].
  cbn [fst] in Hspam. destruct stop; [by apply evolves_db|].
  rewrite <- Hspam in Hnd |- *.
  pose proof (processMessage_evolves now m (isGroupChat m)
                (extractSenderId E m (isGroupChat m)) s1 Hext Hnd) as Hp.
  destruct (processMessage E now m _ _ s1) as [s2 e2]. exact Hp.
Qed.

End StoreEvolution.

Lemma evolves_weaken (strict group : bool) (s s' : Db.Store) :
  evolves strict group s s' -> evolves false true s s'.
Proof.
  intros H n r Hr. destruct (H n r Hr) as [r' [Hr' [Hkeep _]]].
  exists r'. split; [exact Hr'|]. split; [exact Hkeep|]. split; discriminate.
Qed.

Lemma evolves_trans (s1 s2 s3 : Db.Store) :
  evolves false true s1 s2 -> evolves false true s2 s3 -> evolves false true s1 s3.
Proof.
  intros H12 H23 n r Hr.
  destruct (H12 n r Hr) as [r2 [Hr2 [Hk2 _]]].
  destruct (H23 n r2 Hr2) as [r3 [Hr3 [Hk3 _]]].
  exists r3. split; [exact Hr3|]. split; [congruence|]. split; discriminate.
Qed.

Lemma receive_evolves (E : Env) (events : list (Z * Message)) (st : Bot (RL E)) :
  externalsKeepTickets E ->
  evolves false true (db st) (db (fst (receive E events st))).
Proof.
  intros Hext. revert st. induction events as [|[now m] rest IH]; intros st.
  - apply evolves_refl.
  - cbn [receive].
    pose proof (handleMessage_evolves E false now m st Hext) as H1.
    destruct (handleMessage E now m st) as [s1 e1]. cbn [fst] in H1.
    specialize (IH s1). destruct (receive E rest s1) as [s2 e2].
    eapply evolves_trans; [eapply evolves_weaken; apply H1; discriminate|exact IH].
Qed.

(** X6. Whatever messages arrive, the bot deletes no ticket and rewrites
    nothing of what the requester entered: every row of the store is still
    at its place afterwards, with its id, its requester, the requester's
    name and number, its corpus, room and problem, and its time of
    creation. *)
Theorem requester_columns_are_never_rewritten (E : Env) (events : list (Z * Message))
    (st : Bot (RL E)) (n : nat) (r : Db.Ticket) :
  externalsKeepTickets E ->
  Db.tickets (db st) !! n = Some r ->
  exists r' : Db.Ticket,
    Db.tickets (db (fst (receive E events st))) !! n = Some r'
    /\ Db.id r' = Db.id r /\ Db.user_id r' = Db.user_id r
    /\ Db.username r' = Db.username r /\ Db.phone r' = Db.phone r
    /\ Db.corpus r' = Db.corpus r /\ Db.room r' = Db.room r
    /\ Db.problem_type r' = Db.problem_type r
    /\ Db.created_at r' = Db.created_at r.
Proof.
  intros Hext Hr.
  destruct (receive_evolves E events st Hext n r Hr) as [r' [Hr' [Hkeep _]]].
  exists r'. split; [exact Hr'|]. unfold requesterPart in Hkeep.
  injection Hkeep as -> -> -> -> -> -> -> ->. by repeat split.
Qed.


(** X8. A message of a private chat decides no ticket: of a row that is
    in the store it changes neither the status nor the time, the text or
    the author of the solution. Only a group solves, defers and reopens. *)
Theorem private_messages_decide_no_ticket (E : Env) now (m : Message) (st : Bot (RL E))
    (n : nat) (r : Db.Ticket) :
  externalsKeepTickets E ->
  isGroupChat m = false ->
  Db.tickets (db st) !! n = Some r ->
  exists r' : Db.Ticket,
    Db.tickets (db (fst (handleMessage E now m st))) !! n = Some r'
    /\ Db.status r' = Db.status r /\ Db.solved_at r' = Db.solved_at r
    /\ Db.solution r' = Db.solution r /\ Db.solved_by_phone r' = Db.solved_by_phone r.
Proof.
  intros Hext Hprivate Hr.
  assert (Hnd : distinctIfStrict false (db st)) by discriminate.
  pose proof (handleMessage_evolves E false now m st Hext Hnd) as H.
  rewrite Hprivate in H. destruct (H n r Hr) as [r' [Hr' [_ [_ Hout]]]].
  exists r'. split; [exact Hr'|]. specialize (Hout eq_refl). unfold outcomePart in Hout.
  injection Hout as -> -> -> ->. by repeat split.
Qed.

(** X9. Ticket ids are never reused: from a store whose ids are distinct
    and below its next id, and where no admin holds two active tickets,
    whatever messages arrive, the ids of the rows stay distinct and below
    the next id of the store. *)
Theorem ticket_ids_stay_distinct (E : Env) (events : list (Z * Message)) (st : Bot (RL E)) :
  externalsKeepTickets E ->
  storeInv (db st) ->
  NoDup (List.map Db.id (Db.tickets (db (fst (receive E events st)))))
  /\ Forall (fun r => Db.id r < Db.nextId (db (fst (receive E events st))))
            (Db.tickets (db (fst (receive E events st)))).
Proof. intros Hext Hinv. exact (proj1 (receive_inv E events st Hext Hinv)). Qed.

(** ** Characters *)

Lemma take_drop (n : nat) (s : string) : Js.take n s +:+ Js.drop n s = s.
Proof.
  revert s. induction n as [|n IH]; intros [|a s]; try reflexivity.
  cbn [Js.take Js.drop]. rewrite append_cons. by rewrite IH.
Qed.

Lemma drop_length_append (w s : string) : Js.drop (String.length w) (w +:+ s) = s.
Proof. induction w as [|a w IH]; [by destruct s|exact IH]. Qed.

Lemma length_append (a b : string) :
  String.length (a +:+ b) = (String.length a + String.length b)%nat.
Proof. induction a as [|x a IH]; [reflexivity|]. rewrite append_cons. cbn [String.length]. lia. Qed.

(** The character of white space that a text begins with is its first
    bytes. *)
Lemma whiteWidth_take (s : string) (k : nat) :
  Js.whiteWidth s = S k -> Js.isWhite (Js.take (S k) s) = true.
Proof.
  unfold Js.isWhite. destruct s as [|a s]; [discriminate|]. cbn [Js.whiteWidth].
  destruct (Js.white1 (nat_of_ascii a)) eqn:H1.
  { intros [= <-]. cbn [Js.take Js.whiteWidth]. by rewrite H1. }
  destruct s as [|b s]; [discriminate|].
  destruct (Js.white2 (nat_of_ascii a) (nat_of_ascii b)) eqn:H2.
  { intros [= <-]. cbn [Js.take Js.whiteWidth]. by rewrite H1, H2. }
  destruct s as [|c s]; [discriminate|].
  destruct (Js.white3 (nat_of_ascii a) (nat_of_ascii b) (nat_of_ascii c)) eqn:H3; [|discriminate].
  intros [= <-]. cbn [Js.take Js.whiteWidth]. by rewrite H1, H2, H3.
Qed.

(** A text that begins with a character of white space: the width is the
    length of the character. *)
Lemma whiteWidth_append (w s : string) :
  Js.isWhite w = true -> Js.whiteWidth (w +:+ s) = String.length w.
Proof.
  unfold Js.isWhite. destruct w as [|a w]; [discriminate|].
  rewrite append_cons. cbn [Js.whiteWidth String.length].
  destruct (Js.white1 (nat_of_ascii a)) eqn:H1.
  { destruct w; [reflexivity|discriminate]. }
  destruct w as [|b w]; [discriminate|]. rewrite append_cons. cbn [String.length].
  destruct (Js.white2 (nat_of_ascii a) (nat_of_ascii b)) eqn:H2.
  { destruct w; [reflexivity|discriminate]. }
  destruct w as [|c w]; [discriminate|]. rewrite append_cons. cbn [String.length].
  destruct (Js.white3 (nat_of_ascii a) (nat_of_ascii b) (nat_of_ascii c)) eqn:H3; [|discriminate].
  destruct w; [reflexivity|discriminate].
Qed.

Lemma isWhite_width (w : string) : Js.isWhite w = true -> Js.whiteWidth w = String.length w.
Proof. intros H. rewrite <- (append_nil_r w) at 1. by apply whiteWidth_append. Qed.

Lemma isWhite_not_empty (w : string) : Js.isWhite w = true -> w <> "".
Proof. by intros H ->. Qed.

(** A text is empty, or begins with a character of white space, or with a
    byte that begins none. *)
Lemma chars_ind (P : string -> Prop) :
  P "" ->
  (forall w s, Js.isWhite w = true -> P s -> P (w +:+ s)) ->
  (forall a s, Js.whiteWidth (String a s) = 0%nat -> P s -> P (String a s)) ->
  forall s, P s.
Proof.
  intros Hnil Hwhite Hbyte s.
  assert (H : forall n s, (String.length s < n)%nat -> P s); [|apply (H (S (String.length s))); lia].
  clear s. induction n as [|n IH]; intros s Hlen; [lia|].
  destruct s as [|a s]; [exact Hnil|].
  destruct (Js.whiteWidth (String a s)) as [|k] eqn:Hw.
  - apply Hbyte; [exact Hw|]. apply IH. cbn [String.length] in Hlen. lia.
  - rewrite <- (take_drop (S k) (String a s)).
    apply Hwhite; [by apply whiteWidth_take|]. apply IH.
    cbn [Js.drop String.length] in *.
    assert (String.length (Js.drop k s) <= String.length s)%nat; [|lia].
    clear. revert s. induction k as [|k IH]; intros [|a s]; cbn [Js.drop String.length]; try lia.
    specialize (IH s). lia.
Qed.

(** The functions that go through a text character by character, at a
    character of white space and at another byte. *)
Lemma dropWhite_drop (k : nat) (s : string) : Js.dropWhite k s = Js.dropWhite 0 (Js.drop k s).
Proof.
  revert k. induction s as [|a s IH]; intros [|k]; try reflexivity.
  cbn [Js.dropWhite Js.drop]. apply IH.
Qed.

Lemma onlyChars_drop (ok : ascii -> bool) (k : nat) (s : string) :
  Js.onlyChars ok k s = Js.onlyChars ok 0 (Js.drop k s).
Proof.
  revert k. induction s as [|a s IH]; intros [|k]; try reflexivity.
  cbn [Js.onlyChars Js.drop]. apply IH.
Qed.

Lemma trimStart_white (w s : string) :
  Js.isWhite w = true -> Js.trimStart (w +:+ s) = Js.trimStart s.
Proof.
  intros Hw. pose proof (whiteWidth_append w s Hw) as Hwidth.
  unfold Js.trimStart. destruct w as [|a w]; [discriminate|].
  rewrite append_cons in *. cbn [Js.dropWhite]. rewrite Hwidth. cbn [String.length].
  rewrite dropWhite_drop. by rewrite drop_length_append.
Qed.

Lemma trimStart_byte (a : ascii) (s : string) :
  Js.whiteWidth (String a s) = 0%nat -> Js.trimStart (String a s) = String a s.
Proof. intros Hw. unfold Js.trimStart. cbn [Js.dropWhite]. by rewrite Hw. Qed.

Lemma onlyChars_white (ok : ascii -> bool) (w s : string) :
  Js.isWhite w = true -> Js.onlyChars ok 0 (w +:+ s) = Js.onlyChars ok 0 s.
Proof.
  intros Hw. pose proof (whiteWidth_append w s Hw) as Hwidth.
  destruct w as [|a w]; [discriminate|].
  rewrite append_cons in *. cbn [Js.onlyChars]. rewrite Hwidth. cbn [String.length].
  rewrite onlyChars_drop. by rewrite drop_length_append.
Qed.

Lemma onlyChars_byte (ok : ascii -> bool) (a : ascii) (s : string) :
  Js.whiteWidth (String a s) = 0%nat ->
  Js.onlyChars ok 0 (String a s) = ok a && Js.onlyChars ok 0 s.
Proof. intros Hw. cbn [Js.onlyChars]. by rewrite Hw. Qed.

Lemma madeOf_app (P : string -> Prop) (a b : string) :
  madeOf P a -> madeOf P b -> madeOf P (a +:+ b).
Proof.
  intros Ha Hb. induction Ha as [|ch s Hch Hs IH]; [exact Hb|].
  rewrite append_assoc. by constructor.
Qed.

Lemma madeOf_impl (P Q : string -> Prop) (s : string) :
  (forall ch, P ch -> Q ch) -> madeOf P s -> madeOf Q s.
Proof. intros HPQ Hs. induction Hs; constructor; auto. Qed.

(** What [trimStart] and [trimEnd] take away is white space. *)
Lemma trimStart_split (s : string) :
  exists ws, s = ws +:+ Js.trimStart s /\ madeOf (fun ch => Js.isWhite ch = true) ws.
Proof.
  induction s as [|w s Hw [ws [Hs Hws]]|a s Ha _] using chars_ind.
  - exists "". split; [reflexivity|constructor].
  - exists (w +:+ ws). rewrite trimStart_white by exact Hw. split.
    + rewrite append_assoc. by rewrite <- Hs.
    + by constructor.
  - exists "". rewrite trimStart_byte by exact Ha. split; [reflexivity|constructor].
Qed.

Lemma trimEnd_split (s : string) :
  exists ws, s = Js.trimEnd s +:+ ws /\ madeOf (fun ch => Js.isWhite ch = true) ws.
Proof.
  induction s as [|c s [ws [Hs Hws]]].
  - exists "". split; [reflexivity|constructor].
  - cbn [Js.trimEnd]. cbv zeta. destruct (Js.isWhite (String c (Js.trimEnd s))) eqn:Hw.
    + exists (String c (Js.trimEnd s) +:+ ws). split.
      * rewrite append_cons. by rewrite <- Hs.
      * by constructor.
    + exists ws. rewrite append_cons. by rewrite <- Hs.
Qed.

(** ** Rooms *)

Lemma white2_bytes (x y : nat) : Js.white2 x y = true -> (128 <= x /\ 128 <= y)%nat.
Proof. unfold Js.white2. rewrite andb_true_iff, !Nat.eqb_eq. lia. Qed.

Lemma white3_bytes (x y z : nat) :
  Js.white3 x y z = true -> (128 <= x /\ 128 <= y /\ 128 <= z)%nat.
Proof.
  unfold Js.white3. rewrite !orb_true_iff, !andb_true_iff, !orb_true_iff, !andb_true_iff,
    !Nat.eqb_eq, !Nat.leb_le. lia.
Qed.

Lemma digit_is_ascii (c : ascii) : Js.isDigit c = true -> (nat_of_ascii c < 128)%nat.
Proof. unfold Js.isDigit. cbv zeta. rewrite andb_true_iff, !Nat.leb_le. lia. Qed.

Lemma white1_no_digit (c : ascii) :
  Js.white1 (nat_of_ascii c) = true -> Js.isDigit c = false.
Proof.
  unfold Js.white1, Js.isDigit. cbv zeta.
  rewrite orb_true_iff, andb_true_iff, andb_false_iff, !Nat.leb_le, Nat.eqb_eq, !Nat.leb_gt. lia.
Qed.

Lemma high_no_digit (c : ascii) : (128 <= nat_of_ascii c)%nat -> Js.isDigit c = false.
Proof.
  intros H. destruct (Js.isDigit c) eqn:Hd; [|reflexivity].
  apply digit_is_ascii in Hd. lia.
Qed.

(** No byte of a character of white space is a digit. *)
Lemma white_has_no_digit (w : string) :
  Js.isWhite w = true -> Js.existsChar Js.isDigit w = false.
Proof.
  unfold Js.isWhite. destruct w as [|a w]; [discriminate|]. cbn [Js.whiteWidth String.length].
  destruct (Js.white1 (nat_of_ascii a)) eqn:H1.
  { destruct w; [|discriminate]. intros _. cbn [Js.existsChar].
    by rewrite (white1_no_digit a H1). }
  destruct w as [|b w]; [discriminate|]. cbn [String.length].
  destruct (Js.white2 (nat_of_ascii a) (nat_of_ascii b)) eqn:H2.
  { destruct w; [|discriminate]. intros _. cbn [Js.existsChar].
    apply white2_bytes in H2 as [Ha Hb]. by rewrite !high_no_digit. }
  destruct w as [|c w]; [discriminate|]. cbn [String.length].
  destruct (Js.white3 (nat_of_ascii a) (nat_of_ascii b) (nat_of_ascii c)) eqn:H3; [|discriminate].
  destruct w; [|discriminate]. intros _. cbn [Js.existsChar].
  apply white3_bytes in H3 as (Ha & Hb & Hc). by rewrite !high_no_digit.
Qed.

Lemma existsChar_append (p : ascii -> bool) (a b : string) :
  Js.existsChar p (a +:+ b) = Js.existsChar p a || Js.existsChar p b.
Proof.
  induction a as [|x a IH]; [reflexivity|].
  rewrite append_cons. cbn [Js.existsChar]. by rewrite IH, orb_assoc.
Qed.

Lemma whites_have_no_digit (ws : string) :
  madeOf (fun ch => Js.isWhite ch = true) ws -> Js.existsChar Js.isDigit ws = false.
Proof.
  induction 1 as [|w s Hw _ IH]; [reflexivity|].
  by rewrite existsChar_append, (white_has_no_digit w Hw), IH.
Qed.

(** The runs of digits of a text stay when a text with no digit is put
    before or after it. *)
Lemma digitRuns_no_digit (ws : string) (cur : string) :
  Js.existsChar Js.isDigit ws = false ->
  Js.digitRunsFrom cur ws = match cur with "" => [] | _ => [cur] end.
Proof.
  revert cur. induction ws as [|c ws IH]; intros cur Hno; [reflexivity|].
  cbn [Js.existsChar] in Hno. apply orb_false_elim in Hno as [Hc Hws].
  cbn [Js.digitRunsFrom]. rewrite Hc. rewrite (IH "" Hws). by destruct cur.
Qed.

Lemma digitRuns_after (ws t : string) :
  Js.existsChar Js.isDigit ws = false ->
  Js.digitRunsFrom "" (ws +:+ t) = Js.digitRunsFrom "" t.
Proof.
  induction ws as [|c ws IH]; intros Hno; [reflexivity|].
  cbn [Js.existsChar] in Hno. apply orb_false_elim in Hno as [Hc Hws].
  rewrite append_cons. cbn [Js.digitRunsFrom]. rewrite Hc. by apply IH.
Qed.

Lemma digitRuns_before (ws t : string) (cur : string) :
  Js.existsChar Js.isDigit ws = false ->
  Js.digitRunsFrom cur (t +:+ ws) = Js.digitRunsFrom cur t.
Proof.
  intros Hno. revert cur. induction t as [|c t IH]; intros cur.
  - change ("" +:+ ws) with ws. by rewrite digitRuns_no_digit.
  - rewrite append_cons. cbn [Js.digitRunsFrom]. by rewrite !IH.
Qed.

Lemma digitRuns_trim (s : string) : Js.digitRuns (Js.trim s) = Js.digitRuns s.
Proof.
  unfold Js.digitRuns, Js.trim.
  destruct (trimStart_split s) as (ws1 & Hs1 & Hws1).
  destruct (trimEnd_split (Js.trimStart s)) as (ws2 & Hs2 & Hws2).
  rewrite Hs1 at 2. rewrite digitRuns_after by by apply whites_have_no_digit.
  rewrite Hs2 at 2. by rewrite digitRuns_before by by apply whites_have_no_digit.
Qed.

Lemma takeWhile_dropWhile (p : ascii -> bool) (s : string) :
  Js.takeWhile p s +:+ Js.dropWhile p s = s.
Proof.
  induction s as [|a s IH]; [reflexivity|]. cbn [Js.takeWhile Js.dropWhile].
  destruct (p a); [|reflexivity]. rewrite append_cons. by rewrite IH.
Qed.

Lemma drop_takeWhile (p : ascii -> bool) (s : string) :
  Js.drop (String.length (Js.takeWhile p s)) s = Js.dropWhile p s.
Proof.
  induction s as [|a s IH]; [reflexivity|].
  cbn [Js.takeWhile Js.dropWhile]. destruct (p a); [exact IH|reflexivity].
Qed.

Lemma roomChar_white (ch : string) : Js.isWhite ch = true -> roomChar ch.
Proof. by left. Qed.

Lemma digits_are_roomChars (s : string) : madeOf roomChar (Js.takeWhile Js.isDigit s).
Proof.
  induction s as [|a s IH]; [constructor|]. cbn [Js.takeWhile].
  destruct (Js.isDigit a) eqn:Ha; [|constructor].
  change (String a (Js.takeWhile Js.isDigit s)) with (String a "" +:+ Js.takeWhile Js.isDigit s).
  constructor; [|exact IH]. right. exists a. by split; [|left].
Qed.

(** A text with no character outside the class [[A-E0-9\s]] is made of the
    characters of a room. *)
Lemma allowed_are_roomChars (s : string) : hasForbiddenChar s = false -> madeOf roomChar s.
Proof.
  unfold hasForbiddenChar. intros H. apply negb_false_iff in H. revert H.
  induction s as [|w s Hw IH|a s Ha IH] using chars_ind.
  - constructor.
  - rewrite onlyChars_white by exact Hw. intros H. constructor; [by left|by apply IH].
  - rewrite onlyChars_byte by exact Ha. intros H. apply andb_true_iff in H as [Hok Hs].
    change (String a s) with (String a "" +:+ s). constructor; [|by apply IH].
    right. exists a. split; [reflexivity|]. cbv zeta in Hok.
    apply orb_true_iff in Hok as [Hl | Hd]; [right|by left].
    apply andb_true_iff in Hl as [Hlo Hhi]. apply Nat.leb_le in Hlo, Hhi. lia.
Qed.

(** A text whose trimmed form is made of the characters of a room is made
    of them. *)
Lemma trimmed_roomChars (s : string) : madeOf roomChar (Js.trim s) -> madeOf roomChar s.
Proof.
  intros H. unfold Js.trim in H.
  destruct (trimStart_split s) as (ws1 & Hs1 & Hws1).
  destruct (trimEnd_split (Js.trimStart s)) as (ws2 & Hs2 & Hws2).
  rewrite Hs1, Hs2. apply madeOf_app; [|apply madeOf_app; [exact H|]].
  - exact (madeOf_impl _ _ _ roomChar_white Hws1).
  - exact (madeOf_impl _ _ _ roomChar_white Hws2).
Qed.

Lemma takeWhile_first (p : ascii -> bool) (s : string) :
  Js.takeWhile p s <> "" -> exists d rest, s = String d rest /\ p d = true.
Proof.
  destruct s as [|a s]; [by intros []|]. cbn [Js.takeWhile].
  destruct (p a) eqn:Ha; [|by intros []]. intros _. by exists a, s.
Qed.

Lemma hasBadCabinet_false (s : string) :
  hasBadCabinet s = false ->
  Forall (fun n => 1 <= n <= 13) (List.map Js.parseDec (Js.digitRuns s)).
Proof.
  unfold hasBadCabinet. generalize (Js.digitRuns s). intros runs.
  induction runs as [|run runs IH]; [constructor|].
  cbn [existsb List.map]. intros H. apply orb_false_elim in H as [Hrun Hruns].
  apply orb_false_elim in Hrun as [Hlo Hhi]. constructor; [lia|by apply IH].
Qed.

(** What [handleStep2] does to the state: nothing, or it stores a room that
    is well formed for the corpus of the wizard. *)
Lemma handleStep2_cases (E : Env) (key : string) (m : Message) (u : UserState)
    (st st' : Bot (RL E)) (effects : list Effect) :
  handleStep2 E key m u st = Some (st', effects) ->
  st' = st
  \/ exists b : string,
       body m = Some b
       /\ st' = store E key (set_step 3 (set_room (Js.toUpperCase (Js.trim b)) u)) st
       /\ effects = showProblemTypes
       /\ wellFormedRoom (corpus u) (Js.toUpperCase (Js.trim b)).
Proof.
  unfold handleStep2. destruct (body m) as [b|]; [|discriminate]. cbv zeta.
  set (r := Js.toUpperCase (Js.trim b)).
  destruct (Z.gtb_spec (Js.len r) 10) as [|Hlen]; [intros [= <- _]; by left|].
  destruct (String.eqb_spec (Js.takeWhile Js.isDigit r) "") as [|Hdigits];
    [intros [= <- _]; by left|].
  rewrite drop_takeWhile.
  match goal with
  | |- match ?x with Some _ => _ | None => _ end = _ -> _ =>
      destruct x as [text|] eqn:Hrange'
  end; [intros [= <- _]; by left|].
  destruct (hasForbiddenChar (Js.trim (Js.dropWhile Js.isDigit r))) eqn:Hchars;
    [intros [= <- _]; by left|].
  destruct (hasBadCabinet (Js.trim (Js.dropWhile Js.isDigit r))) eqn:Hcab;
    [intros [= <- _]; by left|].
  intros [= <- <-]. right. exists b.
  split; [reflexivity|]. split; [reflexivity|]. split; [reflexivity|].
  split; [exact Hlen|]. split; [by apply takeWhile_first|].
  split; [|split; [|split]].
  - fold r. rewrite <- (takeWhile_dropWhile Js.isDigit r).
    apply madeOf_app; [apply digits_are_roomChars|].
    apply trimmed_roomChars. by apply allowed_are_roomChars.
  - intros Hc. rewrite bool_decide_eq_true_2 in Hrange' by exact Hc.
    unfold mainNumber. fold r.
    destruct (Z.ltb_spec (Js.parseDec (Js.takeWhile Js.isDigit r)) 101); [discriminate|].
    destruct (Z.gtb_spec (Js.parseDec (Js.takeWhile Js.isDigit r)) 543); [discriminate|]. lia.
  - intros Hc. rewrite bool_decide_eq_false_2 in Hrange' by (rewrite Hc; discriminate).
    rewrite bool_decide_eq_true_2 in Hrange' by exact Hc.
    unfold mainNumber. fold r.
    destruct (Z.ltb_spec (Js.parseDec (Js.takeWhile Js.isDigit r)) 1101); [discriminate|].
    destruct (Z.gtb_spec (Js.parseDec (Js.takeWhile Js.isDigit r)) 1644); [discriminate|]. lia.
  - unfold cabinets. fold r. rewrite <- digitRuns_trim. by apply hasBadCabinet_false.
Qed.

(** X10. The room step of the wizard changes the state only to store a
    well-formed room: the trimmed, upper-cased reply, of at most 10 UTF-16
    code units, which begins with a digit, is made of digits, the letters A
    to E and characters of white space (those of [\s], the no-break space
    among them), has its main number in the range of the corpus, and every
    further number between 1 and 13. *)
Theorem stored_room_is_well_formed (E : Env) (key : string) (m : Message) (u : UserState)
    (st st' : Bot (RL E)) (effects : list Effect) :
  handleStep2 E key m u st = Some (st', effects) ->
  st' <> st ->
  exists b : string,
    body m = Some b
    /\ userStates st' !! key = Some (set_step 3 (set_room (Js.toUpperCase (Js.trim b)) u))
    /\ wellFormedRoom (corpus u) (Js.toUpperCase (Js.trim b)).
Proof.
  intros H Hne. destruct (handleStep2_cases E key m u st st' effects H)
    as [-> | [b [Hb [-> [_ Hwf]]]]]; [contradiction|].
  exists b. split; [exact Hb|]. split; [apply lookup_store|exact Hwf].
Qed.

(** ** What the wizard files *)

Section FiledTickets.

Variable E : Env.
Implicit Type st : Bot (RL E).
Implicit Type m : Message.
Implicit Type u : UserState.

Lemma botOk_same st st' :
  userStates st' = userStates st -> Db.tickets (db st') = Db.tickets (db st) ->
  botOk st -> botOk st'.
Proof. unfold botOk. intros -> ->. tauto. Qed.

Lemma botOk_store (key : string) u st : wizardOk u -> botOk st -> botOk (store E key u st).
Proof.
  intros Hu [Hw Ht]. split; [|exact Ht]. intros k v.
  unfold store. cbn [userStates set_userStates].
  destruct (decide (k = key)) as [-> | Hne].
  - rewrite lookup_insert_eq. by intros [= <-].
  - rewrite lookup_insert_ne by done. apply Hw.
Qed.

Lemma botOk_delete (key : string) st :
  botOk st -> botOk (set_userStates (fun w => delete key w) st).
Proof.
  intros [Hw Ht]. split; [|exact Ht]. intros k v. cbn [userStates set_userStates].
  intros Hk. apply lookup_delete_Some in Hk as [_ Hk]. by eapply Hw.
Qed.

Lemma ticketOk_requesterPart (r r' : Db.Ticket) :
  requesterPart r' = requesterPart r -> ticketOk r -> ticketOk r'.
Proof.
  unfold requesterPart, ticketOk. intros [= _ _ _ _ Hc Hr _ _]. by rewrite Hc, Hr.
Qed.

Lemma botOk_update (oi : option Z) (g : Db.Ticket -> Db.Ticket) st :
  (forall r, requesterPart (g r) = requesterPart r) ->
  botOk st -> botOk (set_db (Db.updateTicket oi g) st).
Proof.
  intros Hkeep [Hw Ht]. split; [exact Hw|]. cbn [db set_db].
  destruct oi as [i|]; [|exact Ht]. rewrite updateTicket_tickets.
  apply Forall_forall. intros r' Hin.
  apply list_elem_of_In, in_map_iff in Hin as [r [<- Hin]].
  rewrite Forall_forall in Ht. specialize (Ht r (proj2 (list_elem_of_In _ _) Hin)).
  unfold rewriteRow. destruct (Db.hasId i r); [|exact Ht].
  exact (ticketOk_requesterPart r (g r) (Hkeep r) Ht).
Qed.

Lemma markSolved_ok now m (adminName : string) st st' effects :
  markSolved E now m adminName st = Some (st', effects) -> botOk st -> botOk st'.
Proof.
  unfold markSolved. cbv zeta. intros H Hok. split_tests; try assumption.
  apply botOk_update; [reflexivity|assumption].
Qed.

Lemma handleLongTerm_ok now m (adminName : string) st st' effects :
  handleLongTerm E now m adminName st = Some (st', effects) -> botOk st -> botOk st'.
Proof.
  unfold handleLongTerm. cbv zeta. intros H Hok. split_tests; try assumption.
  apply botOk_update; [reflexivity|assumption].
Qed.

Lemma handleUnsolved_ok m st st' effects :
  handleUnsolved E m st = Some (st', effects) -> botOk st -> botOk st'.
Proof.
  unfold handleUnsolved. cbv zeta. intros H Hok. split_tests; try assumption.
  apply botOk_update; [reflexivity|assumption].
Qed.

Lemma handleAssign_ok m st st' effects :
  handleAssign E m st = Some (st', effects) -> botOk st -> botOk st'.
Proof.
  unfold handleAssign. cbv zeta. intros H Hok. split_tests; try assumption;
    apply botOk_update; [reflexivity|assumption].
Qed.

Lemma handleNoAssign_ok m st st' effects :
  handleNoAssign E m st = Some (st', effects) -> botOk st -> botOk st'.
Proof.
  unfold handleNoAssign. cbv zeta. intros H Hok. split_tests; try assumption;
    apply botOk_update; [reflexivity|assumption].
Qed.

Lemma startNewTicket_ok now m st : botOk st -> botOk (fst (startNewTicket E now m st)).
Proof.
  intros Hok. unfold startNewTicket.
  destruct (isBanned st _); [exact Hok|].
  destruct (canCreateTicket E now (from m) (rateLimiter st)) as [lc l].
  destruct (negb (allowed lc)); cbn [fst].
  - by eapply botOk_same.
  - apply (botOk_store (from m)); [|by eapply botOk_same].
    split; cbn [step]; intros H; exfalso; lia.
Qed.

Lemma handleStop_ok m st : botOk st -> botOk (fst (handleStop E m st)).
Proof.
  intros Hok. unfold handleStop. destruct (userStates st !! from m); [|exact Hok].
  by apply botOk_delete.
Qed.

Lemma completeTicket_ok now m u st :
  (corpus u = Some "1" \/ corpus u = Some "2") ->
  (exists r, room u = Some r /\ wellFormedRoom (corpus u) r) ->
  botOk st -> botOk (fst (completeTicket E now m u st)).
Proof.
  intros Hc Hr Hok. unfold completeTicket.
  destruct (negb (Db.online (db st))); [by apply botOk_delete|].
  unfold Db.insertTicket. cbn [fst]. apply botOk_delete.
  destruct Hok as [Hw Ht]. split; [exact Hw|].
  cbn [db set_db set_rateLimiter Db.tickets]. apply Forall_app. split; [exact Ht|].
  apply Forall_singleton. by repeat split.
Qed.

Lemma wizardOk_counted u : wizardOk u -> wizardOk (set_attempts (attempts u + 1) u).
Proof. exact id. Qed.

Lemma switchStep_ok now (key : string) m u st st' effects :
  switchStep E now key m u st = Some (st', effects) ->
  wizardOk u -> botOk st -> botOk st'.
Proof.
  unfold switchStep. intros H [Hcorpus Hroom] Hok.
  destruct (Z.eqb_spec (step u) 1) as [H1|_].
  { unfold handleStep1 in H. destruct (body m) as [b|]; [|by simplify_eq].
    destruct (String.eqb_spec b "1") as [Hb | _]; cbn [orb] in H.
    - injection H as <- _. subst b. apply botOk_store; [|exact Hok].
      split; cbn [step corpus set_step set_corpus]; intros; [by left|exfalso; lia].
    - destruct (String.eqb_spec b "2") as [Hb | _]; [|by simplify_eq].
      injection H as <- _. subst b. apply botOk_store; [|exact Hok].
      split; cbn [step corpus set_step set_corpus]; intros; [by right|exfalso; lia]. }
  destruct (Z.eqb_spec (step u) 2) as [H2|_].
  { destruct (handleStep2_cases E key m u st st' effects H)
      as [-> | [b [Hb [-> [_ Hwf]]]]]; [exact Hok|].
    apply botOk_store; [|exact Hok].
    split; cbn [step corpus room set_step set_room]; intros _; [tauto|by eexists]. }
  destruct (Z.eqb_spec (step u) 3) as [H3|_].
  { unfold handleStep3 in H. destruct (body m) as [b|]; [|discriminate]. cbv zeta in H.
    destruct (String.eqb (Js.trim b) "16").
    - injection H as <- _. apply botOk_store; [|exact Hok].
      split; cbn [step corpus room set_step]; intros _; tauto.
    - destruct (lookupKey (Js.trim b) problemTypesExtended) as [label|] eqn:Hlabel;
        [|by simplify_eq].
      injection H as H. apply (f_equal fst) in H. cbn [fst] in H. subst st'.
      apply completeTicket_ok; [tauto|tauto|].
      apply botOk_store; [|exact Hok]. split; [exact Hcorpus|exact Hroom]. }
  destruct (Z.eqb_spec (step u) 4) as [H4|_]; [|by simplify_eq].
  unfold handleStep4 in H. destruct (body m) as [b|]; [|discriminate]. cbv zeta in H.
  destruct (Z.gtb_spec (Js.len (Js.trim b)) 100); [by simplify_eq|].
  destruct (Z.eqb_spec (Js.len (Js.trim b)) 0); [by simplify_eq|].
  injection H as H. apply (f_equal fst) in H. cbn [fst] in H. subst st'.
  apply completeTicket_ok; [tauto|tauto|].
  apply botOk_store; [|exact Hok]. split; [exact Hcorpus|exact Hroom].
Qed.

Lemma continueTicket_ok now m st : botOk st -> botOk (fst (continueTicket E now m st)).
Proof.
  intros Hok. unfold continueTicket.
  destruct (userStates st !! from m) as [u|] eqn:Hu; [|exact Hok]. cbv zeta.
  assert (Hwu : wizardOk u) by (by eapply (proj1 Hok)).
  assert (Hok1 : botOk (store E (from m) (set_attempts (attempts u + 1) u) st))
    by (by apply botOk_store).
  destruct (switchStep E now (from m) m _ _) as [[st1 e1]|] eqn:Hstep.
  - exact (switchStep_ok _ _ _ _ _ _ _ Hstep Hwu Hok1).
  - unfold handleTicketError. rewrite lookup_store.
    destruct (attempts _ >=? 3); [by apply botOk_delete|exact Hok1].
Qed.

Lemma banUser_userStates (identity : option string) st :
  userStates (banUser identity st) = userStates st.
Proof. destruct identity; reflexivity. Qed.

Lemma adminLoginCheck_userStates m st st' effects :
  adminLoginCheck E m st = Returned (st', effects) -> userStates st' = userStates st.
Proof.
  unfold adminLoginCheck. cbv zeta. intros H.
  split_tests; split_goal_tests;
    cbn [userStates set_adminLoginState set_failedLoginAttempts set_adminSessions];
    rewrite ?banUser_userStates; reflexivity.
Qed.

Lemma autoBan_userStates now m st :
  userStates (fst (fst (autoBan E now m st))) = userStates st.
Proof.
  unfold autoBan. cbv zeta. split_goal_tests;
    cbn [fst userStates set_messageSpam]; rewrite ?banUser_userStates; reflexivity.
Qed.

Lemma handleCommands_ok now m (messageBody : string) (isGroup matched : bool)
    st st' effects :
  externalsKeepTickets E -> externalsKeepWizards E ->
  handleCommands E now m messageBody isGroup st = Some (matched, (st', effects)) ->
  botOk st -> botOk st'.
Proof.
  intros Hext Hwiz H Hok. unfold handleCommands in H. cbv zeta in H.
  assert (Hother : forall h, botOk (fst (external E h m st))).
  { intros h. destruct (Hext h m st) as [Ht _]. exact (botOk_same _ _ (Hwiz h m st) Ht Hok). }
  repeat match type of H with
         | (if ?c then _ else _) = _ => destruct c
         end;
    repeat match type of H with
           | match ?o with Some _ => _ | None => _ end = _ => destruct o as [[? ?]|] eqn:?
           end;
    simplify_eq; cbn [fst];
    first
      [ exact Hok
      | apply Hother
      | by apply startNewTicket_ok
      | by apply handleStop_ok
      | eapply markSolved_ok; eassumption
      | eapply handleLongTerm_ok; eassumption
      | eapply handleUnsolved_ok; eassumption
      | eapply handleAssign_ok; eassumption
      | eapply handleNoAssign_ok; eassumption ].
Qed.

Lemma processMessage_ok now m (isGroup : bool) (senderIdRaw : string) st :
  externalsKeepTickets E -> externalsKeepWizards E ->
  botOk st -> botOk (fst (processMessage E now m isGroup senderIdRaw st)).
Proof.
  intros Hext Hwiz Hok. unfold processMessage. cbv zeta.
  destruct (String.eqb (from m) ""); [exact Hok|].
  destruct (negb (Js.truthy (body m)) && negb (hasMedia m)); [exact Hok|].
  destruct (mediaCheck m) as [mediaLog tooLarge]. destruct tooLarge; [exact Hok|].
  destruct (isBanned st _); [exact Hok|].
  destruct (negb isGroup && negb (Js.startsWith "/" _) && isGreeting _).
  { pose proof (startNewTicket_ok now m st Hok) as H1.
    destruct (startNewTicket E now m st) as [s1 e1]. exact H1. }
  destruct (if negb isGroup then adminLoginCheck E m st else Next) as [[s1 e1]| |] eqn:Hlogin.
  - destruct (negb isGroup); [|discriminate]. cbn [fst].
    eapply botOk_same; [| |exact Hok].
    + exact (adminLoginCheck_userStates _ _ _ _ Hlogin).
    + by rewrite (adminLoginCheck_db E _ _ _ _ Hlogin).
  - destruct (handleCommands E now m _ isGroup st) as [[matched [s1 e1]]|] eqn:Hcmd;
      [|exact Hok].
    pose proof (handleCommands_ok _ _ _ _ _ _ _ _ Hext Hwiz Hcmd Hok) as Hok1.
    destruct matched; [exact Hok1|].
    destruct (negb isGroup && bool_decide (is_Some (userStates s1 !! senderIdRaw)));
      [|exact Hok1].
    pose proof (continueTicket_ok now m s1 Hok1) as Hok2.
    destruct (continueTicket E now m s1) as [s2 e2]. exact Hok2.
  - exact Hok.
Qed.

Lemma handleMessage_ok now m st :
  externalsKeepTickets E -> externalsKeepWizards E ->
  botOk st -> botOk (fst (handleMessage E now m st)).
Proof.
  intros Hext Hwiz Hok. unfold handleMessage. cbv zeta.
  destruct (fromMe m); [exact Hok|].
  destruct (Js.truthy _ && isBanned st _); [exact Hok|].
  assert (Hspam : botOk (fst (fst
            (if negb (isGroupChat m) then autoBan E now m st else (st, [], false))))).
  { destruct (negb (isGroupChat m)); [|exact Hok].
    eapply botOk_same; [apply autoBan_userStates|by rewrite autoBan_db|exact Hok]. }
  destruct (if negb (isGroupChat m) then autoBan E now m st else (st, [], false))
    as [[s1 e1] stop].
  cbn [fst] in Hspam. destruct stop; [exact Hspam|].
  pose proof (processMessage_ok now m (isGroupChat m)
                (extractSenderId E m (isGroupChat m)) s1 Hext Hwiz Hspam) as Hp.
  destruct (processMessage E now m _ _ s1) as [s2 e2]. exact Hp.
Qed.

Lemma receive_ok (events : list (Z * Message)) st :
  externalsKeepTickets E -> externalsKeepWizards E ->
  botOk st -> botOk (fst (receive E events st)).
Proof.
  intros Hext Hwiz. revert st. induction events as [|[now m] rest IH]; intros st Hok.
  - exact Hok.
  - cbn [receive].
    pose proof (handleMessage_ok now m st Hext Hwiz Hok) as H1.
    destruct (handleMessage E now m st) as [s1 e1]. cbn [fst] in H1.
    specialize (IH s1 H1). destruct (receive E rest s1) as [s2 e2]. exact IH.
Qed.

(** X11. Every ticket that the bot files has passed the checks of the
    first two steps of the wizard: started without wizards and tickets,
    whatever messages arrive, handled one after the other, every row of the
    store has corpus 1 or 2 and a room that is well formed for this corpus:
    at most 10 code units, a digit first, only digits, the letters A to E
    and characters of white space, its main number within the range of the
    corpus and every further number between 1 and 13. *)
Theorem every_filed_ticket_is_well_formed (events : list (Z * Message)) st (t : Db.Ticket) :
  externalsKeepTickets E -> externalsKeepWizards E ->
  userStates st = ∅ -> Db.tickets (db st) = [] ->
  In t (Db.tickets (db (fst (receive E events st)))) ->
  exists c r : string,
    Db.corpus t = Some c /\ Db.room t = Some r
    /\ inCorpusRange c (mainNumber r)
    /\ wellFormedRoom (Some c) r.
Proof.
  intros Hext Hwiz Hnone Hempty Hin.
  assert (Hok : botOk st).
  { split; [|rewrite Hempty; constructor]. intros key u. by rewrite Hnone, lookup_empty. }
  pose proof (proj2 (receive_ok events st Hext Hwiz Hok)) as Hall.
  rewrite Forall_forall in Hall.
  destruct (Hall t (proj2 (list_elem_of_In _ _) Hin)) as [Hc [r [Hr Hwf]]].
  pose proof Hwf as (_ & _ & _ & H1 & H2 & _).
  destruct Hc as [Hc | Hc]; rewrite Hc in Hwf, H1, H2.
  - exists "1", r. split; [exact Hc|]. split; [exact Hr|].
    split; [left; split; [reflexivity|exact (H1 eq_refl)]|exact Hwf].
  - exists "2", r. split; [exact Hc|]. split; [exact Hr|].
    split; [right; split; [reflexivity|exact (H2 eq_refl)]|exact Hwf].
Qed.

End FiledTickets.

(** ** Who may do what *)

Section Gates.

Variable E : Env.
Implicit Type st : Bot (RL E).
Implicit Type m : Message.

(** X12. A command of the admin family, from a sender with no admin
    session who is no standing admin, runs no handler: the state stays as
    it is, whatever the handlers outside the core would do, and the sender
    is told to log in (in a group, where the command is blocked by name,
    nothing is sent). *)
Theorem admin_commands_need_a_login now m (messageBody : string) (isGroup : bool) st :
  needsAdmin messageBody = true ->
  from m ∉ adminSessions st ->
  isAdmin st (normalize E (from m)) = false ->
  handleCommands E now m messageBody isGroup st
  = Some (true, (st, Log "command" ("🔧 Komanda işlənir: " +:+ messageBody)
                       :: (if isGroup && blockedInGroup messageBody then []
                           else [Reply loginRequired]))).
Proof.
  intros Hneeds Hsession Hadmin. unfold handleCommands. cbv zeta.
  destruct (isGroup && blockedInGroup messageBody); [reflexivity|].
  destruct (String.eqb_spec messageBody "/login") as [-> | _]; [discriminate Hneeds|].
  destruct (String.eqb_spec messageBody "/logout") as [-> | _]; [discriminate Hneeds|].
  rewrite !andb_false_r. unfold normalizePhone.
  rewrite Hneeds, Hadmin, bool_decide_eq_false_2 by exact Hsession. reflexivity.
Qed.

Lemma sameChats_refl st : sameChats st st.
Proof. by repeat split. Qed.

Lemma sameChats_set_db (f : Db.Store -> Db.Store) st : sameChats st (set_db f st).
Proof. by repeat split. Qed.

Lemma markSolved_chats now m (adminName : string) st st' effects :
  markSolved E now m adminName st = Some (st', effects) -> sameChats st st'.
Proof.
  unfold markSolved. cbv zeta. intros H. split_tests;
    first [apply sameChats_refl | apply sameChats_set_db].
Qed.

Lemma handleLongTerm_chats now m (adminName : string) st st' effects :
  handleLongTerm E now m adminName st = Some (st', effects) -> sameChats st st'.
Proof.
  unfold handleLongTerm. cbv zeta. intros H. split_tests;
    first [apply sameChats_refl | apply sameChats_set_db].
Qed.

Lemma handleUnsolved_chats m st st' effects :
  handleUnsolved E m st = Some (st', effects) -> sameChats st st'.
Proof.
  unfold handleUnsolved. cbv zeta. intros H. split_tests;
    first [apply sameChats_refl | apply sameChats_set_db].
Qed.

Lemma handleAssign_chats m st st' effects :
  handleAssign E m st = Some (st', effects) -> sameChats st st'.
Proof.
  unfold handleAssign. cbv zeta. intros H. split_tests;
    first [apply sameChats_refl | apply sameChats_set_db].
Qed.

Lemma handleNoAssign_chats m st st' effects :
  handleNoAssign E m st = Some (st', effects) -> sameChats st st'.
Proof.
  unfold handleNoAssign. cbv zeta. intros H. split_tests;
    first [apply sameChats_refl | apply sameChats_set_db].
Qed.

Lemma handleCommands_group_chats now m (messageBody : string) (matched : bool)
    st st' effects :
  externalsKeepChats E ->
  handleCommands E now m messageBody true st = Some (matched, (st', effects)) ->
  sameChats st st'.
Proof.
  intros Hext H. unfold handleCommands in H. cbv zeta in H. cbn [negb andb] in H.
  repeat match type of H with
         | (if ?c then _ else _) = _ => destruct c
         end;
    repeat match type of H with
           | match ?o with Some _ => _ | None => _ end = _ => destruct o as [[? ?]|] eqn:?
           end;
    simplify_eq; cbn [fst];
    first
      [ apply sameChats_refl
      | apply Hext
      | eapply markSolved_chats; eassumption
      | eapply handleLongTerm_chats; eassumption
      | eapply handleUnsolved_chats; eassumption
      | eapply handleAssign_chats; eassumption
      | eapply handleNoAssign_chats; eassumption ].
Qed.

(** X13. A message in a group touches no chat: the wizards, the logins in
    progress, the admin sessions, the failed logins and the spam counters
    are after it what they were before. *)
Theorem group_messages_touch_no_chat now m st :
  externalsKeepChats E ->
  isGroupChat m = true ->
  sameChats st (fst (handleMessage E now m st)).
Proof.
  intros Hext Hgroup. unfold handleMessage. cbv zeta. rewrite Hgroup. cbn [negb].
  destruct (fromMe m); [apply sameChats_refl|].
  destruct (Js.truthy _ && isBanned st _); [apply sameChats_refl|].
  unfold processMessage. cbv zeta. cbn [negb andb].
  destruct (String.eqb (from m) ""); [apply sameChats_refl|].
  destruct (negb (Js.truthy (body m)) && negb (hasMedia m)); [apply sameChats_refl|].
  destruct (mediaCheck m) as [mediaLog tooLarge]. destruct tooLarge; [apply sameChats_refl|].
  destruct (isBanned st _); [apply sameChats_refl|].
  destruct (handleCommands E now m _ true st) as [[matched [s1 e1]]|] eqn:Hcmd;
    [|apply sameChats_refl].
  pose proof (handleCommands_group_chats _ _ _ _ _ _ _ Hext Hcmd) as Hsame.
  by destruct matched.
Qed.

End Gates.
(** ** Words *)

Lemma splitWs_drop (k : nat) (inGap : bool) (s : string) :
  splitWs k inGap s = splitWs 0 inGap (Js.drop k s).
Proof.
  revert k. induction s as [|a s IH]; intros [|k]; try reflexivity.
  cbn [splitWs Js.drop]. apply IH.
Qed.

Lemma splitWs_white (inGap : bool) (w s : string) :
  Js.isWhite w = true ->
  splitWs 0 inGap (w +:+ s)
  = if inGap then splitWs 0 true s else "" :: splitWs 0 true s.
Proof.
  intros Hw. pose proof (whiteWidth_append w s Hw) as Hwidth.
  destruct w as [|a w]; [discriminate|].
  rewrite append_cons in *. cbn [splitWs]. rewrite Hwidth. cbn [String.length].
  rewrite splitWs_drop. by rewrite drop_length_append.
Qed.

Lemma splitWs_byte (inGap : bool) (a : ascii) (s : string) :
  Js.whiteWidth (String a s) = 0%nat ->
  splitWs 0 inGap (String a s)
  = match splitWs 0 false s with
    | w :: ws => String a w :: ws
    | [] => [String a ""]
    end.
Proof. intros Hw. cbn [splitWs]. by rewrite Hw. Qed.

(** A text that begins with no white space: neither does what it begins
    with. *)
Lemma whiteWidth_prefix (p q : string) :
  Js.whiteWidth (p +:+ q) = 0%nat -> Js.whiteWidth p = 0%nat.
Proof.
  destruct p as [|a p]; [reflexivity|]. rewrite append_cons. cbn [Js.whiteWidth].
  destruct (Js.white1 (nat_of_ascii a)); [discriminate|].
  destruct p as [|b p]; [reflexivity|]. rewrite append_cons.
  destruct (Js.white2 (nat_of_ascii a) (nat_of_ascii b)); [discriminate|].
  destruct p as [|c p]; [reflexivity|]. rewrite append_cons.
  by destruct (Js.white3 (nat_of_ascii a) (nat_of_ascii b) (nat_of_ascii c)).
Qed.

(** The first part is what the text begins with. *)
Lemma splitWs_first (s : string) :
  exists w ws q, splitWs 0 false s = w :: ws /\ s = w +:+ q.
Proof.
  induction s as [|w s Hw _|a s Ha (w & ws & q & Heq & Hs)] using chars_ind.
  - by exists "", [], "".
  - rewrite splitWs_white by exact Hw. by exists "", (splitWs 0 true s), (w +:+ s).
  - rewrite splitWs_byte by exact Ha. rewrite Heq.
    exists (String a w), ws, q. split; [reflexivity|]. rewrite append_cons. by rewrite <- Hs.
Qed.

Lemma splitWs_no_white (inGap : bool) (s : string) :
  Forall (fun w => hasWhite w = false) (splitWs 0 inGap s).
Proof.
  revert inGap. induction s as [|w s Hw IH|a s Ha IH] using chars_ind; intros inGap.
  - by repeat constructor.
  - rewrite splitWs_white by exact Hw.
    destruct inGap; [apply IH|]. constructor; [reflexivity|apply IH].
  - rewrite splitWs_byte by exact Ha. specialize (IH false).
    destruct (splitWs_first s) as (w & ws & q & Heq & Hs). rewrite Heq in IH |- *.
    apply Forall_cons in IH as [Hw Hws]. constructor; [|exact Hws].
    cbn [hasWhite]. rewrite Hw, orb_false_r.
    rewrite Hs in Ha. rewrite <- append_cons in Ha. apply whiteWidth_prefix in Ha.
    by rewrite Ha.
Qed.

Lemma noWhiteEnd_tail (p s : string) : noWhiteEnd (p +:+ s) -> noWhiteEnd s.
Proof. intros H t w ->. apply (H (p +:+ t) w). by rewrite append_assoc. Qed.

(** The parts of a text that does not end in white space: none is empty,
    but for the first one when the text begins with white space. *)
Lemma splitWs_parts (inGap : bool) (s : string) :
  s <> "" -> noWhiteEnd s ->
  exists w ws, splitWs 0 inGap s = w :: ws
    /\ Forall (fun x => x <> "") ws
    /\ (inGap = true \/ Js.whiteWidth s = 0%nat -> w <> "").
Proof.
  revert inGap. induction s as [|w s Hw IH|a s Ha IH] using chars_ind;
    intros inGap Hne Hend; [contradiction| |].
  - assert (Hs : s <> "").
    { intros ->. specialize (Hend "" w). rewrite append_nil_r in Hend.
      rewrite Hend in Hw; [discriminate|reflexivity|by apply isWhite_not_empty]. }
    destruct (IH true Hs (noWhiteEnd_tail _ _ Hend)) as (w1 & ws1 & Heq & Hws & Hw1).
    rewrite splitWs_white by exact Hw. rewrite Heq. destruct inGap.
    + exists w1, ws1. split; [reflexivity|]. split; [exact Hws|]. intros _. apply Hw1. by left.
    + exists "", (w1 :: ws1). split; [reflexivity|]. split.
      * constructor; [apply Hw1; by left|exact Hws].
      * rewrite (whiteWidth_append w s Hw). intros [?|Hlen]; [discriminate|].
        destruct w; [discriminate Hw|discriminate Hlen].
  - rewrite splitWs_byte by exact Ha. destruct s as [|d s].
    + exists (String a ""), []. by repeat split.
    + destruct (IH false) as (w1 & ws1 & Heq & Hws & _);
        [discriminate|exact (noWhiteEnd_tail (String a "") _ Hend)|].
      rewrite Heq. exists (String a w1), ws1. by repeat split.
Qed.

Lemma trimEnd_noWhiteEnd (s : string) : noWhiteEnd (Js.trimEnd s).
Proof.
  induction s as [|c s IH]; intros t w Heq Hw.
  - destruct t; [|discriminate]. by destruct w.
  - cbn [Js.trimEnd] in Heq. cbv zeta in Heq.
    destruct (Js.isWhite (String c (Js.trimEnd s))) eqn:Hc.
    + destruct t; [|discriminate]. by destruct w.
    + destruct t as [|x t].
      * change ("" +:+ w) with w in Heq. by rewrite <- Heq.
      * rewrite append_cons in Heq. injection Heq as _ Heq. by apply (IH t w).
Qed.

Lemma trimStart_begins (s : string) : Js.whiteWidth (Js.trimStart s) = 0%nat.
Proof.
  induction s as [|w s Hw IH|a s Ha _] using chars_ind; [reflexivity| |].
  - by rewrite trimStart_white.
  - by rewrite trimStart_byte.
Qed.

Lemma trim_ends (s : string) : Js.whiteWidth (Js.trim s) = 0%nat /\ noWhiteEnd (Js.trim s).
Proof.
  split; [|apply trimEnd_noWhiteEnd]. unfold Js.trim.
  destruct (trimEnd_split (Js.trimStart s)) as (ws & Hs & _).
  apply (whiteWidth_prefix _ ws). rewrite <- Hs. apply trimStart_begins.
Qed.

(** The parts of a trimmed text are words, unless the text is empty. *)
Lemma splitWs_trim (s : string) :
  splitWs 0 false (Js.trim s) = [""] \/ Forall isWord (splitWs 0 false (Js.trim s)).
Proof.
  destruct (trim_ends s) as [Hstart Hend].
  destruct (String.eqb_spec (Js.trim s) "") as [-> | Hne]; [by left|]. right.
  destruct (splitWs_parts false _ Hne Hend) as [w [ws [Heq [Hws Hw]]]].
  pose proof (splitWs_no_white false (Js.trim s)) as Hwhite.
  rewrite Heq in Hwhite |- *. apply Forall_cons in Hwhite as [Hw' Hws'].
  constructor; [split; [apply Hw; by right|exact Hw']|].
  rewrite Forall_forall in Hws, Hws' |- *. intros x Hx. split; [by apply Hws|by apply Hws'].
Qed.

(** X14. [validateCommandArgs] accepts a message only with at least the
    command and [minArgs] arguments, and hands them out as words: not
    empty, and with no character of white space, of ASCII or beyond, in
    them; but a body of white space alone counts as one empty part. *)
Theorem validated_parts_are_words (m : Message) (commandName usage : string) (minArgs : Z)
    (parts : list string) :
  validateCommandArgs m commandName minArgs usage = Valid parts ->
  minArgs + 1 <= Z.of_nat (length parts)
  /\ (parts = [""] \/ Forall isWord parts).
Proof.
  unfold validateCommandArgs. destruct (negb (Js.truthy (body m))); [discriminate|].
  cbv zeta. destruct (Z.ltb_spec (Z.of_nat (length (splitWs 0 false (Js.trim (default "" (body m))))))
                        (minArgs + 1)); [discriminate|].
  intros [= <-]. split; [lia|apply splitWs_trim].
Qed.

(** ** The commands of the admins *)

Section Commands.

Variable E : Env.
Implicit Type st : Bot (RL E).
Implicit Type m : Message.

(** X15. [/register] stores the words after the command, the parts between
    the runs of white space of the trimmed text (white space of ASCII or
    beyond), joined by single spaces, as the name of the sender's number:
    it is the name that [/assign], [/noassign], [/solved] and [/long] look
    up for this number afterwards, whatever the name of the chat. *)
Theorem registered_name_is_looked_up m (b p : string) st :
  isGroupChat m = false ->
  body m = Some b ->
  2 <= Z.of_nat (length (splitWs 0 false (Js.trim b))) ->
  normalize E (from m) = Some p ->
  Db.online (db st) = true ->
  exists st' effects (words : list string),
    Cmd.handleRegister E m st = Some (st', effects)
    /\ List.skipn 1 (splitWs 0 false (Js.trim b)) = words
    /\ words <> [] /\ Forall isWord words
    /\ Db.profileName (db st') (Some p) = Some (joinWords words)
    /\ (forall m', adminDisplayName E m' (Some p) st' = Some (joinWords words))
    /\ Db.tickets (db st') = Db.tickets (db st).
Proof.
  intros Hprivate Hb Hlen Hp Honline. unfold Cmd.handleRegister.
  rewrite Hprivate, Hb. cbv zeta.
  destruct (Z.ltb_spec (Z.of_nat (length (splitWs 0 false (Js.trim b)))) 2); [lia|].
  rewrite Honline. cbn [negb]. unfold normalizePhone. rewrite Hp.
  eexists _, _, _. split; [reflexivity|]. split; [reflexivity|].
  assert (Hwords : Forall isWord (splitWs 0 false (Js.trim b))).
  { destruct (splitWs_trim b) as [Hone | Hall]; [|exact Hall].
    rewrite Hone in Hlen. cbn [length] in Hlen. lia. }
  destruct (splitWs 0 false (Js.trim b)) as [|cmd [|w ws]]; cbn [length] in Hlen; try lia.
  cbn [List.skipn]. split; [discriminate|].
  split; [by apply Forall_cons in Hwords as [_ ?]|].
  assert (Hname : Db.profileName
                    (db (set_db (upsertProfile (Some p) (joinFrom1 (cmd :: w :: ws))) st))
                    (Some p) = Some (joinWords (w :: ws))).
  { cbn [db set_db upsertProfile Db.profileName Db.admin_profiles].
    by rewrite lookup_insert_eq. }
  split; [exact Hname|]. split; [|reflexivity].
  intros m'. unfold adminDisplayName. by rewrite Hname.
Qed.

Lemma unban_ban (p : string) st :
  p ∉ bannedUsers st ->
  set_bannedUsers (fun b => b ∖ {[ p ]}) (banUser (Some p) st) = st.
Proof.
  intros Hp. destruct st as [? ? ? ? ? banned ? ? ? ? ?].
  unfold banUser, set_bannedUsers. cbn in Hp |- *. f_equal.
  apply set_eq. intros x. rewrite elem_of_difference, elem_of_union, elem_of_singleton.
  split; [tauto|]. intros Hx. split; [by right|]. by intros ->.
Qed.

(** X16. [/unban] undoes [/ban]: for a number that was not banned, the
    ban puts its identity in the registry, and the unban of the same
    identity gives back the state as it was before the ban. *)
Theorem unban_undoes_ban m m' (b b' p : string) st :
  body m = Some b -> body m' = Some b' ->
  2 <= Z.of_nat (length (Js.split " " b)) ->
  2 <= Z.of_nat (length (Js.split " " b')) ->
  normalize E (nth 1 (Js.split " " b) "") = Some p ->
  normalize E (nth 1 (Js.split " " b') "") = Some p ->
  p <> "" ->
  p ∉ bannedUsers st ->
  exists st1 effects1 effects2,
    Cmd.handleBan E m st = Some (st1, effects1)
    /\ isBanned st1 (Some p) = true
    /\ Cmd.handleUnban E m' st1 = Some (st, effects2)
    /\ isBanned st (Some p) = false.
Proof.
  intros Hb Hb' Hlen Hlen' Hp Hp' Hne Hfree.
  assert (Htruthy : Js.truthy (Some p) = true).
  { cbn [Js.truthy]. by rewrite (proj2 (String.eqb_neq p "") Hne). }
  assert (Hnot : isBanned st (Some p) = false) by (by apply bool_decide_eq_false_2).
  unfold Cmd.handleBan, Cmd.handleUnban. rewrite Hb, Hb'. cbv zeta.
  destruct (Z.ltb_spec (Z.of_nat (length (Js.split " " b))) 2); [lia|].
  destruct (Z.ltb_spec (Z.of_nat (length (Js.split " " b'))) 2); [lia|].
  unfold normalizePhone. rewrite Hp, Hp', Htruthy, Hnot. cbn [negb].
  eexists _, _, _. split; [reflexivity|].
  assert (Hin : p ∈ bannedUsers (banUser (Some p) st)).
  { cbn [banUser bannedUsers set_bannedUsers]. apply elem_of_union. left.
    by apply elem_of_singleton. }
  split; [by apply bool_decide_eq_true_2|].
  unfold Cmd.unbanUser. rewrite (bool_decide_eq_true_2 _ Hin), (unban_ban p st Hfree).
  split; reflexivity.
Qed.

(** X17. After [/groupid] in a group, the bot announces every ticket it
    files to this group. *)
Theorem filed_ticket_goes_to_the_registered_group now m m' (u : UserState) st :
  from m <> "" ->
  Db.online (db st) = true ->
  exists text : string,
    In (SendMessage (from m) text)
       (snd (completeTicket E now m' u (fst (Cmd.handleGroupId E m st)))).
Proof.
  intros Hfrom Honline. unfold completeTicket, Cmd.handleGroupId. cbn [fst db Cmd.set_traineeGroupId].
  rewrite Honline. cbn [negb]. unfold Db.insertTicket, sendToGroup.
  cbn [snd traineeGroupId set_userStates set_rateLimiter set_db Cmd.set_traineeGroupId].
  rewrite (proj2 (String.eqb_neq (from m) "") Hfrom).
  eexists. apply in_or_app. right. apply in_or_app. right. left. reflexivity.
Qed.

End Commands.
(** ** The spam counter *)

Section SpamCounter.

Variable E : Env.
Implicit Type st : Bot (RL E).
Implicit Type m : Message.

(** Within the window and below the limit, the counter counts and lets the
    message pass. *)
Lemma autoBan_counts now m st (e : SpamEntry) :
  messageSpam st !! spamKey m = Some e ->
  now - lastReset e <= 60000 ->
  count e < 10 ->
  autoBan E now m st
  = (set_messageSpam
       (fun w => <[spamKey m := {| count := count e + 1; lastReset := lastReset e;
                                   warned := warned e |}]> w) st, [], false).
Proof.
  intros He Hwindow Hcount. unfold autoBan. fold (spamKey m). rewrite He. cbv zeta.
  destruct (Z.gtb_spec (now - lastReset e) (60 * 1000)); [lia|]. cbn [count].
  destruct (Z.gtb_spec (count e + 1) 10); [lia|]. reflexivity.
Qed.

(** The first message of a sender opens the window. *)
Lemma autoBan_first now m st :
  messageSpam st !! spamKey m = None ->
  autoBan E now m st
  = (set_messageSpam
       (fun w => <[spamKey m := {| count := 1; lastReset := now; warned := false |}]> w) st,
     [], false).
Proof. intros He. unfold autoBan. fold (spamKey m). by rewrite He. Qed.

Lemma burst_counts (times : list Z) m st (e : SpamEntry) :
  messageSpam st !! spamKey m = Some e ->
  Forall (fun now => now - lastReset e <= 60000) times ->
  count e + Z.of_nat (length times) <= 10 ->
  snd (burst E times m st) = List.repeat false (length times)
  /\ bannedUsers (fst (burst E times m st)) = bannedUsers st
  /\ messageSpam (fst (burst E times m st)) !! spamKey m
     = Some {| count := count e + Z.of_nat (length times); lastReset := lastReset e;
               warned := warned e |}.
Proof.
  revert st e. induction times as [|now rest IH]; intros st e He Hwindow Hcount.
  - cbn [burst fst snd length List.repeat]. split; [reflexivity|]. split; [reflexivity|].
    rewrite He, Z.add_0_r. by destruct e.
  - apply Forall_cons in Hwindow as [Hnow Hrest]. cbn [length] in Hcount.
    cbn [burst]. rewrite (autoBan_counts now m st e He Hnow) by lia.
    set (st1 := set_messageSpam _ st).
    set (e1 := {| count := count e + 1; lastReset := lastReset e; warned := warned e |}).
    assert (He1 : messageSpam st1 !! spamKey m = Some e1)
      by (subst st1; cbn [messageSpam set_messageSpam]; apply lookup_insert_eq).
    destruct (IH st1 e1 He1 Hrest) as [Hstops [Hbanned Hentry]]; [unfold e1; cbn [count]; lia|].
    destruct (burst E rest m st1) as [st2 stops]. cbn [fst snd] in *.
    split; [cbn [length List.repeat]; by rewrite Hstops|]. split; [exact Hbanned|].
    rewrite Hentry. cbn [count lastReset warned e1 length]. do 2 f_equal. lia.
Qed.

(** X18. The spam counter lets ten messages of a sender within a minute
    pass and bans nobody; the eleventh message within the minute is
    stopped, its sender is banned, and is told so. *)
Theorem eleventh_message_in_a_minute_bans (first last : Z) (times : list Z) m st (p : string) :
  messageSpam st !! spamKey m = None ->
  length times = 9%nat ->
  Forall (fun now => now - first <= 60000) (times ++ [last]) ->
  normalize E (spamKey m) = Some p ->
  p ∉ bannedUsers st ->
  snd (burst E (first :: times) m st) = List.repeat false 10
  /\ bannedUsers (fst (burst E (first :: times) m st)) = bannedUsers st
  /\ snd (autoBan E last m (fst (burst E (first :: times) m st))) = true
  /\ p ∈ bannedUsers (fst (fst (autoBan E last m (fst (burst E (first :: times) m st)))))
  /\ exists text : string,
       In (Reply text) (snd (fst (autoBan E last m (fst (burst E (first :: times) m st))))).
Proof.
  intros Hnone Hlen Hwindow Hp Hfree.
  apply Forall_app in Hwindow as [Htimes Hlast]. apply Forall_inv in Hlast. cbv beta in Hlast.
  cbn [burst]. rewrite (autoBan_first first m st Hnone).
  set (st1 := set_messageSpam _ st).
  set (e1 := {| count := 1; lastReset := first; warned := false |}).
  assert (He1 : messageSpam st1 !! spamKey m = Some e1)
    by (subst st1; cbn [messageSpam set_messageSpam]; apply lookup_insert_eq).
  destruct (burst_counts times m st1 e1 He1 Htimes) as [Hstops [Hbanned Hentry]];
    [rewrite Hlen; unfold e1; cbn [count]; lia|].
  destruct (burst E times m st1) as [st10 stops]. cbn [fst snd] in *.
  rewrite Hlen in Hstops, Hentry. cbn [count lastReset warned e1] in Hentry.
  split; [by rewrite Hstops|]. split; [exact Hbanned|].
  unfold autoBan. fold (spamKey m). rewrite Hentry. cbv zeta. cbn [lastReset count warned].
  destruct (Z.gtb_spec (last - first) (60 * 1000)); [lia|]. cbn [count].
  change (1 + Z.of_nat 9 + 1 >? 10) with true. cbv iota.
  unfold normalizePhone. rewrite Hp.
  assert (Hnot : isBanned (set_messageSpam
                   (fun w => <[spamKey m := {| count := 1 + Z.of_nat 9 + 1; lastReset := first;
                                               warned := false |}]> w) st10) (Some p) = false).
  { apply bool_decide_eq_false_2. cbn [bannedUsers set_messageSpam]. by rewrite Hbanned. }
  rewrite Hnot. cbn [negb warned fst snd].
  split; [reflexivity|]. split.
  - cbn [bannedUsers set_messageSpam banUser set_bannedUsers].
    apply elem_of_union. left. by apply elem_of_singleton.
  - eexists. apply in_or_app. right. left. reflexivity.
Qed.

End SpamCounter.
(** ** Commands one after the other *)

Section Compositions.

Variable E : Env.
Implicit Type st : Bot (RL E).
Implicit Type m : Message.

(** X19. Solving a ticket and reopening it does not give back the ticket
    as it was: the row is open again, without a solution and without an
    assigned admin, whoever held it before, and it keeps the number and the
    name of the one who had solved it. What the requester entered stays. *)
Theorem reopening_forgets_the_assignment now m m' (adminName b b' : string) st
    (i : Z) (t : Db.Ticket) :
  body m = Some b ->
  3 <= Z.of_nat (length (Js.split " " b)) ->
  Js.parseInt (nth 1 (Js.split " " b) "") = Some i ->
  body m' = Some b' ->
  2 <= Z.of_nat (length (Js.split " " b')) ->
  Js.parseInt (nth 1 (Js.split " " b') "") = Some i ->
  Db.online (db st) = true ->
  Db.ticketById (db st) (Some i) = Some t ->
  Db.status t <> Db.solved ->
  exists st1 effects1 st2 effects2 (t2 : Db.Ticket),
    markSolved E now m adminName st = Some (st1, effects1)
    /\ handleUnsolved E m' st1 = Some (st2, effects2)
    /\ Db.ticketById (db st2) (Some i) = Some t2
    /\ requesterPart t2 = requesterPart t
    /\ Db.status t2 = Db.open /\ Db.solved_at t2 = None /\ Db.solution t2 = None
    /\ Db.assigned_admin t2 = None
    /\ Db.solved_by_phone t2 = normalize E (from m)
    /\ Db.assigned_admin_name t2
       = Some (default adminName (Db.profileName (db st) (normalize E (from m)))).
Proof.
  intros Hb Hlen Hid Hb' Hlen' Hid' Honline Ht Hstatus.
  unfold markSolved. rewrite Hb.
  destruct (Z.ltb_spec (Z.of_nat (length (Js.split " " b))) 3); [lia|].
  cbv zeta. rewrite Hid, Honline. simpl negb. cbv iota. rewrite Ht.
  destruct (Db.Status_eqb (Db.status t) Db.solved) eqn:Hs;
    [destruct (Db.status t); try discriminate Hs; contradiction|].
  eexists _, _, _, _, _. split; [reflexivity|].
  assert (Hfound : forall g : Db.Ticket -> Db.Ticket,
            (forall r, Db.id (g r) = Db.id r) ->
            List.find (Db.hasId i) (List.map (fun r => if Db.hasId i r then g r else r)
                                      (Db.tickets (db st))) = Some (g t)).
  { intros g Hg. rewrite find_hasId_map by exact Hg. unfold Db.ticketById in Ht.
    by rewrite Ht. }
  split.
  { unfold handleUnsolved. rewrite Hb'.
    destruct (Z.ltb_spec (Z.of_nat (length (Js.split " " b'))) 2); [lia|].
    cbv zeta. rewrite Hid'. cbn [db set_db Db.updateTicket Db.with_tickets Db.online].
    rewrite Honline. simpl negb. cbv iota.
    unfold Db.ticketById, Db.with_tickets. cbn [Db.tickets]. rewrite Hfound by reflexivity.
    cbn [Db.status Db.Status_eqb negb]. reflexivity. }
  split.
  { unfold Db.ticketById. cbn [db set_db Db.updateTicket]. unfold Db.with_tickets.
    cbn [Db.tickets].
    rewrite find_hasId_map by reflexivity. rewrite Hfound by reflexivity. reflexivity. }
  by repeat split.
Qed.

Lemma rewriteRow_twice (i : Z) (g1 g2 : Db.Ticket -> Db.Ticket) (l : list Db.Ticket)
    (t : Db.Ticket) :
  (forall r, Db.id (g1 r) = Db.id r) ->
  NoDup (List.map Db.id l) ->
  List.find (Db.hasId i) l = Some t ->
  g2 (g1 t) = t ->
  List.map (rewriteRow i g2) (List.map (rewriteRow i g1) l) = l.
Proof.
  intros Hid Hnd Ht Hback. rewrite List.map_map.
  rewrite <- (List.map_id l) at 2. apply List.map_ext_in. intros r Hin.
  unfold rewriteRow. destruct (Db.hasId i r) eqn:Hr; [|by rewrite Hr].
  assert (Hi : Db.hasId i (g1 r) = true) by (unfold Db.hasId in *; by rewrite Hid).
  rewrite Hi. by rewrite (find_hasId_unique i l t r Hnd Ht Hin Hr).
Qed.

(** X20. [/noassign] undoes [/assign]: when an admin without an active
    ticket takes an open ticket that nobody has held, and gives it up
    again, the table of tickets is what it was before. *)
Theorem noassign_undoes_assign m m' (b b' : string) st (i : Z) (t : Db.Ticket) :
  isGroupChat m = false -> isGroupChat m' = false ->
  from m' = from m ->
  body m = Some b -> body m' = Some b' ->
  2 <= Z.of_nat (length (Js.split " " b)) ->
  2 <= Z.of_nat (length (Js.split " " b')) ->
  sqlIdOfText E (nth 1 (Js.split " " b) "") = Some i ->
  sqlIdOfText E (nth 1 (Js.split " " b') "") = Some i ->
  Db.online (db st) = true ->
  NoDup (List.map Db.id (Db.tickets (db st))) ->
  Db.activeTicketOf (db st) (normalize E (from m)) = None ->
  Db.ticketById (db st) (Some i) = Some t ->
  Db.status t = Db.open ->
  Db.assigned_admin t = None -> Db.assigned_admin_name t = None ->
  exists st1 effects1 st2 effects2,
    handleAssign E m st = Some (st1, effects1)
    /\ Db.ticketById (db st1) (Some i)
       = Some (assignTo (normalize E (from m))
                 (adminDisplayName E m (normalize E (from m)) st) t)
    /\ handleNoAssign E m' st1 = Some (st2, effects2)
    /\ Db.tickets (db st2) = Db.tickets (db st).
Proof.
  intros Hprivate Hprivate' Hfrom Hb Hb' Hlen Hlen' Hid Hid' Honline Hnd Hfree Ht Hopen
    Hnobody Hnoname.
  unfold handleAssign. rewrite Hprivate, Hb.
  destruct (Z.ltb_spec (Z.of_nat (length (Js.split " " b))) 2); [lia|].
  cbv zeta. unfold normalizePhone. rewrite Honline, Hfree, Hid, Ht, Hopen, Hnobody.
  cbn [negb Db.Status_eqb Js.truthy].
  eexists _, _, _, _. split; [reflexivity|].
  assert (Hfound : forall g : Db.Ticket -> Db.Ticket,
            (forall r, Db.id (g r) = Db.id r) ->
            List.find (Db.hasId i) (List.map (fun r => if Db.hasId i r then g r else r)
                                      (Db.tickets (db st))) = Some (g t)).
  { intros g Hg. rewrite find_hasId_map by exact Hg. unfold Db.ticketById in Ht.
    by rewrite Ht. }
  split.
  { unfold Db.ticketById. cbn [db set_db Db.updateTicket]. unfold Db.with_tickets.
    cbn [Db.tickets].
    by rewrite Hfound. }
  split.
  { unfold handleNoAssign. rewrite Hprivate', Hb', Hfrom.
    destruct (Z.ltb_spec (Z.of_nat (length (Js.split " " b'))) 2); [lia|].
    cbv zeta. unfold normalizePhone. rewrite Hid'.
    cbn [db set_db Db.updateTicket Db.with_tickets Db.online]. rewrite Honline. cbn [negb].
    unfold Db.ticketById, Db.with_tickets. cbn [Db.tickets]. rewrite Hfound by reflexivity.
    cbn [Db.assigned_admin Db.status assignTo].
    rewrite bool_decide_eq_true_2 by reflexivity. rewrite Hopen. cbn [negb Db.Status_eqb].
    reflexivity. }
  cbn [db set_db Db.updateTicket]. unfold Db.with_tickets. cbn [Db.tickets].
  apply (rewriteRow_twice i _ _ _ t); [reflexivity|exact Hnd|exact Ht|].
  destruct t. cbn in Hnobody, Hnoname |- *. by subst.
Qed.

End Compositions.
(** ** The wizards of the others *)

Section WizardsApart.

Variable E : Env.
Implicit Type st : Bot (RL E).
Implicit Type m : Message.
Implicit Type u : UserState.

Lemma wizardStep_same (k : string) st st' :
  userStates st' = userStates st -> keyed st -> wizardStep k st st'.
Proof. intros Heq Hk. unfold wizardStep, keyed. rewrite Heq. by split. Qed.

Lemma wizardStep_store (k : string) u st :
  userPhone u = k -> keyed st -> wizardStep k st (store E k u st).
Proof.
  intros Hu Hk. unfold store. split.
  - intros key v. cbn [userStates set_userStates].
    destruct (decide (key = k)) as [-> | Hne].
    + rewrite lookup_insert_eq. by intros [= <-].
    + rewrite lookup_insert_ne by done. apply Hk.
  - intros key Hne. cbn [userStates set_userStates]. by rewrite lookup_insert_ne.
Qed.

Lemma wizardStep_delete (k : string) st :
  keyed st -> wizardStep k st (set_userStates (fun w => delete k w) st).
Proof.
  intros Hk. split.
  - intros key v. cbn [userStates set_userStates]. intros Hv.
    apply lookup_delete_Some in Hv as [_ Hv]. by apply Hk.
  - intros key Hne. cbn [userStates set_userStates]. by rewrite lookup_delete_ne.
Qed.

Lemma wizardStep_trans (k : string) st st1 st2 :
  wizardStep k st st1 -> wizardStep k st1 st2 -> wizardStep k st st2.
Proof.
  intros [_ H1] [Hk2 H2]. split; [exact Hk2|]. intros key Hne.
  by rewrite (H2 key Hne), (H1 key Hne).
Qed.

Lemma startNewTicket_wizards now m st :
  keyed st -> wizardStep (from m) st (fst (startNewTicket E now m st)).
Proof.
  intros Hk. unfold startNewTicket.
  destruct (isBanned st _); [by apply wizardStep_same|].
  destruct (canCreateTicket E now (from m) (rateLimiter st)) as [lc l].
  destruct (negb (allowed lc)); cbn [fst]; [by apply wizardStep_same|].
  assert (H1 : wizardStep (from m) st (set_rateLimiter (fun _ => l) st))
    by (by apply wizardStep_same).
  eapply wizardStep_trans; [exact H1|].
  apply (wizardStep_store (from m)); [reflexivity|exact (proj1 H1)].
Qed.

Lemma handleStop_wizards m st :
  keyed st -> wizardStep (from m) st (fst (handleStop E m st)).
Proof.
  intros Hk. unfold handleStop. destruct (userStates st !! from m);
    [by apply wizardStep_delete|by apply wizardStep_same].
Qed.

Lemma completeTicket_wizards now m u st :
  keyed st -> wizardStep (userPhone u) st (fst (completeTicket E now m u st)).
Proof.
  intros Hk. unfold completeTicket.
  destruct (negb (Db.online (db st))); [by apply wizardStep_delete|].
  unfold Db.insertTicket. cbn [fst].
  match goal with
  | |- wizardStep _ _ (set_userStates _ ?mid) =>
      assert (H1 : wizardStep (userPhone u) st mid) by (by apply wizardStep_same);
      eapply wizardStep_trans; [exact H1|]; apply wizardStep_delete; exact (proj1 H1)
  end.
Qed.

Lemma switchStep_wizards now (key : string) m u st st' effects :
  switchStep E now key m u st = Some (st', effects) ->
  userPhone u = key -> keyed st -> wizardStep key st st'.
Proof.
  unfold switchStep. intros H Hu Hk.
  destruct (step u =? 1).
  { unfold handleStep1 in H. destruct (body m) as [b|];
      [destruct (String.eqb b "1" || String.eqb b "2")|]; injection H as <- _;
      first [by apply wizardStep_store | by apply wizardStep_same]. }
  destruct (step u =? 2).
  { destruct (handleStep2_cases E key m u st st' effects H)
      as [-> | [b [Hb [-> _]]]]; [by apply wizardStep_same|by apply wizardStep_store]. }
  destruct (step u =? 3).
  { unfold handleStep3 in H. destruct (body m) as [b|]; [|discriminate]. cbv zeta in H.
    destruct (String.eqb (Js.trim b) "16");
      [injection H as <- _; by apply wizardStep_store|].
    destruct (lookupKey (Js.trim b) problemTypesExtended) as [label|];
      [|injection H as <- _; by apply wizardStep_same].
    injection H as H. apply (f_equal fst) in H. cbn [fst] in H. subst st'.
    eapply wizardStep_trans; [apply (wizardStep_store key (set_problemType label u) st Hu Hk)|].
    rewrite <- Hu at 1.
    apply (completeTicket_wizards now m (set_problemType label u)).
    by apply wizardStep_store. }
  destruct (step u =? 4); [|injection H as <- _; by apply wizardStep_same].
  unfold handleStep4 in H. destruct (body m) as [b|]; [|discriminate]. cbv zeta in H.
  destruct (Js.len (Js.trim b) >? 100); [injection H as <- _; by apply wizardStep_same|].
  destruct (Js.len (Js.trim b) =? 0); [injection H as <- _; by apply wizardStep_same|].
  injection H as H. apply (f_equal fst) in H. cbn [fst] in H. subst st'.
  eapply wizardStep_trans;
    [apply (wizardStep_store key (set_problemType (Js.trim b) u) st Hu Hk)|].
  rewrite <- Hu at 1.
  apply (completeTicket_wizards now m (set_problemType (Js.trim b) u)).
  by apply wizardStep_store.
Qed.

Lemma continueTicket_wizards now m st :
  keyed st -> wizardStep (from m) st (fst (continueTicket E now m st)).
Proof.
  intros Hk. unfold continueTicket.
  destruct (userStates st !! from m) as [u|] eqn:Hu; [|by apply wizardStep_same]. cbv zeta.
  pose proof (Hk _ _ Hu) as Hphone.
  pose proof (wizardStep_store (from m) (set_attempts (attempts u + 1) u) st Hphone Hk) as H1.
  eapply wizardStep_trans; [exact H1|].
  destruct (switchStep E now (from m) m _ _) as [[st1 e1]|] eqn:Hstep.
  - exact (switchStep_wizards _ _ _ _ _ _ _ Hstep Hphone (proj1 H1)).
  - unfold handleTicketError. rewrite lookup_store.
    destruct (attempts _ >=? 3); cbn [fst];
      [apply wizardStep_delete|apply wizardStep_same; [reflexivity|]]; exact (proj1 H1).
Qed.

Lemma handleCommands_wizards now m (messageBody : string) (isGroup matched : bool)
    st st' effects :
  externalsKeepWizards E ->
  handleCommands E now m messageBody isGroup st = Some (matched, (st', effects)) ->
  keyed st -> wizardStep (from m) st st'.
Proof.
  intros Hext H Hk. unfold handleCommands in H. cbv zeta in H.
  repeat match type of H with
         | (if ?c then _ else _) = _ => destruct c
         end;
    repeat match type of H with
           | match ?o with Some _ => _ | None => _ end = _ => destruct o as [[? ?]|] eqn:?
           end;
    simplify_eq; cbn [fst];
    first
      [ by apply startNewTicket_wizards
      | by apply handleStop_wizards
      | apply wizardStep_same; [|exact Hk];
        first
          [ reflexivity
          | apply Hext
          | eapply markSolved_chats; eassumption
          | eapply handleLongTerm_chats; eassumption
          | eapply handleUnsolved_chats; eassumption
          | eapply handleAssign_chats; eassumption
          | eapply handleNoAssign_chats; eassumption ] ].
Qed.

Lemma processMessage_wizards now m (isGroup : bool) (senderIdRaw : string) st :
  externalsKeepWizards E ->
  keyed st -> wizardStep (from m) st (fst (processMessage E now m isGroup senderIdRaw st)).
Proof.
  intros Hext Hk. unfold processMessage. cbv zeta.
  destruct (String.eqb (from m) ""); [by apply wizardStep_same|].
  destruct (negb (Js.truthy (body m)) && negb (hasMedia m)); [by apply wizardStep_same|].
  destruct (mediaCheck m) as [mediaLog tooLarge].
  destruct tooLarge; [by apply wizardStep_same|].
  destruct (isBanned st _); [by apply wizardStep_same|].
  destruct (negb isGroup && negb (Js.startsWith "/" _) && isGreeting _).
  { pose proof (startNewTicket_wizards now m st Hk) as H1.
    destruct (startNewTicket E now m st) as [s1 e1]. exact H1. }
  destruct (if negb isGroup then adminLoginCheck E m st else Next) as [[s1 e1]| |] eqn:Hlogin.
  - destruct (negb isGroup); [|discriminate]. cbn [fst].
    apply wizardStep_same; [|exact Hk]. exact (adminLoginCheck_userStates E _ _ _ _ Hlogin).
  - destruct (handleCommands E now m _ isGroup st) as [[matched [s1 e1]]|] eqn:Hcmd;
      [|by apply wizardStep_same].
    pose proof (handleCommands_wizards _ _ _ _ _ _ _ _ Hext Hcmd Hk) as H1.
    destruct matched; [exact H1|].
    destruct (negb isGroup && bool_decide (is_Some (userStates s1 !! senderIdRaw)));
      [|exact H1].
    pose proof (continueTicket_wizards now m s1 (proj1 H1)) as H2.
    destruct (continueTicket E now m s1) as [s2 e2].
    exact (wizardStep_trans _ _ _ _ H1 H2).
  - by apply wizardStep_same.
Qed.

(** X21. The wizards of the chats are apart: when every wizard is kept
    under the address of its requester, a message changes no wizard but
    that of the chat it comes from, and the wizards are kept under their
    addresses afterwards. *)
Theorem a_message_changes_only_the_wizard_of_its_chat now m st (key : string) :
  externalsKeepWizards E ->
  keyed st ->
  key <> from m ->
  userStates (fst (handleMessage E now m st)) !! key = userStates st !! key
  /\ keyed (fst (handleMessage E now m st)).
Proof.
  intros Hext Hk Hne.
  enough (H : wizardStep (from m) st (fst (handleMessage E now m st)))
    by (split; [by apply H|apply H]).
  unfold handleMessage. cbv zeta.
  destruct (fromMe m); [by apply wizardStep_same|].
  destruct (Js.truthy _ && isBanned st _); [by apply wizardStep_same|].
  assert (Hspam : wizardStep (from m) st (fst (fst
            (if negb (isGroupChat m) then autoBan E now m st else (st, [], false))))).
  { destruct (negb (isGroupChat m)); [|by apply wizardStep_same].
    apply wizardStep_same; [apply autoBan_userStates|exact Hk]. }
  destruct (if negb (isGroupChat m) then autoBan E now m st else (st, [], false))
    as [[s1 e1] stop].
  cbn [fst] in Hspam. destruct stop; [exact Hspam|].
  pose proof (processMessage_wizards now m (isGroupChat m)
                (extractSenderId E m (isGroupChat m)) s1 Hext (proj1 Hspam)) as Hp.
  destruct (processMessage E now m _ _ s1) as [s2 e2].
  exact (wizardStep_trans _ _ _ _ Hspam Hp).
Qed.

End WizardsApart.
(** ** Durations *)

(** X22. The time to solve a ticket is told in whole hours and minutes that
    add up: for a solution that is not before the creation, the hours and
    the minutes (below 60) that [calculateSolveDuration] shows make up the
    whole minutes between the two instants, and the hours are left out
    when there are none. *)
Theorem solve_duration_adds_up (E : Env) (createdAt solvedAt : string) :
  0 <= momentDiff E createdAt solvedAt ->
  exists hours minutes : Z,
    0 <= hours /\ 0 <= minutes < 60
    /\ 60 * hours + minutes = momentDiff E createdAt solvedAt / 60000
    /\ calculateSolveDuration E createdAt solvedAt
       = if hours =? 0 then Js.showZ minutes +:+ " dəqiqə"
         else Js.showZ hours +:+ " saat " +:+ Js.showZ minutes +:+ " dəqiqə".
Proof.
  intros Hms. unfold calculateSolveDuration. cbv zeta.
  set (ms := momentDiff E createdAt solvedAt) in *.
  assert (Hquot : Z.rem (Z.quot (Z.quot ms 1000) 60) 60 = (ms / 60000) mod 60).
  { assert (H1 : 0 <= ms / 1000) by (apply Z.div_pos; lia).
    assert (H2 : 0 <= ms / 1000 / 60) by (apply Z.div_pos; lia).
    rewrite (Z.quot_div_nonneg ms 1000) by lia.
    rewrite (Z.quot_div_nonneg (ms / 1000) 60) by lia.
    rewrite Z.rem_mod_nonneg by lia.
    rewrite Z.div_div by lia. reflexivity. }
  rewrite Hquot.
  assert (Hhours : ms / 3600000 = ms / 60000 / 60) by (rewrite Z.div_div by lia; reflexivity).
  exists (ms / 3600000), ((ms / 60000) mod 60).
  assert (H0 : 0 <= ms / 3600000) by (apply Z.div_pos; lia).
  split; [exact H0|]. split; [apply Z.mod_pos_bound; lia|].
  split; [rewrite Hhours; symmetry; apply Z.div_mod; lia|].
  destruct (Z.gtb_spec (ms / 3600000) 0), (Z.eqb_spec (ms / 3600000) 0); try reflexivity; lia.
Qed.

(** ** Ratings *)



(** ** The further theorems at sample inputs *)

Lemma externalsKeepWizards_ref : externalsKeepWizards Ref.env.
Proof. intros h m st. reflexivity. Qed.

Lemma externalsKeepChats_ref : externalsKeepChats Ref.env.
Proof. intros h m st. by repeat split. Qed.

Lemma keyed_atRoom : keyed Sample.atRoom.
Proof.
  assert (H : userStates Sample.atRoom = {[ Sample.alice := Cases.roomStep ]})
    by (vm_compute; reflexivity).
  intros k u. rewrite H. intros Hu. apply lookup_singleton_Some in Hu as [<- <-]. reflexivity.
Qed.


(** X2 at a sample input: two lines of two characters, and a limit of 5. *)
Lemma splitMessage_parts_within_limit_witness :
  Forall (fun part => Js.len part <= 5) (splitMessage Cases.twoLines 5).
Proof.
  apply (splitMessage_parts_within_limit Cases.twoLines 5).
  vm_compute. repeat constructor; discriminate.
Defined.

(** X4 at a sample input: alice's number. *)
Lemma formatPhoneNumber_keeps_the_digits_witness :
  keepDigits (formatPhoneNumber (Some Sample.aliceId)) = Sample.aliceId.
Proof.
  apply (formatPhoneNumber_keeps_the_digits Sample.aliceId); [discriminate|reflexivity].
Defined.

(** X5 at a sample input: alice's address. *)
Lemma formatPhoneNumber_drops_the_suffix_witness :
  formatPhoneNumber (Some (Sample.aliceId +:+ "@c.us")) = formatPhoneNumber (Some Sample.aliceId).
Proof.
  apply (formatPhoneNumber_drops_the_suffix Sample.aliceId); [discriminate|reflexivity].
Defined.

(** X6 at a sample input: bob holds ticket 1, and the group solves it. *)
Lemma requester_columns_are_never_rewritten_witness :
  exists r' : Db.Ticket,
    Db.tickets (db (fst (receive Ref.env [(106000, Cases.solve)] Sample.bobBusy))) !! 0%nat
    = Some r'
    /\ Db.id r' = 1 /\ Db.user_id r' = Sample.alice
    /\ Db.corpus r' = Some "1" /\ Db.room r' = Some "205".
Proof.
  destruct (requester_columns_are_never_rewritten Ref.env [(106000, Cases.solve)]
              Sample.bobBusy 0%nat Sample.firstTicket)
    as (r' & Hr' & Hid & Huser & _ & _ & Hcorpus & Hroom & _).
  - exact externalsKeepTickets_ref.
  - vm_compute. reflexivity.
  - exists r'. by repeat split.
Defined.


(** X8 at a sample input: bob gives up ticket 1 in his private chat. *)
Lemma private_messages_decide_no_ticket_witness :
  exists r' : Db.Ticket,
    Db.tickets (db (fst (handleMessage Ref.env 105000 (Ref.text Sample.bob "/noassign 1")
                           Sample.bobBusy))) !! 0%nat
    = Some r'
    /\ Db.status r' = Db.open /\ Db.solved_at r' = None /\ Db.solution r' = None.
Proof.
  destruct (private_messages_decide_no_ticket Ref.env 105000
              (Ref.text Sample.bob "/noassign 1") Sample.bobBusy 0%nat Sample.firstTicket)
    as (r' & Hr' & Hstatus & Hat & Hsolution & _).
  - exact externalsKeepTickets_ref.
  - reflexivity.
  - vm_compute. reflexivity.
  - exists r'. by repeat split.
Defined.

(** X10 at a sample input: alice answers the room step with a room that
    has a no-break space before its letter and another at its end. *)
Lemma stored_room_is_well_formed_witness :
  exists b : string,
    body (Ref.text Sample.alice Cases.spacedRoom) = Some b
    /\ Js.toUpperCase (Js.trim b) = "205" +:+ Cases.nbsp +:+ "A"
    /\ wellFormedRoom (Some "1") (Js.toUpperCase (Js.trim b)).
Proof.
  destruct (stored_room_is_well_formed Ref.env Sample.alice
              (Ref.text Sample.alice Cases.spacedRoom)
              Cases.roomStep Sample.atRoom
              (store Ref.env Sample.alice
                 (set_step 3 (set_room ("205" +:+ Cases.nbsp +:+ "A") Cases.roomStep))
                 Sample.atRoom)
              (showProblemTypes))
    as (b & Hb & _ & Hwf).
  - vm_compute. reflexivity.
  - intros H. apply (f_equal (fun s => step <$> userStates s !! Sample.alice)) in H.
    vm_compute in H. discriminate H.
  - exists b. split; [exact Hb|]. split; [|exact Hwf].
    injection Hb as <-. reflexivity.
Defined.

(** X11 at a sample input: the first of alice's two tickets. *)
Lemma every_filed_ticket_is_well_formed_witness :
  exists c r : string,
    Db.corpus Sample.firstTicket = Some c /\ Db.room Sample.firstTicket = Some r
    /\ inCorpusRange c (mainNumber r).
Proof.
  destruct (every_filed_ticket_is_well_formed Ref.env Sample.twoTickets Sample.fresh
              Sample.firstTicket)
    as (c & r & Hc & Hr & Hrange & _).
  - exact externalsKeepTickets_ref.
  - exact externalsKeepWizards_ref.
  - reflexivity.
  - reflexivity.
  - vm_compute. left. reflexivity.
  - exists c, r. by repeat split.
Defined.

(** X12 at a sample input: alice, who has not logged in, bans bob. *)
Lemma admin_commands_need_a_login_witness :
  handleCommands Ref.env 0 (Ref.text Sample.alice "/ban 994551112233") "/ban 994551112233"
    false Sample.fresh
  = Some (true, (Sample.fresh,
                 [Log "command" "🔧 Komanda işlənir: /ban 994551112233"; Reply loginRequired])).
Proof.
  apply (admin_commands_need_a_login Ref.env 0 (Ref.text Sample.alice "/ban 994551112233")
           "/ban 994551112233" false Sample.fresh).
  - reflexivity.
  - apply (bool_decide_unpack _). vm_compute. exact I.
  - vm_compute. reflexivity.
Defined.

(** X13 at a sample input: the group solves ticket 1. *)
Lemma group_messages_touch_no_chat_witness :
  sameChats Sample.bobBusy (fst (handleMessage Ref.env 106000 Cases.solve Sample.bobBusy)).
Proof.
  apply (group_messages_touch_no_chat Ref.env 106000 Cases.solve Sample.bobBusy).
  - exact externalsKeepChats_ref.
  - reflexivity.
Defined.

(** X14 at a sample input: a command with two arguments, and no-break
    spaces between and after them. *)
Lemma validated_parts_are_words_witness :
  2 + 1 <= Z.of_nat (length ["/rate"; "5"; "good"])
  /\ (["/rate"; "5"; "good"] = [""] \/ Forall isWord ["/rate"; "5"; "good"]).
Proof.
  apply (validated_parts_are_words (Ref.text Sample.alice Cases.spacedRate) "rate"
           "/rate <ticket_id> <1-5>" 2 ["/rate"; "5"; "good"]).
  vm_compute. reflexivity.
Defined.

(** X15 at a sample input: bob registers a name of two words, with a
    no-break space between them. *)
Lemma registered_name_is_looked_up_witness :
  exists (st' : Bot Ref.Limiter) (words : list string),
    fst <$> Cmd.handleRegister Ref.env (Ref.text Sample.bob Cases.spacedRegister)
              Sample.fresh = Some st'
    /\ Forall isWord words
    /\ Db.profileName (db st') (Some Sample.bobId) = Some (joinWords words)
    /\ joinWords words = "Bob Marley".
Proof.
  destruct (registered_name_is_looked_up Ref.env (Ref.text Sample.bob Cases.spacedRegister)
              Cases.spacedRegister Sample.bobId Sample.fresh)
    as (st' & effects & words & Hrun & Hskip & _ & Hwords & Hname & _).
  - reflexivity.
  - reflexivity.
  - vm_compute. discriminate.
  - reflexivity.
  - reflexivity.
  - exists st', words. rewrite Hrun. split; [reflexivity|]. split; [exact Hwords|].
    split; [exact Hname|]. rewrite <- Hskip. reflexivity.
Defined.

(** X16 at a sample input: bob is banned and unbanned. *)
Lemma unban_undoes_ban_witness :
  exists (st1 : Bot Ref.Limiter) effects1 effects2,
    Cmd.handleBan Ref.env (Ref.text Sample.alice "/ban 994551112233") Sample.fresh
    = Some (st1, effects1)
    /\ isBanned st1 (Some Sample.bobId) = true
    /\ Cmd.handleUnban Ref.env (Ref.text Sample.alice "/unban +994551112233") st1
       = Some (Sample.fresh, effects2).
Proof.
  destruct (unban_undoes_ban Ref.env (Ref.text Sample.alice "/ban 994551112233")
              (Ref.text Sample.alice "/unban +994551112233")
              "/ban 994551112233" "/unban +994551112233" Sample.bobId Sample.fresh)
    as (st1 & e1 & e2 & Hban & Hbanned & Hunban & _).
  - reflexivity.
  - reflexivity.
  - vm_compute. discriminate.
  - vm_compute. discriminate.
  - reflexivity.
  - reflexivity.
  - discriminate.
  - apply (bool_decide_unpack _). vm_compute. exact I.
  - exists st1, e1, e2. by repeat split.
Defined.

(** X17 at a sample input: a bot without a group is told its group. *)
Lemma filed_ticket_goes_to_the_registered_group_witness :
  exists text : string,
    In (SendMessage Sample.group text)
       (snd (completeTicket Ref.env 3000 (Ref.text Sample.alice "3") Cases.roomStep
               (fst (Cmd.handleGroupId Ref.env (Ref.text Sample.group "/groupid")
                       (Ref.initial None ("admin", "secret")))))).
Proof.
  apply (filed_ticket_goes_to_the_registered_group Ref.env 3000
           (Ref.text Sample.group "/groupid") (Ref.text Sample.alice "3") Cases.roomStep
           (Ref.initial None ("admin", "secret"))).
  - discriminate.
  - reflexivity.
Defined.

(** X18 at a sample input: eleven messages of alice, one second apart. *)
Lemma eleventh_message_in_a_minute_bans_witness :
  snd (burst Ref.env (0 :: Cases.nineSeconds) (Ref.text Sample.alice "x") Sample.fresh)
  = List.repeat false 10
  /\ Sample.aliceId
     ∈ bannedUsers (fst (fst (autoBan Ref.env 10000 (Ref.text Sample.alice "x")
                                (fst (burst Ref.env (0 :: Cases.nineSeconds)
                                        (Ref.text Sample.alice "x") Sample.fresh))))).
Proof.
  destruct (eleventh_message_in_a_minute_bans Ref.env 0 10000 Cases.nineSeconds
              (Ref.text Sample.alice "x") Sample.fresh Sample.aliceId)
    as (Hpass & _ & _ & Hban & _).
  - vm_compute. reflexivity.
  - reflexivity.
  - vm_compute. repeat constructor; discriminate.
  - reflexivity.
  - apply (bool_decide_unpack _). vm_compute. exact I.
  - by split.
Defined.

(** X19 at a sample input: the group solves ticket 1, which bob holds,
    and reopens it. *)
Lemma reopening_forgets_the_assignment_witness :
  exists (st1 st2 : Bot Ref.Limiter) (t2 : Db.Ticket),
    fst <$> markSolved Ref.env 106000 Cases.solve "Aysel" Sample.bobBusy = Some st1
    /\ fst <$> handleUnsolved Ref.env Cases.reopen st1 = Some st2
    /\ Db.ticketById (db st2) (Some 1) = Some t2
    /\ Db.status t2 = Db.open /\ Db.assigned_admin t2 = None.
Proof.
  destruct (reopening_forgets_the_assignment Ref.env 106000 Cases.solve Cases.reopen "Aysel"
              "/solved 1 rebooted" "/unsolved 1" Sample.bobBusy 1 Sample.firstTicket)
    as (st1 & e1 & st2 & e2 & t2 & Hsolve & Hreopen & Hrow & _ & Hstatus & _ & _ & Hadmin & _).
  - reflexivity.
  - vm_compute. discriminate.
  - reflexivity.
  - reflexivity.
  - vm_compute. discriminate.
  - reflexivity.
  - reflexivity.
  - vm_compute. reflexivity.
  - discriminate.
  - exists st1, st2, t2. rewrite Hsolve, Hreopen. by repeat split.
Defined.

(** X20 at a sample input: bob takes alice's ticket and gives it up. *)
Lemma noassign_undoes_assign_witness :
  exists (st1 st2 : Bot Ref.Limiter),
    fst <$> handleAssign Ref.env (Ref.text Sample.bob "/assign 1") Cases.filed = Some st1
    /\ fst <$> handleNoAssign Ref.env (Ref.text Sample.bob "/noassign 1") st1 = Some st2
    /\ Db.tickets (db st2) = Db.tickets (db Cases.filed).
Proof.
  destruct (noassign_undoes_assign Ref.env (Ref.text Sample.bob "/assign 1")
              (Ref.text Sample.bob "/noassign 1") "/assign 1" "/noassign 1" Cases.filed
              1 Cases.filedTicket)
    as (st1 & e1 & st2 & e2 & Hassign & _ & Hgive & Hsame).
  - reflexivity.
  - reflexivity.
  - reflexivity.
  - reflexivity.
  - reflexivity.
  - vm_compute. discriminate.
  - vm_compute. discriminate.
  - reflexivity.
  - reflexivity.
  - reflexivity.
  - vm_compute. apply NoDup_singleton.
  - vm_compute. reflexivity.
  - vm_compute. reflexivity.
  - reflexivity.
  - reflexivity.
  - reflexivity.
  - exists st1, st2. rewrite Hassign, Hgive. by repeat split.
Defined.

(** X21 at a sample input: alice is at the room step, and bob greets. *)
Lemma a_message_changes_only_the_wizard_of_its_chat_witness :
  userStates (fst (handleMessage Ref.env 5000 (Ref.text Sample.bob "salam") Sample.atRoom))
    !! Sample.alice
  = userStates Sample.atRoom !! Sample.alice
  /\ keyed (fst (handleMessage Ref.env 5000 (Ref.text Sample.bob "salam") Sample.atRoom)).
Proof.
  apply (a_message_changes_only_the_wizard_of_its_chat Ref.env 5000
           (Ref.text Sample.bob "salam") Sample.atRoom Sample.alice).
  - exact externalsKeepWizards_ref.
  - exact keyed_atRoom.
  - discriminate.
Defined.

(** X9 at a sample input: alice's two tickets. *)
Lemma ticket_ids_stay_distinct_witness :
  NoDup (List.map Db.id (Db.tickets (db Sample.bobBusy))).
Proof.
  destruct (ticket_ids_stay_distinct Ref.env Sample.twoTickets Sample.fresh) as [Hids _].
  - exact externalsKeepTickets_ref.
  - exact storeInv_fresh.
  - exact Hids.
Defined.

(** X22 at a sample input: a ticket filed at 3000 and solved at 106000. *)
Lemma solve_duration_adds_up_witness :
  exists hours minutes : Z,
    60 * hours + minutes = 1
    /\ calculateSolveDuration Ref.env "3000" "106000"
       = if hours =? 0 then Js.showZ minutes +:+ " dəqiqə"
         else Js.showZ hours +:+ " saat " +:+ Js.showZ minutes +:+ " dəqiqə".
Proof.
  destruct (solve_duration_adds_up Ref.env "3000" "106000")
    as (hours & minutes & _ & _ & Hsum & Htext).
  - vm_compute. discriminate.
  - exists hours, minutes. split; [exact Hsum|exact Htext].
Defined.

